(** * CYBER-HERO: mission logic, fake-network generators and persistence

    A shallow embedding of the game-state logic of the repository:

    - [src/missions/mission{1,2,3}_*.py]: the objective trackers;
    - [src/systems/network_generator.py]: the randomised Mission 1 network;
    - [src/core/network_simulation.py]: the fixed network and its validator;
    - [src/core/save_load.py]: one JSON file per profile;
    - [src/core/settings_manager.py]: the settings file merged with defaults.

    Conventions of the embedding.

    - A Python [str] is a [string] of ASCII characters: [lower], [upper],
      [strip], [isalnum] and [int] are Python's on code points 0..127.  The
      embedding leaves a character above 127 unchanged by the case maps and
      takes it for neither whitespace nor alphanumeric, which is not
      Python's reading of it; what depends on that reading (the characters
      kept in a file name, the text [int] accepts) is stated of ASCII text,
      [Py.is_ascii].
    - A dictionary with a fixed set of literal keys is a record; a dictionary
      whose keys come from outside (JSON objects, submitted forms) is an
      association list in insertion order.
    - The [random] module is an explicit state [rng]: a stream of raw draws
      and a position; every primitive consumes draws from it.
    - Code that can raise runs in the [result] monad; [try]/[except] is a
      match on the result.
    - Display-only entries of the objective dictionaries (title, description,
      hint) are left out. *)

From Stdlib Require Import ZArith List String Ascii Bool Lia.
From Stdlib Require Import Sorting.Sorted Sorting.Permutation.
From Stdlib Require Import Numbers.DecimalString.
From Stdlib Require Import PrimFloat Uint63.
From stdpp Require Import gmap strings.
Import ListNotations.

Local Open Scope string_scope.
Local Open Scope list_scope.
Local Open Scope Z_scope.

#[local] Set Warnings "-register-all".

(** ** Python strings *)

Module Py.

Definition code (c : ascii) : N := N_of_ascii c.

Definition between (lo hi : N) (c : ascii) : bool :=
  ((lo <=? code c) && (code c <=? hi))%N.

Definition is_upper (c : ascii) : bool := between 65 90 c.
Definition is_lower (c : ascii) : bool := between 97 122 c.
Definition is_digit (c : ascii) : bool := between 48 57 c.

(** [str.isspace] on ASCII: TAB..CR, FS..US and the space. *)
Definition is_space (c : ascii) : bool := between 9 13 c || between 28 32 c.

(** [c.isalnum()] for a one-character ASCII string. *)
Definition isalnum (c : ascii) : bool := is_upper c || is_lower c || is_digit c.

Definition lower_char (c : ascii) : ascii :=
  if is_upper c then ascii_of_N (code c + 32) else c.

Definition upper_char (c : ascii) : ascii :=
  if is_lower c then ascii_of_N (code c - 32) else c.

Fixpoint smap (f : ascii -> ascii) (s : string) : string :=
  match s with
  | EmptyString => EmptyString
  | String c r => String (f c) (smap f r)
  end.

Fixpoint sfilter (p : ascii -> bool) (s : string) : string :=
  match s with
  | EmptyString => EmptyString
  | String c r => if p c then String c (sfilter p r) else sfilter p r
  end.

Definition lower (s : string) : string := smap lower_char s.
Definition upper (s : string) : string := smap upper_char s.

Fixpoint lstrip (s : string) : string :=
  match s with
  | EmptyString => EmptyString
  | String c r => if is_space c then lstrip r else s
  end.

Fixpoint rstrip (s : string) : string :=
  match s with
  | EmptyString => EmptyString
  | String c r =>
      match rstrip r with
      | EmptyString => if is_space c then EmptyString else String c EmptyString
      | r' => String c r'
      end
  end.

(** [s.strip()] *)
Definition strip (s : string) : string := rstrip (lstrip s).

(** [s.replace(a, b)] for one-character [a] and [b]. *)
Definition replace (a b : ascii) (s : string) : string :=
  smap (fun c => if Ascii.eqb c a then b else c) s.

(** [c in chars] for a one-character string [c]. *)
Fixpoint char_in (c : ascii) (chars : string) : bool :=
  match chars with
  | EmptyString => false
  | String d r => Ascii.eqb c d || char_in c r
  end.

(** [x in l] on lists, with [==] on the elements. *)
Definition str_in (x : string) (l : list string) : bool :=
  existsb (String.eqb x) l.

Definition int_in (x : Z) (l : list Z) : bool := existsb (Z.eqb x) l.

(** *** Formatting *)

(** [str(n)] / [f"{n}"] for a non-negative integer. *)
Definition str_of_nat (n : nat) : string := NilZero.string_of_uint (Nat.to_uint n).

Definition hex_digit (n : N) : ascii :=
  if (n <? 10)%N then ascii_of_N (48 + n) else ascii_of_N (55 + n).

(** [f"{n:02X}"] for [0 <= n <= 255]. *)
Definition hex02 (n : Z) : string :=
  let m := Z.to_N n in
  String (hex_digit (m / 16)) (String (hex_digit (m mod 16)) EmptyString).

(** [sep.join(parts)] *)
Fixpoint join (sep : string) (parts : list string) : string :=
  match parts with
  | [] => EmptyString
  | [p] => p
  | p :: rest => p +:+ sep +:+ join sep rest
  end.

(** *** ASCII text *)

(** [s.isascii()] *)
Fixpoint is_ascii (s : string) : bool :=
  match s with
  | EmptyString => true
  | String c r => (code c <? 128)%N && is_ascii r
  end.

(** *** [int(s)] on ASCII text

    [int] skips the whitespace of C's [isspace] at both ends: TAB, LF, VT,
    FF, CR and the space, and not FS..US, which [strip] drops.  One sign is
    allowed, and the digits may be separated by single underscores.  More
    than 4300 digits are refused (the default limit of
    [sys.set_int_max_str_digits]).  [None] stands for [ValueError]. *)

Definition is_int_space (c : ascii) : bool := between 9 13 c || Ascii.eqb c " ".

Fixpoint int_lstrip (s : string) : string :=
  match s with
  | EmptyString => EmptyString
  | String c r => if is_int_space c then int_lstrip r else s
  end.

Fixpoint int_rstrip (s : string) : string :=
  match s with
  | EmptyString => EmptyString
  | String c r =>
      match int_rstrip r with
      | EmptyString => if is_int_space c then EmptyString else String c EmptyString
      | r' => String c r'
      end
  end.

Definition int_strip (s : string) : string := int_rstrip (int_lstrip s).

Definition digit_val (c : ascii) : Z := Z.of_N (code c) - 48.

(** [digits acc prev_digit s]: [prev_digit] tells whether the last character
    read was a digit, which is what an underscore needs before and after. *)
Fixpoint digits (acc : Z) (prev_digit : bool) (s : string) : option Z :=
  match s with
  | EmptyString => if prev_digit then Some acc else None
  | String c r =>
      if is_digit c then digits (10 * acc + digit_val c) true r
      else if Ascii.eqb c "_" then
        if prev_digit then digits acc false r else None
      else None
  end.

(** The number of digits of a numeral, leading zeros included, underscores
    not. *)
Fixpoint count_digits (s : string) : Z :=
  match s with
  | EmptyString => 0
  | String c r => (if is_digit c then 1 else 0) + count_digits r
  end.

Definition int_max_str_digits : Z := 4300.

Definition unsigned_int (s : string) : option Z :=
  match s with
  | EmptyString => None
  | String c _ =>
      if is_digit c then
        if count_digits s <=? int_max_str_digits then digits 0 false s else None
      else None
  end.

Definition int_of_str (s : string) : option Z :=
  match int_strip s with
  | String "+" r => unsigned_int r
  | String "-" r => option_map Z.opp (unsigned_int r)
  | t => unsigned_int t
  end.

(** *** Dictionaries as association lists *)

Section Dict.
Context {V : Type}.

(** [d.get(k)] *)
Fixpoint get (k : string) (d : list (string * V)) : option V :=
  match d with
  | [] => None
  | (k', v) :: r => if String.eqb k k' then Some v else get k r
  end.

(** [k in d] *)
Definition has_key (k : string) (d : list (string * V)) : bool :=
  match get k d with Some _ => true | None => false end.

(** [d[k] = v]: in place when the key exists, appended otherwise. *)
Fixpoint set (k : string) (v : V) (d : list (string * V)) : list (string * V) :=
  match d with
  | [] => [(k, v)]
  | (k', v') :: r =>
      if String.eqb k k' then (k', v) :: r else (k', v') :: set k v r
  end.

End Dict.

End Py.

(** ** The [random] module

    The generator's state is a stream of raw draws read from left to right.
    Every primitive below consumes the draws the library call consumes in
    the model and maps them into the range of the call, so that each value
    of the range can come out. *)

Module Random.

Record rng := Rng { draws : nat -> Z; pos : nat }.

Definition next (r : rng) : Z * rng :=
  (draws r (pos r), Rng (draws r) (S (pos r))).

(** [_randbelow(n)]: a value in [0, n). *)
Definition randbelow (n : Z) (r : rng) : Z * rng :=
  let (x, r') := next r in (x mod n, r').

(** [random.randint(a, b)]: a value in [a, b]. *)
Definition randint (a b : Z) (r : rng) : Z * rng :=
  let (x, r') := randbelow (b - a + 1) r in (a + x, r').

(** [random.random()] is [k / 2^53] for an integer [0 <= k < 2^53]; the
    model returns [k]. *)
Definition random (r : rng) : Z * rng := randbelow (2 ^ 53) r.

(** [random.random() > 0.3]: the double nearest to 0.3 is
    [5404319552844595 / 2^54], and [k / 2^53] is exact, so the comparison is
    [2 * k > 5404319552844595]. *)
Definition gt_0_3 (k : Z) : bool := 5404319552844595 <? 2 * k.

(** [random.choice(l)] for a non-empty [l]; [d] is never returned then. *)
Definition choice {A} (d : A) (l : list A) (r : rng) : A * rng :=
  let (i, r') := randbelow (Z.of_nat (length l)) r in
  (nth (Z.to_nat i) l d, r').

(** [random.sample(population, k)] for a population of at most 21
    elements: the pool loop of CPython.  [m] is [n - i]. *)
Fixpoint sample_loop {A} (d : A) (pool : list A) (m : nat) (k : nat) (r : rng)
  : list A * rng :=
  match k with
  | O => ([], r)
  | S k' =>
      let (j, r1) := randbelow (Z.of_nat m) r in
      let x := nth (Z.to_nat j) pool d in
      let pool' := <[Z.to_nat j := nth (m - 1) pool d]> pool in
      let (rest, r2) := sample_loop d pool' (m - 1) k' r1 in
      (x :: rest, r2)
  end.

Definition sample {A} (d : A) (population : list A) (k : nat) (r : rng)
  : list A * rng :=
  sample_loop d population (length population) k r.

End Random.

(** ** [sorted] on integers *)

Module Sort.

Fixpoint insert (x : Z) (l : list Z) : list Z :=
  match l with
  | [] => [x]
  | y :: r => if x <=? y then x :: l else y :: insert x r
  end.

(** [sorted(l)] *)
Fixpoint sorted (l : list Z) : list Z :=
  match l with
  | [] => []
  | x :: r => insert x (sorted r)
  end.

End Sort.

(** ** [src/systems/network_generator.py] *)

Module NetworkGenerator.
Import Random.

Record Device := mkDevice {
  name : string;
  ip : string;
  mac : string;
  device_type : string;
  open_ports : list Z;
  is_trusted : bool;
  isolated : bool
}.

Inductive template_key := router | player_pc | phone | iot_camera | unknown_device.

Record template := mkTemplate {
  t_name : string;
  t_type : string;
  possible_ports : list Z;
  risky_ports : list Z;
  trusted : bool
}.

Definition DEVICE_TEMPLATES (k : template_key) : template :=
  match k with
  | router => mkTemplate "Router" "router" [22; 23; 80; 443; 8080] [23] true
  | player_pc => mkTemplate "PC-Principal" "computer" [22; 80; 443; 3389] [] true
  | phone => mkTemplate "Smartphone" "mobile" [443; 8080] [] true
  | iot_camera => mkTemplate "Camera-IP" "iot" [23; 80; 554; 8080] [23] true
  | unknown_device => mkTemplate "Device-Inconnu" "unknown" [23; 445; 3389] [23; 445] false
  end.

Definition network_base : string := "192.168.1".

(** [[f(randint(a, b)) for _ in range(k)]] *)
Fixpoint randints (k : nat) (a b : Z) (r : rng) : list Z * rng :=
  match k with
  | O => ([], r)
  | S k' =>
      let (x, r1) := randint a b r in
      let (rest, r2) := randints k' a b r1 in
      (x :: rest, r2)
  end.

Definition generate_mac (r : rng) : string * rng :=
  let (octets, r') := randints 6 0 255 r in
  (Py.join ":" (map Py.hex02 octets), r').

Definition generate_ip (host_id : nat) : string :=
  network_base +:+ "." +:+ Py.str_of_nat host_id.

Definition create_device (key : template_key) (host_id : nat) (r : rng)
  : Device * rng :=
  let t := DEVICE_TEMPLATES key in
  let (num_ports, r1) := randint 2 3 r in
  let (selected_ports, r2) :=
    sample 0 (possible_ports t)
      (Nat.min (Z.to_nat num_ports) (length (possible_ports t))) r1 in
  let (selected_ports, r3) :=
    match risky_ports t with
    | [] => (selected_ports, r2)
    | _ :: _ =>
        let (u, r2a) := random r2 in
        if gt_0_3 u then
          let (risky_port, r2b) := choice 0 (risky_ports t) r2a in
          if Py.int_in risky_port selected_ports
          then (selected_ports, r2b)
          else (selected_ports ++ [risky_port], r2b)
        else (selected_ports, r2a)
    end in
  let (m, r4) := generate_mac r3 in
  (mkDevice (t_name t) (generate_ip host_id) m (t_type t)
     (Sort.sorted selected_ports) (trusted t) false, r4).

Record risky_port_entry := mkRisky {
  rp_device : string;
  rp_ip : string;
  port : Z;
  service : string
}.

Record untrusted_entry := mkUntrusted {
  ud_name : string;
  ud_ip : string;
  ud_mac : string
}.

Record vulnerabilities := mkVuln {
  risky_ports_found : list risky_port_entry;
  untrusted_devices : list untrusted_entry
}.

Record network_config := mkConfig {
  network_id : string;
  subnet : string;
  gateway : string;
  devices : list Device;
  vulns : vulnerabilities;
  security_status : string
}.

(** The loop over [self.devices] that fills the two vulnerability lists. *)
Fixpoint scan_devices (ds : list Device) : vulnerabilities :=
  match ds with
  | [] => mkVuln [] []
  | d :: rest =>
      let v := scan_devices rest in
      mkVuln
        (if Py.int_in 23 (open_ports d)
         then mkRisky (name d) (ip d) 23 "Telnet" :: risky_ports_found v
         else risky_ports_found v)
        (if negb (is_trusted d)
         then mkUntrusted (name d) (ip d) (mac d) :: untrusted_devices v
         else untrusted_devices v)
  end.

Definition generate_mission1_network (r : rng) : network_config * rng :=
  let (d1, r1) := create_device router 1 r in
  let (d2, r2) := create_device player_pc 10 r1 in
  let (d3, r3) := create_device phone 20 r2 in
  let (d4, r4) := create_device iot_camera 30 r3 in
  let (d5, r5) := create_device unknown_device 50 r4 in
  let ds := [d1; d2; d3; d4; d5] in
  let (n, r6) := randint 1000 9999 r5 in
  (mkConfig ("net_" +:+ Py.str_of_nat (Z.to_nat n))
     (network_base +:+ ".0/24") (network_base +:+ ".1")
     ds (scan_devices ds) "vulnerable", r6).

End NetworkGenerator.

(** ** [src/core/network_simulation.py] *)

Module NetworkSimulator.

Record NetworkDevice := mkNetworkDevice {
  hostname : string;
  ip_address : string;
  mac_address : string;
  device_type : string;
  manufacturer : string
}.

Record player_info := mkPlayer {
  p_hostname : string;
  p_ip_address : string;
  p_mac_address : string;
  p_subnet_mask : string;
  p_default_gateway : string;
  p_dns_servers : list string;
  p_dhcp_enabled : bool;
  p_connection_type : string;
  p_adapter_name : string
}.

Record router_info := mkRouter {
  r_hostname : string;
  r_ip_address : string;
  r_mac_address : string;
  r_model : string;
  r_firmware : string
}.

Record network_info := mkNetwork {
  network_address : string;
  broadcast_address : string;
  n_subnet_mask : string;
  cidr : string;
  total_devices : Z;
  dhcp_range : string
}.

Record network_data := mkData {
  player : player_info;
  router : router_info;
  devices : list NetworkDevice;
  network : network_info
}.

Definition _generate_fixed_devices : list NetworkDevice :=
  [ mkNetworkDevice "LAPTOP-MARIE" "192.168.1.75" "A4:5E:60:C2:D1:8F" "computer" "Dell";
    mkNetworkDevice "iPhone-Papa" "192.168.1.155" "34:36:3B:A7:B2:C9" "phone" "Apple";
    mkNetworkDevice "Smart-TV" "192.168.1.185" "D0:17:C2:5F:8A:3B" "iot" "Samsung";
    mkNetworkDevice "Imprimante-HP" "192.168.1.220" "B8:27:EB:4D:2E:7C" "iot" "HP" ].

(** [generate_network], as a function of [self.player_nickname]. *)
Definition generate_network (player_nickname : string) : network_data :=
  let router_ip := "192.168.1.1" in
  let router_mac := "00:17:9A:2B:3C:4D" in
  let player_ip := "192.168.1.120" in
  let player_mac := "00:15:00-2B-3A-D4" in
  let devices := _generate_fixed_devices in
  mkData
    (mkPlayer (player_nickname +:+ "-PC") player_ip player_mac "255.255.255.0"
       router_ip ["8.8.8.8"; "8.8.4.4"] true "Ethernet" "Ethernet0")
    (mkRouter "home" router_ip router_mac "D-Link DIR-825" "v2.3.24")
    devices
    (mkNetwork "192.168.1.0" "192.168.1.255" "255.255.255.0" "192.168.1.0/24"
       (Z.of_nat (length devices) + 2) "192.168.1.100 - 192.168.1.200").

(** One [if key in submitted_data: results[key] = test(submitted_data[key])]
    step. *)
Definition validate_field (key : string) (test : string -> bool)
    (submitted_data : list (string * string)) (results : list (string * bool))
  : list (string * bool) :=
  match Py.get key submitted_data with
  | Some v => Py.set key (test v) results
  | None => results
  end.

Definition validate_mission1_data (nd : network_data)
    (submitted_data : list (string * string)) : list (string * bool) :=
  let player := player nd in
  let router := router nd in
  let network := network nd in
  let results := [] in
  let results :=
    validate_field "ip_address"
      (fun v => String.eqb (Py.strip v) (p_ip_address player))
      submitted_data results in
  let results :=
    validate_field "mac_address"
      (fun v =>
         let submitted_mac := Py.replace "-" ":" (Py.upper (Py.strip v)) in
         let correct_mac := Py.upper (p_mac_address player) in
         String.eqb submitted_mac correct_mac)
      submitted_data results in
  let results :=
    validate_field "gateway"
      (fun v => String.eqb (Py.strip v) (r_ip_address router))
      submitted_data results in
  let results :=
    validate_field "subnet_mask"
      (fun v => String.eqb (Py.strip v) (p_subnet_mask player))
      submitted_data results in
  let results :=
    validate_field "device_count"
      (fun v =>
         match Py.int_of_str v with
         | Some count => count =? total_devices network
         | None => false
         end)
      submitted_data results in
  let results :=
    validate_field "router_name"
      (fun v => String.eqb (Py.upper (Py.strip v)) (Py.upper (r_hostname router)))
      submitted_data results in
  results.

End NetworkSimulator.

(** ** The player profile, as the missions read and write it *)

Module Profile.

(** [profile_data['progress']]; an absent key is [None]. *)
Record progress := mkProgress {
  xp : option Z;
  level : option string;
  credits : option Z;
  badges : option (list string);
  missions_completed : option (list string);
  unlocked_missions : option (list string)
}.

Record t := mkProfile {
  downloaded_tools : option (list string);
  progress_of : option progress
}.

(** [l = d.get(key, []); if x not in l: l.append(x)] *)
Definition add_once (x : string) (l : option (list string)) : option (list string) :=
  let l := default [] l in
  Some (if Py.str_in x l then l else l ++ [x]).

(** The profile update shared by the three [award_completion_rewards]:
    nothing is stored when the profile has no ['progress'] (the fresh [{}]
    that [get] returns is dropped). *)
Definition award (gain_xp : Z) (gain_credits : option Z) (new_level : option string)
    (badge mission unlocked : string) (p : t) : t :=
  match progress_of p with
  | None => p
  | Some pr =>
      mkProfile (downloaded_tools p)
        (Some (mkProgress
                 (Some (default 0 (xp pr) + gain_xp))
                 (match new_level with Some l => Some l | None => level pr end)
                 (match gain_credits with
                  | Some c => Some (default 0 (credits pr) + c)
                  | None => credits pr
                  end)
                 (add_once badge (badges pr))
                 (add_once mission (missions_completed pr))
                 (add_once unlocked (unlocked_missions pr))))
  end.

End Profile.

(** ** The objective dictionaries

    [is_mission_complete] and [get_completion_percentage] are the same code
    in the three mission classes; they read ['required'] and ['completed']
    of the items of [self.objectives] in insertion order. *)

Module Objectives.

Record objective (E : Type) := mkObjective {
  completed : bool;
  required : bool;
  extra : E
}.
Arguments mkObjective {E}.
Arguments completed {E}.
Arguments required {E}.
Arguments extra {E}.

Definition fresh {E} (e : E) : objective E := mkObjective false true e.

(** [obj['completed'] = True] *)
Definition complete {E} (o : objective E) : objective E :=
  mkObjective true (required o) (extra o).

Definition with_extra {E} (e : E) (o : objective E) : objective E :=
  mkObjective (completed o) (required o) e.

(** What the two methods read of an item. *)
Record flags := mkFlags { f_completed : bool; f_required : bool }.

Definition flags_of {E} (o : objective E) : flags :=
  mkFlags (completed o) (required o).

Fixpoint is_mission_complete (items : list (string * flags)) : bool :=
  match items with
  | [] => true
  | (_, obj_data) :: rest =>
      if f_required obj_data && negb (f_completed obj_data) then false
      else is_mission_complete rest
  end.

(** [sum(1 for obj in values if cond(obj))] *)
Definition count (cond : flags -> bool) (items : list (string * flags)) : nat :=
  length (List.filter (fun it => cond (snd it)) items).

Definition total_required (items : list (string * flags)) : nat :=
  count f_required items.

Definition completed_required (items : list (string * flags)) : nat :=
  count (fun o => f_required o && f_completed o) items.

(** An [int] as a binary64 float (exact below 2^53). *)
Definition float_of_nat (n : nat) : float :=
  PrimFloat.of_uint63 (Uint63.of_Z (Z.of_nat n)).

(** [(completed / total_required) * 100 if total_required > 0 else 0], in
    binary64 arithmetic. *)
Definition get_completion_percentage (items : list (string * flags)) : float :=
  let total_required := total_required items in
  let completed := completed_required items in
  if (0 <? total_required)%nat
  then PrimFloat.mul
         (PrimFloat.div (float_of_nat completed) (float_of_nat total_required))
         (float_of_nat 100)
  else float_of_nat 0.

End Objectives.

(** ** [src/missions/mission1_network_recon.py] *)

Module Mission1.
Import Objectives.

(** The extra entries of the objective dictionaries. *)
Record progress_target := mkProgressTarget { progress : nat; target : nat }.
Record questions := mkQuestions { questions_answered : nat; questions_total : nat }.
Record isolation := mkIsolation { isolated_count : nat; target_count : nat }.

Record objectives := mkObjectives {
  scan_network : objective unit;
  identify_devices : objective progress_target;
  find_risky_ports : objective (list Z);        (* found_ports *)
  analyze_packets : objective questions;
  isolate_threats : objective isolation;
  block_risky_ports : objective (list Z);       (* blocked_ports *)
  final_audit : objective unit
}.

(** The mission object.  [self.packets] and [self.packets_analyzed] are
    left out: only [get_packets] reads them. *)
Record state := mkState {
  profile_data : Profile.t;
  network_config : NetworkGenerator.network_config;
  objs : objectives;
  commands_used : list string;
  devices_discovered : list string
}.

Definition with_objs (o : objectives) (s : state) : state :=
  mkState (profile_data s) (network_config s) o (commands_used s) (devices_discovered s).

(** [__init__]: the network comes from the shared generator. *)
Definition init (profile : Profile.t) (r : Random.rng) : state :=
  let config := fst (NetworkGenerator.generate_mission1_network r) in
  mkState profile config
    (mkObjectives
       (fresh tt)
       (fresh (mkProgressTarget 0 5))
       (fresh [])
       (fresh (mkQuestions 0 5))
       (fresh (mkIsolation 0
          (length (NetworkGenerator.untrusted_devices (NetworkGenerator.vulns config)))))
       (fresh [])
       (fresh tt))
    [] [].

(** [self.objectives.items()] *)
Definition items (o : objectives) : list (string * flags) :=
  [ ("scan_network", flags_of (scan_network o));
    ("identify_devices", flags_of (identify_devices o));
    ("find_risky_ports", flags_of (find_risky_ports o));
    ("analyze_packets", flags_of (analyze_packets o));
    ("isolate_threats", flags_of (isolate_threats o));
    ("block_risky_ports", flags_of (block_risky_ports o));
    ("final_audit", flags_of (final_audit o)) ].

(** The state a terminal reports; an absent key is [None]. *)
Record terminal_state := mkTerminal {
  commands_history : option (list string);
  ts_blocked_ports : option (list Z);
  ts_isolated_devices : option (list string);
  ts_devices_discovered : option (list string)
}.

Definition set_scan_network f (o : objectives) :=
  mkObjectives (f (scan_network o)) (identify_devices o) (find_risky_ports o)
    (analyze_packets o) (isolate_threats o) (block_risky_ports o) (final_audit o).
Definition set_identify_devices f (o : objectives) :=
  mkObjectives (scan_network o) (f (identify_devices o)) (find_risky_ports o)
    (analyze_packets o) (isolate_threats o) (block_risky_ports o) (final_audit o).
Definition set_find_risky_ports f (o : objectives) :=
  mkObjectives (scan_network o) (identify_devices o) (f (find_risky_ports o))
    (analyze_packets o) (isolate_threats o) (block_risky_ports o) (final_audit o).
Definition set_isolate_threats f (o : objectives) :=
  mkObjectives (scan_network o) (identify_devices o) (find_risky_ports o)
    (analyze_packets o) (f (isolate_threats o)) (block_risky_ports o) (final_audit o).
Definition set_block_risky_ports f (o : objectives) :=
  mkObjectives (scan_network o) (identify_devices o) (find_risky_ports o)
    (analyze_packets o) (isolate_threats o) (f (block_risky_ports o)) (final_audit o).
Definition set_final_audit f (o : objectives) :=
  mkObjectives (scan_network o) (identify_devices o) (find_risky_ports o)
    (analyze_packets o) (isolate_threats o) (block_risky_ports o) (f (final_audit o)).

Definition check_scan_network_complete (s : state) : bool * state :=
  if Py.str_in "scan network" (commands_used s)
  then (true, with_objs (set_scan_network complete (objs s)) s)
  else (false, s).

Definition check_identify_devices_complete (s : state) : bool * state :=
  let discovered := length (devices_discovered s) in
  let o := set_identify_devices
             (fun ob => with_extra (mkProgressTarget discovered (target (extra ob))) ob)
             (objs s) in
  if (target (extra (identify_devices o)) <=? discovered)%nat
  then (true, with_objs (set_identify_devices complete o) s)
  else (false, with_objs o s).

(** The loop of [check_find_risky_ports_complete]. *)
Fixpoint telnet_found (risky_ports : list NetworkGenerator.risky_port_entry)
    (found_ports : list Z) : bool :=
  match risky_ports with
  | [] => false
  | vuln :: rest =>
      if NetworkGenerator.port vuln =? 23 then
        if Py.int_in 23 found_ports then true else telnet_found rest found_ports
      else telnet_found rest found_ports
  end.

Definition check_find_risky_ports_complete (s : state) : bool * state :=
  let risky_ports :=
    NetworkGenerator.risky_ports_found (NetworkGenerator.vulns (network_config s)) in
  if telnet_found risky_ports (extra (find_risky_ports (objs s)))
  then (true, with_objs (set_find_risky_ports complete (objs s)) s)
  else (false, s).

(** The counting loop of [check_isolate_threats_complete]. *)
Fixpoint count_isolated (untrusted : list NetworkGenerator.untrusted_entry)
    (isolated_devices : list string) : nat :=
  match untrusted with
  | [] => 0
  | device :: rest =>
      ((if Py.str_in (NetworkGenerator.ud_mac device) isolated_devices then 1 else 0)
       + count_isolated rest isolated_devices)%nat
  end.

Definition check_isolate_threats_complete (isolated_devices : list string) (s : state)
  : bool * state :=
  let untrusted :=
    NetworkGenerator.untrusted_devices (NetworkGenerator.vulns (network_config s)) in
  let isolated_count := count_isolated untrusted isolated_devices in
  let o := set_isolate_threats
             (fun ob => with_extra (mkIsolation isolated_count (target_count (extra ob))) ob)
             (objs s) in
  if (target_count (extra (isolate_threats o)) <=? isolated_count)%nat
  then (true, with_objs (set_isolate_threats complete o) s)
  else (false, with_objs o s).

Definition check_block_risky_ports_complete (blocked_ports : list Z) (s : state)
  : bool * state :=
  if Py.int_in 23 blocked_ports
  then (true,
        with_objs
          (set_block_risky_ports (fun ob => with_extra blocked_ports (complete ob)) (objs s))
          s)
  else (false, s).

Definition check_final_audit_complete (isolated_devices : list string)
    (blocked_ports : list Z) (s : state) : bool * state :=
  let untrusted :=
    NetworkGenerator.untrusted_devices (NetworkGenerator.vulns (network_config s)) in
  let untrusted_isolated :=
    forallb (fun device => Py.str_in (NetworkGenerator.ud_mac device) isolated_devices)
      untrusted in
  let risky_ports :=
    NetworkGenerator.risky_ports_found (NetworkGenerator.vulns (network_config s)) in
  let risky_blocked :=
    forallb (fun vuln => Py.int_in (NetworkGenerator.port vuln) blocked_ports) risky_ports in
  if untrusted_isolated && risky_blocked
  then (true, with_objs (set_final_audit complete (objs s)) s)
  else (false, s).

Definition update_progress (ts : terminal_state) (s : state) : state :=
  let s := mkState (profile_data s) (network_config s) (objs s)
             (default [] (commands_history ts))
             (default [] (ts_devices_discovered ts)) in
  let blocked_ports := default [] (ts_blocked_ports ts) in
  let isolated_devices := default [] (ts_isolated_devices ts) in
  let s := snd (check_scan_network_complete s) in
  let s := snd (check_identify_devices_complete s) in
  let s := snd (check_isolate_threats_complete isolated_devices s) in
  let s := snd (check_block_risky_ports_complete blocked_ports s) in
  let s := snd (check_final_audit_complete isolated_devices blocked_ports s) in
  s.

Definition is_mission_complete (s : state) : bool :=
  Objectives.is_mission_complete (items (objs s)).

Definition get_completion_percentage (s : state) : float :=
  Objectives.get_completion_percentage (items (objs s)).

Definition award_completion_rewards (s : state) : state :=
  mkState
    (Profile.award 500 None None "Network Defender" "mission1" "mission2" (profile_data s))
    (network_config s) (objs s) (commands_used s) (devices_discovered s).

(** The methods that only read the object. *)
Inductive reader :=
  | get_mission_briefing | get_hint (objective_id : string)
  | get_network_config | get_packets.

(** A call of a method of the class, with its arguments; and, since
    [self.profile_data] is the dictionary the rest of the game writes to, a
    write to it between two calls. *)
Inductive call :=
  | ProfileWritten (profile : Profile.t)
  | CheckScanNetwork (ts : terminal_state)
  | CheckIdentifyDevices (ts : terminal_state)
  | CheckFindRiskyPorts (ts : terminal_state)
  | CheckIsolateThreats (isolated_devices : list string)
  | CheckBlockRiskyPorts (blocked_ports : list Z)
  | CheckFinalAudit (isolated_devices : list string) (blocked_ports : list Z)
  | UpdateProgress (ts : terminal_state)
  | IsMissionComplete
  | GetCompletionPercentage
  | AwardCompletionRewards
  | Read (m : reader).

(** The object after the call. *)
Definition exec (c : call) (s : state) : state :=
  match c with
  | ProfileWritten profile =>
      mkState profile (network_config s) (objs s) (commands_used s)
        (devices_discovered s)
  | CheckScanNetwork _ => snd (check_scan_network_complete s)
  | CheckIdentifyDevices _ => snd (check_identify_devices_complete s)
  | CheckFindRiskyPorts _ => snd (check_find_risky_ports_complete s)
  | CheckIsolateThreats iso => snd (check_isolate_threats_complete iso s)
  | CheckBlockRiskyPorts blocked => snd (check_block_risky_ports_complete blocked s)
  | CheckFinalAudit iso blocked => snd (check_final_audit_complete iso blocked s)
  | UpdateProgress ts => update_progress ts s
  | AwardCompletionRewards => award_completion_rewards s
  | IsMissionComplete | GetCompletionPercentage | Read _ => s
  end.

Definition run (calls : list call) (s : state) : state :=
  fold_left (fun s c => exec c s) calls s.

End Mission1.

(** ** [src/missions/mission2_packet_analysis.py] *)

Module Mission2.
Import Objectives.

Record threats := mkThreats {
  found_threats : list string;
  target_threats : list string
}.

Record objectives := mkObjectives {
  download_wireshark : objective unit;
  open_wireshark : objective unit;
  find_suspicious_ip : objective string;        (* correct_answer *)
  identify_threats : objective threats;
  complete_report : objective unit
}.

Record threat_info := mkThreat {
  threat_name : string;
  threat_description : string;
  severity : string
}.

(** The mission object.  [packets_viewed] and [suspicious_packets_found]
    are left out: no method reads or writes them after [__init__]. *)
Record state := mkState {
  profile_data : Profile.t;
  objs : objectives;
  wireshark_opened : bool;
  suspicious_ip : string;
  threat_types : list (string * threat_info)
}.

Definition with_objs (o : objectives) (s : state) : state :=
  mkState (profile_data s) o (wireshark_opened s) (suspicious_ip s) (threat_types s).

Definition init (profile : Profile.t) : state :=
  mkState profile
    (mkObjectives
       (fresh tt) (fresh tt)
       (fresh "192.168.1.66")
       (fresh (mkThreats []
          ["telnet_scan"; "port_scan"; "discovery"; "printer_exploit"; "exfiltration"]))
       (fresh tt))
    false
    "192.168.1.66"
    [ ("telnet_scan",
       mkThreat "Scan Telnet" "Tentative de connexion sur le port 23 (Telnet)" "high");
      ("port_scan",
       mkThreat "Scan de Ports" "Analyse des ports ouverts sur la machine cible" "medium");
      ("discovery",
       mkThreat "Decouverte Reseau"
         "Broadcast pour identifier les appareils du reseau" "medium");
      ("printer_exploit",
       mkThreat "Exploitation Imprimante"
         "Tentative d'exploitation via le port 9100" "high");
      ("exfiltration",
       mkThreat "Exfiltration de Donnees"
         "Transfert suspect de donnees vers une IP externe" "critical") ].

Definition items (o : objectives) : list (string * flags) :=
  [ ("download_wireshark", flags_of (download_wireshark o));
    ("open_wireshark", flags_of (open_wireshark o));
    ("find_suspicious_ip", flags_of (find_suspicious_ip o));
    ("identify_threats", flags_of (identify_threats o));
    ("complete_report", flags_of (complete_report o)) ].

Definition set_download_wireshark f (o : objectives) :=
  mkObjectives (f (download_wireshark o)) (open_wireshark o) (find_suspicious_ip o)
    (identify_threats o) (complete_report o).
Definition set_open_wireshark f (o : objectives) :=
  mkObjectives (download_wireshark o) (f (open_wireshark o)) (find_suspicious_ip o)
    (identify_threats o) (complete_report o).
Definition set_find_suspicious_ip f (o : objectives) :=
  mkObjectives (download_wireshark o) (open_wireshark o) (f (find_suspicious_ip o))
    (identify_threats o) (complete_report o).
Definition set_identify_threats f (o : objectives) :=
  mkObjectives (download_wireshark o) (open_wireshark o) (find_suspicious_ip o)
    (f (identify_threats o)) (complete_report o).
Definition set_complete_report f (o : objectives) :=
  mkObjectives (download_wireshark o) (open_wireshark o) (find_suspicious_ip o)
    (identify_threats o) (f (complete_report o)).

Definition check_wireshark_downloaded (s : state) : bool * state :=
  let downloaded_tools := default [] (Profile.downloaded_tools (profile_data s)) in
  if Py.str_in "wireshark" downloaded_tools
  then (true, with_objs (set_download_wireshark complete (objs s)) s)
  else (false, s).

Definition mark_wireshark_opened (s : state) : state :=
  let (downloaded, s) := check_wireshark_downloaded s in
  if downloaded
  then mkState (profile_data s) (set_open_wireshark complete (objs s)) true
         (suspicious_ip s) (threat_types s)
  else s.

Definition submit_suspicious_ip (ip_address : string) (s : state) : bool * state :=
  if String.eqb (Py.strip ip_address) (suspicious_ip s)
  then (true, with_objs (set_find_suspicious_ip complete (objs s)) s)
  else (false, s).

Definition report_threat_found (threat_type : string) (s : state) : bool * state :=
  if Py.has_key threat_type (threat_types s) then
    let o :=
      if Py.str_in threat_type (found_threats (extra (identify_threats (objs s))))
      then objs s
      else set_identify_threats
             (fun ob =>
                with_extra
                  (mkThreats (found_threats (extra ob) ++ [threat_type])
                     (target_threats (extra ob))) ob)
             (objs s) in
    let found := found_threats (extra (identify_threats o)) in
    let target := target_threats (extra (identify_threats o)) in
    let o :=
      if forallb (fun t => Py.str_in t found) target
      then set_identify_threats complete o
      else o in
    (true, with_objs o s)
  else (false, s).

Definition check_report_complete (s : state) : bool * state :=
  if completed (find_suspicious_ip (objs s)) && completed (identify_threats (objs s))
  then (true, with_objs (set_complete_report complete (objs s)) s)
  else (false, s).

Definition update_progress (s : state) : state :=
  let s := snd (check_wireshark_downloaded s) in
  let s := if wireshark_opened s
           then with_objs (set_open_wireshark complete (objs s)) s
           else s in
  let s := snd (check_report_complete s) in
  s.

Definition is_mission_complete (s : state) : bool :=
  Objectives.is_mission_complete (items (objs s)).

Definition get_completion_percentage (s : state) : float :=
  Objectives.get_completion_percentage (items (objs s)).

Definition award_completion_rewards (s : state) : state :=
  mkState
    (Profile.award 300 None (Some "Respectable")
       "Packet Detective" "mission2" "mission3" (profile_data s))
    (objs s) (wireshark_opened s) (suspicious_ip s) (threat_types s).

Inductive reader :=
  | get_mission_briefing | get_hint (objective_id : string)
  | get_threat_info (threat_type : string)
  | get_found_threats | get_remaining_threats | generate_report.

Inductive call :=
  | ProfileWritten (profile : Profile.t)
  | CheckWiresharkDownloaded
  | MarkWiresharkOpened
  | SubmitSuspiciousIp (ip_address : string)
  | ReportThreatFound (threat_type : string)
  | CheckReportComplete
  | UpdateProgress
  | IsMissionComplete
  | GetCompletionPercentage
  | AwardCompletionRewards
  | Read (m : reader).

Definition exec (c : call) (s : state) : state :=
  match c with
  | ProfileWritten profile =>
      mkState profile (objs s) (wireshark_opened s) (suspicious_ip s) (threat_types s)
  | CheckWiresharkDownloaded => snd (check_wireshark_downloaded s)
  | MarkWiresharkOpened => mark_wireshark_opened s
  | SubmitSuspiciousIp ip_address => snd (submit_suspicious_ip ip_address s)
  | ReportThreatFound threat_type => snd (report_threat_found threat_type s)
  | CheckReportComplete => snd (check_report_complete s)
  | UpdateProgress => update_progress s
  | AwardCompletionRewards => award_completion_rewards s
  | IsMissionComplete | GetCompletionPercentage | Read _ => s
  end.

Definition run (calls : list call) (s : state) : state :=
  fold_left (fun s c => exec c s) calls s.

End Mission2.

(** ** [src/missions/mission3_pcap_analysis.py] *)

Module Mission3.
Import Objectives.

(** The text an objective carries is its ['correct_answer']. *)
Record objectives := mkObjectives {
  download_pcap_analyzer : objective unit;
  open_pcap_analyzer : objective unit;
  extract_mac_dest : objective string;
  extract_mac_src : objective string;
  extract_ip_src : objective string;
  extract_ip_dest : objective string;
  identify_protocol : objective string;
  complete_report : objective unit
}.

Record state := mkState {
  profile_data : Profile.t;
  objs : objectives;
  pcap_analyzer_opened : bool;
  correct_answers : list (string * string)
}.

Definition init (profile : Profile.t) : state :=
  mkState profile
    (mkObjectives
       (fresh tt) (fresh tt)
       (fresh "00:1e:ec:26:d2:ac")
       (fresh "26:02:06:49:6b:31")
       (fresh "46.105.99.163")
       (fresh "192.168.4.2")
       (fresh "TCP")
       (fresh tt))
    false
    [ ("dest_mac", "00:1e:ec:26:d2:ac");
      ("src_mac", "26:02:06:49:6b:31");
      ("src_ip", "46.105.99.163");
      ("dest_ip", "192.168.4.2");
      ("packet_length", "66");
      ("protocol", "TCP");
      ("link_type", "Ethernet");
      ("timestamp", "15/06/2024") ].

Definition items (o : objectives) : list (string * flags) :=
  [ ("download_pcap_analyzer", flags_of (download_pcap_analyzer o));
    ("open_pcap_analyzer", flags_of (open_pcap_analyzer o));
    ("extract_mac_dest", flags_of (extract_mac_dest o));
    ("extract_mac_src", flags_of (extract_mac_src o));
    ("extract_ip_src", flags_of (extract_ip_src o));
    ("extract_ip_dest", flags_of (extract_ip_dest o));
    ("identify_protocol", flags_of (identify_protocol o));
    ("complete_report", flags_of (complete_report o)) ].

Definition set_download_pcap_analyzer f (o : objectives) :=
  mkObjectives (f (download_pcap_analyzer o)) (open_pcap_analyzer o)
    (extract_mac_dest o) (extract_mac_src o) (extract_ip_src o) (extract_ip_dest o)
    (identify_protocol o) (complete_report o).
Definition set_open_pcap_analyzer f (o : objectives) :=
  mkObjectives (download_pcap_analyzer o) (f (open_pcap_analyzer o))
    (extract_mac_dest o) (extract_mac_src o) (extract_ip_src o) (extract_ip_dest o)
    (identify_protocol o) (complete_report o).

Definition check_pcap_analyzer_downloaded (s : state) : bool * state :=
  let downloaded_tools := default [] (Profile.downloaded_tools (profile_data s)) in
  if Py.str_in "pcap_analyzer" downloaded_tools
  then (true,
        mkState (profile_data s) (set_download_pcap_analyzer complete (objs s))
          (pcap_analyzer_opened s) (correct_answers s))
  else (false, s).

Definition mark_pcap_analyzer_opened (s : state) : state :=
  let (downloaded, s) := check_pcap_analyzer_downloaded s in
  if downloaded
  then mkState (profile_data s) (set_open_pcap_analyzer complete (objs s)) true
         (correct_answers s)
  else s.

Definition validate_answer (field_key value : string) (s : state) : bool :=
  match Py.get field_key (correct_answers s) with
  | None => false
  | Some answer =>
      let correct := Py.lower (Py.strip answer) in
      let submitted := Py.lower (Py.strip value) in
      if Py.str_in field_key ["dest_mac"; "src_mac"]
      then String.eqb (Py.replace "-" ":" submitted) (Py.replace "-" ":" correct)
      else String.eqb submitted correct
  end.

Definition is_mission_complete (s : state) : bool :=
  Objectives.is_mission_complete (items (objs s)).

Definition get_completion_percentage (s : state) : float :=
  Objectives.get_completion_percentage (items (objs s)).

Definition award_completion_rewards (s : state) : state :=
  mkState
    (Profile.award 500 (Some 200) (Some "Membre de Confiance")
       "Packet Forensics Expert" "mission3" "mission4" (profile_data s))
    (objs s) (pcap_analyzer_opened s) (correct_answers s).

Inductive reader :=
  | get_mission_briefing | get_hint (objective_id : string).

Inductive call :=
  | ProfileWritten (profile : Profile.t)
  | CheckPcapAnalyzerDownloaded
  | MarkPcapAnalyzerOpened
  | ValidateAnswer (field_key value : string)
  | IsMissionComplete
  | GetCompletionPercentage
  | AwardCompletionRewards
  | Read (m : reader).

Definition exec (c : call) (s : state) : state :=
  match c with
  | ProfileWritten profile =>
      mkState profile (objs s) (pcap_analyzer_opened s) (correct_answers s)
  | CheckPcapAnalyzerDownloaded => snd (check_pcap_analyzer_downloaded s)
  | MarkPcapAnalyzerOpened => mark_pcap_analyzer_opened s
  | AwardCompletionRewards => award_completion_rewards s
  | ValidateAnswer _ _ | IsMissionComplete | GetCompletionPercentage | Read _ => s
  end.

Definition run (calls : list call) (s : state) : state :=
  fold_left (fun s c => exec c s) calls s.

End Mission3.

(** ** Exceptions, JSON values and the file system *)

Module Exn.

Inductive exn :=
  | KeyError | TypeError | AttributeError | ValueError | OSError | JSONDecodeError.

Inductive result (A : Type) :=
  | Ok (a : A)
  | Raise (e : exn).
Arguments Ok {A}.
Arguments Raise {A}.

(** A computation over a mutable state [S] that returns or raises. *)
Definition M (S A : Type) : Type := S -> result A * S.

Definition ret {S A} (a : A) : M S A := fun s => (Ok a, s).
Definition raise {S A} (e : exn) : M S A := fun s => (Raise e, s).

Definition bind {S A B} (m : M S A) (k : A -> M S B) : M S B :=
  fun s =>
    match m s with
    | (Ok a, s') => k a s'
    | (Raise e, s') => (Raise e, s')
    end.

(** [try: body except Exception as e: handler(e)] *)
Definition try_except {S A} (body : M S A) (handler : exn -> M S A) : M S A :=
  fun s =>
    match body s with
    | (Ok a, s') => (Ok a, s')
    | (Raise e, s') => handler e s'
    end.

Definition gets {S A} (f : S -> A) : M S A := fun s => (Ok (f s), s).
Definition modify {S} (f : S -> S) : M S unit := fun s => (Ok tt, f s).

Definition raised {A} (r : result A) : bool :=
  match r with Ok _ => false | Raise _ => true end.

End Exn.

Notation "x <~ m ;; k" := (Exn.bind m (fun x => k))
  (at level 100, m at next level, right associativity).
Notation "m ;;; k" := (Exn.bind m (fun _ => k))
  (at level 100, right associativity).

Module Json.

(** The values [json.load] returns (floats apart). *)
Inductive json :=
  | JNull
  | JBool (b : bool)
  | JInt (n : Z)
  | JStr (s : string)
  | JList (l : list json)
  | JDict (d : list (string * json)).

(** [key == x] for a [str] key. *)
Definition is_str (key : string) (x : json) : bool :=
  match x with JStr s => String.eqb key s | _ => false end.

(** [needle in hay] on strings. *)
Fixpoint contains (needle hay : string) : bool :=
  String.prefix needle hay
  || match hay with
     | EmptyString => false
     | String _ r => contains needle r
     end.

(** [s.endswith(suffix)] *)
Fixpoint endswith (suffix s : string) : bool :=
  String.eqb s suffix
  || match s with
     | EmptyString => false
     | String _ r => endswith suffix r
     end.

End Json.

Module FS.
Import Exn Json.

Inductive file :=
  | Text (j : json)   (* a readable file holding the JSON document [j] *)
  | Garbage           (* a readable file that [json.load] rejects *)
  | Unreadable.       (* [open(path, 'r')] fails: permissions, a directory *)

Record fs := mkFs {
  files : gmap string file;                  (* the paths that exist *)
  listdir : string -> result (list string);  (* [os.listdir(path)] *)
  denied : string -> bool;                   (* writing or removing raises *)
  disk_full : bool                           (* writing to an open file raises *)
}.

Definition with_files (f : gmap string file) (st : fs) : fs :=
  mkFs f (listdir st) (denied st) (disk_full st).

(** [os.path.exists(path)] *)
Definition path_exists (path : string) : M fs bool :=
  gets (fun st => match files st !! path with Some _ => true | None => false end).

(** [with open(path, 'r') as f: json.load(f)] *)
Definition read_json (path : string) : M fs json :=
  fun st =>
    match files st !! path with
    | Some (Text j) => (Ok j, st)
    | Some Garbage => (Raise JSONDecodeError, st)
    | Some Unreadable | None => (Raise OSError, st)
    end.

(** [with open(path, 'w') as f: json.dump(j, f)]: the file is truncated
    when it opens, then written. *)
Definition write_json (path : string) (j : json) : M fs unit :=
  fun st =>
    if denied st path then (Raise OSError, st)
    else if disk_full st then (Raise OSError, with_files (<[path := Garbage]> (files st)) st)
    else (Ok tt, with_files (<[path := Text j]> (files st)) st).

(** [os.remove(path)] *)
Definition remove (path : string) : M fs unit :=
  fun st =>
    match files st !! path with
    | None => (Raise OSError, st)
    | Some _ =>
        if denied st path then (Raise OSError, st)
        else (Ok tt, with_files (delete path (files st)) st)
    end.

(** [os.path.join(a, b)] for a non-empty [a] without a trailing separator
    and a relative [b]. *)
Definition path_join (a b : string) : string := a +:+ "/" +:+ b.

End FS.

(** ** [src/core/save_load.py] *)

Module SaveLoadManager.
Import Exn Json FS.

Record manager := mkManager { profiles_dir : string }.

(** [c.isalnum()] for a [str] element [c]. *)
Definition str_isalnum (c : string) : bool :=
  negb (String.eqb c "") && String.eqb (Py.sfilter Py.isalnum c) c.

(** [c.isalnum() or c in "_-"] for the elements [nickname] yields. *)
Definition keep_char (c : ascii) : bool := Py.isalnum c || Py.char_in c "_-".
Definition keep_str (c : string) : bool := str_isalnum c || contains c "_-".

Fixpoint concat_kept (parts : list string) : string :=
  match parts with
  | [] => EmptyString
  | c :: rest => if keep_str c then c +:+ concat_kept rest else concat_kept rest
  end.

(** The elements of a list as strings; a non-string has no [isalnum]. *)
Fixpoint strs_of (l : list json) : result (list string) :=
  match l with
  | [] => Ok []
  | JStr s :: rest =>
      match strs_of rest with
      | Ok r => Ok (s :: r)
      | Raise e => Raise e
      end
  | _ :: _ => Raise AttributeError
  end.

(** [clean_nickname]: a [str] is read character by character, a list
    element by element, a dict key by key; the rest is not iterable. *)
Definition clean_nickname (nickname : json) : result string :=
  match nickname with
  | JStr s => Ok (Py.lower (Py.sfilter keep_char s))
  | JList l =>
      match strs_of l with
      | Ok parts => Ok (Py.lower (concat_kept parts))
      | Raise e => Raise e
      end
  | JDict d => Ok (Py.lower (concat_kept (map fst d)))
  | JNull | JBool _ | JInt _ => Raise TypeError
  end.

Definition _get_profile_filename (mgr : manager) (nickname : json) : result string :=
  match clean_nickname nickname with
  | Ok clean => Ok (path_join (profiles_dir mgr) (clean +:+ "_profile.json"))
  | Raise e => Raise e
  end.

Definition filename_of {S} (mgr : manager) (nickname : json) : M S string :=
  fun st => (_get_profile_filename mgr nickname, st).

Definition default_progress : json :=
  JDict [ ("current_stage", JStr "profile_created");
          ("stages_completed", JList [JStr "profile_creation"]);
          ("missions_completed", JList []);
          ("current_mission", JNull) ].

(** The metadata [save_profile] writes into the caller's dictionary before
    anything can fail; [saved_at] and [created_at] are two readings of
    [datetime.now().isoformat()]. *)
Definition stamp (saved_at created_at : string) (d : list (string * json))
  : list (string * json) :=
  let d := Py.set "saved_at" (JStr saved_at) d in
  let d := if Py.has_key "created_at" d then d
           else Py.set "created_at" (JStr created_at) d in
  let d := if Py.has_key "progress" d then d
           else Py.set "progress" default_progress d in
  d.

(** What the returned message reports; the text itself is not modelled. *)
Inductive message :=
  | Saved (nickname : json)
  | SaveError (e : exn)
  | NoSuchProfile (nickname : json)
  | Deleted (nickname : json)
  | DeleteError (e : exn).

(** The first component of a returned [(success, message)] pair. *)
Definition success (r : result (bool * message)) : bool :=
  match r with
  | Ok (ok, _) => ok
  | Raise _ => false
  end.

(** The [try] block of [save_profile]. *)
Definition save_profile_try (mgr : manager) (saved_at created_at : string)
    (profile_data : json) : M fs (bool * message) :=
  match profile_data with
  | JDict d =>
      let d := stamp saved_at created_at d in
      match Py.get "nickname" d with
      | None => raise KeyError
      | Some nickname =>
          filename <~ filename_of mgr nickname ;;
          write_json filename (JDict d) ;;;
          ret (true, Saved nickname)
      end
  | _ => raise TypeError
  end.

Definition save_profile (mgr : manager) (saved_at created_at : string)
    (profile_data : json) : M fs (bool * message) :=
  try_except (save_profile_try mgr saved_at created_at profile_data)
    (fun e => ret (false, SaveError e)).

(** The [try] block of [load_profile]. *)
Definition load_profile_try (mgr : manager) (nickname : json) : M fs json :=
  filename <~ filename_of mgr nickname ;;
  found <~ path_exists filename ;;
  if negb found then ret JNull
  else
    profile_data <~ read_json filename ;;
    ret profile_data.

(** Python's [None] is [JNull]. *)
Definition load_profile (mgr : manager) (nickname : json) : M fs json :=
  try_except (load_profile_try mgr nickname) (fun e => ret JNull).

(** The [try] block of [delete_profile]. *)
Definition delete_profile_try (mgr : manager) (nickname : json)
  : M fs (bool * message) :=
  filename <~ filename_of mgr nickname ;;
  found <~ path_exists filename ;;
  if negb found then ret (false, NoSuchProfile nickname)
  else
    remove filename ;;;
    ret (true, Deleted nickname).

Definition delete_profile (mgr : manager) (nickname : json) : M fs (bool * message) :=
  try_except (delete_profile_try mgr nickname)
    (fun e => ret (false, DeleteError e)).

Definition profile_exists (mgr : manager) (nickname : json) : M fs bool :=
  filename <~ filename_of mgr nickname ;;
  path_exists filename.

Record profile_info := mkInfo {
  i_nickname : json;
  i_hacker_type : json;
  i_created_at : json;
  i_saved_at : json;
  i_current_stage : json;
  i_filename : string
}.

(** [x.get(key, default)]; only a dict has [get]. *)
Definition json_get (j : json) (key : string) (dflt : json) : result json :=
  match j with
  | JDict d => Ok (default dflt (Py.get key d))
  | _ => Raise AttributeError
  end.

Definition info_of (filename : string) (profile_data : json) : result profile_info :=
  match json_get profile_data "nickname" (JStr "Unknown"),
        json_get profile_data "hacker_type" (JStr "unknown"),
        json_get profile_data "created_at" (JStr "Unknown"),
        json_get profile_data "saved_at" (JStr "Unknown"),
        json_get profile_data "progress" (JDict []) with
  | Ok n, Ok h, Ok c, Ok s, Ok p =>
      match json_get p "current_stage" (JStr "unknown") with
      | Ok stage => Ok (mkInfo n h c s stage filename)
      | Raise e => Raise e
      end
  | _, _, _, _, _ => Raise AttributeError
  end.

(** The disk, seen from a state that also holds the local [profiles]. *)
Definition on_disk {A} (m : M fs A) : M (list profile_info * fs) A :=
  fun s =>
    let (r, st) := m (snd s) in (r, (fst s, st)).

(** One turn of the loop over the directory, with its own [try]. *)
Definition list_one (mgr : manager) (filename : string)
  : M (list profile_info * fs) unit :=
  if endswith "_profile.json" filename then
    try_except
      (profile_data <~ on_disk (read_json (path_join (profiles_dir mgr) filename)) ;;
       profile_info <~ (fun s => (info_of filename profile_data, s)) ;;
       modify (fun s => (fst s ++ [profile_info], snd s)))
      (fun e => ret tt)
  else ret tt.

Fixpoint list_each (mgr : manager) (filenames : list string)
  : M (list profile_info * fs) unit :=
  match filenames with
  | [] => ret tt
  | filename :: rest => list_one mgr filename ;;; list_each mgr rest
  end.

(** [list_profiles].  [sort] is [profiles.sort(key=saved_at, reverse=True)]:
    it returns the list as the call leaves it and the exception, if any, of
    comparing two keys. *)
Definition list_profiles
    (sort : list profile_info -> list profile_info * option exn)
    (mgr : manager) : M fs (list profile_info) :=
  fun st =>
    let body : M (list profile_info * fs) unit :=
      try_except
        (found <~ on_disk (path_exists (profiles_dir mgr)) ;;
         if negb found then ret tt
         else
           filenames <~ on_disk (fun st => (listdir st (profiles_dir mgr), st)) ;;
           list_each mgr filenames ;;;
           (fun s =>
              let (sorted, err) := sort (fst s) in
              (match err with Some e => Raise e | None => Ok tt end, (sorted, snd s))))
        (fun e => ret tt) in
    match body ([], st) with
    | (Ok _, (profiles, st')) => (Ok profiles, st')
    | (Raise e, (_, st')) => (Raise e, st')
    end.

End SaveLoadManager.

(** ** [src/core/settings_manager.py] *)

Module SettingsManager.
Import Exn Json FS.

Definition default_settings : list (string * json) :=
  [ ("master_volume", JInt 70);
    ("sound_effects", JInt 85);
    ("music_volume", JInt 60);
    ("luminosity", JInt 80);
    ("text_size", JStr "medium");
    ("hints", JBool true);
    ("difficulty", JStr "normal");
    ("text_speed", JStr "normal");
    ("auto_scroll", JBool true);
    ("show_command_hints", JBool true);
    ("educational_mode", JBool true) ].

(** [key not in loaded], whatever [json.load] returned. *)
Definition key_missing (key : string) (loaded : json) : result bool :=
  match loaded with
  | JDict d => Ok (negb (Py.has_key key d))
  | JList l => Ok (negb (existsb (is_str key) l))
  | JStr s => Ok (negb (contains key s))
  | JNull | JBool _ | JInt _ => Raise TypeError
  end.

(** [loaded[key] = value]; only a dict takes a [str] key. *)
Definition set_item (key : string) (value : json) (loaded : json) : result json :=
  match loaded with
  | JDict d => Ok (JDict (Py.set key value d))
  | _ => Raise TypeError
  end.

(** [for key in default_settings: if key not in loaded: loaded[key] = ...] *)
Fixpoint merge_defaults (defaults : list (string * json)) (loaded : json) : result json :=
  match defaults with
  | [] => Ok loaded
  | (key, value) :: rest =>
      match key_missing key loaded with
      | Raise e => Raise e
      | Ok true =>
          match set_item key value loaded with
          | Raise e => Raise e
          | Ok loaded' => merge_defaults rest loaded'
          end
      | Ok false => merge_defaults rest loaded
      end
  end.

(** The body of both [try] blocks; [Ok] is the [return loaded]. *)
Definition load_from (path : string) : M fs json :=
  loaded <~ read_json path ;;
  (fun st => (merge_defaults default_settings loaded, st)).

(** [load_settings]: [None] in the result of a [try] means that the block
    was left by its [except] and control goes on to the last [return]. *)
Definition load_settings (settings_file : string) : M fs json :=
  found <~ path_exists settings_file ;;
  fallthrough <~
    (if found then
       try_except (loaded <~ load_from settings_file ;; ret (Some loaded))
         (fun e => ret None)
     else
       bundled <~ path_exists "settings.json" ;;
       if bundled then
         try_except (loaded <~ load_from "settings.json" ;; ret (Some loaded))
           (fun e => ret None)
       else ret None) ;;
  match fallthrough with
  | Some loaded => ret loaded
  | None => ret (JDict default_settings)
  end.

End SettingsManager.

(** ** More of Python's strings and lists *)

Module PyExt.

(** The loop of [s.split()]: [cur] is the word being read. *)
Fixpoint words (cur : string) (s : string) : list string :=
  match s with
  | EmptyString =>
      match cur with
      | EmptyString => []
      | _ => [cur]
      end
  | String c r =>
      if Py.is_space c then
        match cur with
        | EmptyString => words EmptyString r
        | _ => cur :: words EmptyString r
        end
      else words (cur +:+ String c EmptyString) r
  end.

(** [s.split()]: the maximal runs of characters that are not whitespace. *)
Definition split (s : string) : list string := words EmptyString s.

Fixpoint fields (sep : ascii) (cur : string) (s : string) : list string :=
  match s with
  | EmptyString => [cur]
  | String c r =>
      if Ascii.eqb c sep then cur :: fields sep EmptyString r
      else fields sep (cur +:+ String c EmptyString) r
  end.

(** [s.split(sep)] for a one-character [sep]: empty fields are kept. *)
Definition split_on (sep : ascii) (s : string) : list string :=
  fields sep EmptyString s.

(** [s[n:]] *)
Fixpoint drop_chars (n : nat) (s : string) : string :=
  match n, s with
  | O, _ => s
  | S _, EmptyString => EmptyString
  | S n', String _ r => drop_chars n' r
  end.

(** [s[:n]] *)
Fixpoint take_chars (n : nat) (s : string) : string :=
  match n, s with
  | O, _ => EmptyString
  | S _, EmptyString => EmptyString
  | S n', String c r => String c (take_chars n' r)
  end.

(** [s.startswith(p)] *)
Definition startswith (p s : string) : bool := String.prefix p s.

(** [l[-count:]]: a negative start counts from the end and stops at the
    first element; a start that is not negative stops at the length. *)
Definition last_slice {A} (count : Z) (l : list A) : list A :=
  let n := Z.of_nat (length l) in
  let start := - count in
  let start := if start <? 0 then Z.max 0 (start + n) else Z.min start n in
  skipn (Z.to_nat start) l.

(** [list(range(a, b))] *)
Definition range (a b : Z) : list Z :=
  map (fun i => a + Z.of_nat i) (seq 0 (Z.to_nat (b - a))).

Fixpoint zeros (k : nat) : string :=
  match k with
  | O => EmptyString
  | S k' => String "0" (zeros k')
  end.

(** [f"{n:0{width}d}"] for [n >= 0] *)
Definition zero_pad (width n : nat) : string :=
  let s := Py.str_of_nat n in
  zeros (width - String.length s) +:+ s.

End PyExt.

(** ** [src/missions/mission_manager.py]

    [complete_mission] and [get_mission_progress] are left out: the first
    works on a [profile_manager] whose class is not in the repository. *)

Module MissionManager.
Import Exn Json FS.

(** [self.mission_state] once a mission is loaded; ['start_time'] is always
    [None]. *)
Record mission_state := mkMissionState {
  objectives_completed : list string;
  hints_used : nat;
  attempts : nat
}.

Record manager := mkManager {
  current_mission : json;           (* [JNull] is [None] *)
  state : option mission_state      (* [None] is the [{}] of [__init__] *)
}.

Definition init : manager := mkManager JNull None.

(** [bool(x)] *)
Definition truthy (j : json) : bool :=
  match j with
  | JNull => false
  | JBool b => b
  | JInt n => negb (n =? 0)
  | JStr s => negb (String.eqb s EmptyString)
  | JList l => match l with [] => false | _ :: _ => true end
  | JDict d => match d with [] => false | _ :: _ => true end
  end.

(** [len(x)] *)
Definition len (j : json) : result nat :=
  match j with
  | JStr s => Ok (String.length s)
  | JList l => Ok (length l)
  | JDict d => Ok (length d)
  | JNull | JBool _ | JInt _ => Raise TypeError
  end.

Definition of_result {S A} (r : result A) : M S A := fun s => (r, s).

(** [self.mission_state[key]]: the empty dict has no key. *)
Definition the_state : M manager mission_state :=
  fun m =>
    match state m with
    | Some ms => (Ok ms, m)
    | None => (Raise KeyError, m)
    end.

Definition complete_objective (objective_id : string) : M manager bool :=
  ms <~ the_state ;;
  if negb (Py.str_in objective_id (objectives_completed ms)) then
    modify (fun m =>
      mkManager (current_mission m)
        (Some (mkMissionState (objectives_completed ms ++ [objective_id])
                 (hints_used ms) (attempts ms)))) ;;;
    ret true
  else ret false.

Definition is_mission_complete : M manager bool :=
  current <~ gets current_mission ;;
  if negb (truthy current) then ret false
  else
    objectives <~ of_result (SaveLoadManager.json_get current "objectives" (JList [])) ;;
    total_objectives <~ of_result (len objectives) ;;
    ms <~ the_state ;;
    let completed := length (objectives_completed ms) in
    ret (total_objectives <=? completed)%nat.

(** [hints_used += 1] *)
Definition count_hint (ms : mission_state) : M manager unit :=
  modify (fun m =>
    mkManager (current_mission m)
      (Some (mkMissionState (objectives_completed ms) (S (hints_used ms))
               (attempts ms)))).

(** [use_hint]: the test [hint_index < len(hints)] and the later
    [hints[hint_index]] are read together, by the kind of value [hints] is.
    A list and a string have the element exactly when the test holds; a
    dict passes the test by its size and then has no integer key; the other
    values have no [len]. *)
Definition use_hint : M manager json :=
  current <~ gets current_mission ;;
  if negb (truthy current) then ret JNull
  else
    hints <~ of_result (SaveLoadManager.json_get current "hints" (JList [])) ;;
    ms <~ the_state ;;
    let hint_index := hints_used ms in
    match hints with
    | JList l =>
        match nth_error l hint_index with
        | Some hint => count_hint ms ;;; ret hint
        | None => ret JNull
        end
    | JStr s =>
        match String.get hint_index s with
        | Some c => count_hint ms ;;; ret (JStr (String c EmptyString))
        | None => ret JNull
        end
    | JDict d =>
        if (hint_index <? length d)%nat then count_hint ms ;;; raise KeyError
        else ret JNull
    | JNull | JBool _ | JInt _ => raise TypeError
    end.

Definition missions_dir : string := "data/missions".

Definition on_disk {A} (m : M fs A) : M (manager * fs) A :=
  fun s =>
    let (r, st) := m (snd s) in (r, (fst s, st)).

(** The body of the [try] in the loop of [load_mission]: [Some] is the
    [return mission]. *)
Definition try_file (mission_id filename : string) : M (manager * fs) (option json) :=
  mission <~ on_disk (read_json (path_join missions_dir filename)) ;;
  id <~ of_result (SaveLoadManager.json_get mission "id" JNull) ;;
  if is_str mission_id id then
    modify (fun s => (mkManager mission (Some (mkMissionState [] 0 0)), snd s)) ;;;
    ret (Some mission)
  else ret None.

Fixpoint load_first (mission_id : string) (filenames : list string)
  : M (manager * fs) json :=
  match filenames with
  | [] => ret JNull
  | filename :: rest =>
      if endswith "_config.json" filename then
        found <~ try_except (try_file mission_id filename) (fun e => ret None) ;;
        match found with
        | Some mission => ret mission
        | None => load_first mission_id rest
        end
      else load_first mission_id rest
  end.

Definition load_mission (mission_id : string) : M (manager * fs) json :=
  found <~ on_disk (path_exists missions_dir) ;;
  if negb found then ret JNull
  else
    filenames <~ on_disk (fun st => (listdir st missions_dir, st)) ;;
    load_first mission_id filenames.

End MissionManager.

(** ** [src/tools/command_parser.py] *)

Module CommandParser.

Record parser := mkParser { command_history : list string }.

Definition available_commands : list (string * string) :=
  [ ("nmap", "Network scanning tool");
    ("vpn", "VPN anonymity tool (connect/disconnect)");
    ("tor", "TOR routing tool (start/stop)");
    ("download", "Download files from target system");
    ("ls", "List downloaded files");
    ("analyze", "Packet analysis tool");
    ("crack", "Password cracking tool");
    ("help", "Show help information");
    ("objectives", "Show mission objectives");
    ("hint", "Get a hint for the current mission");
    ("clear", "Clear the terminal screen");
    ("exit", "Exit current mission") ].

(** The value of an option: [True], or the word that follows it. *)
Inductive option_value :=
  | Flag
  | Value (word : string).

(** The [while] loop of [parse], on the words from [parts[i]] on. *)
Fixpoint parse_parts (parts : list string) (args : list string)
    (options : list (string * option_value))
  : list string * list (string * option_value) :=
  match parts with
  | [] => (args, options)
  | part :: rest =>
      if PyExt.startswith "--" part then
        let opt_name := PyExt.drop_chars 2 part in
        match rest with
        | next :: rest' =>
            if negb (PyExt.startswith "-" next)
            then parse_parts rest' args (Py.set opt_name (Value next) options)
            else parse_parts rest args (Py.set opt_name Flag options)
        | [] => parse_parts rest args (Py.set opt_name Flag options)
        end
      else if PyExt.startswith "-" part && (1 <? String.length part)%nat then
        let opt_name := PyExt.drop_chars 1 part in
        match rest with
        | next :: rest' =>
            if negb (PyExt.startswith "-" next)
            then parse_parts rest' args (Py.set opt_name (Value next) options)
            else parse_parts rest args (Py.set opt_name Flag options)
        | [] => parse_parts rest args (Py.set opt_name Flag options)
        end
      else parse_parts rest (args ++ [part]) options
  end.

Definition parse (command_str : string) (p : parser)
  : (string * list string * list (string * option_value)) * parser :=
  if String.eqb command_str EmptyString || String.eqb (Py.strip command_str) EmptyString
  then ((EmptyString, [], []), p)
  else
    let p := mkParser (command_history p ++ [command_str]) in
    let parts := PyExt.split (Py.strip command_str) in
    let command := match parts with
                   | first :: _ => Py.lower first
                   | [] => EmptyString
                   end in
    let (args, options) := parse_parts (tl parts) [] [] in
    ((command, args, options), p).

Definition get_similar_commands (command : string) (max_distance : Z) : list string :=
  firstn 3
    (List.filter
       (fun cmd =>
          PyExt.startswith (PyExt.take_chars 2 command) cmd
          || (Z.abs (Z.of_nat (String.length cmd) - Z.of_nat (String.length command))
              <=? max_distance))
       (map fst available_commands)).

(** What the message of [validate_command] says. *)
Inductive validation_message :=
  | NoMessage
  | NoCommandEntered
  | DidYouMean (command : string) (suggestions : list string)
  | UnknownCommand (command : string).

Definition validate_command (command : string) : bool * validation_message :=
  if String.eqb command EmptyString then (false, NoCommandEntered)
  else if negb (Py.has_key command available_commands) then
    match get_similar_commands command 2 with
    | [] => (false, UnknownCommand command)
    | suggestions => (false, DidYouMean command suggestions)
    end
  else (true, NoMessage).

Definition get_command_history (count : Z) (p : parser) : list string :=
  PyExt.last_slice count (command_history p).

End CommandParser.

(** ** [src/tools/nmap_simulator.py]

    The text [scan] prints is left out; its metadata are modelled. *)

Module NmapSimulator.
Import Exn.

Record port_info := mkPort {
  port : Z;
  service : string;
  version : string
}.

Record host_config := mkHost {
  hostname : string;
  os : string;
  ports : list port_info
}.

Definition network_configs : list (string * host_config) :=
  [ ("192.168.1.100",
     mkHost "cafe-wifi.local" "Linux 3.13 - 4.6"
       [ mkPort 22 "ssh" "OpenSSH 7.4";
         mkPort 80 "http" "Apache 2.4.29";
         mkPort 3306 "mysql" "MySQL 5.7" ]);
    ("192.168.1.1",
     mkHost "router.local" "Linux 2.6.X"
       [ mkPort 80 "http" "lighttpd 1.4.35";
         mkPort 443 "https" "lighttpd 1.4.35" ]);
    ("10.0.0.50",
     mkHost "server.internal" "Linux 4.15 - 5.6"
       [ mkPort 22 "ssh" "OpenSSH 8.2";
         mkPort 80 "http" "nginx 1.18.0";
         mkPort 443 "https" "nginx 1.18.0";
         mkPort 3389 "rdp" "xrdp" ]) ].

(** [all(0 <= int(part) <= 255 for part in parts)]: [None] is the
    [ValueError] of [int], raised before any later part is read. *)
Fixpoint all_octets (parts : list string) : option bool :=
  match parts with
  | [] => Some true
  | part :: rest =>
      match Py.int_of_str part with
      | None => None
      | Some n => if (0 <=? n) && (n <=? 255) then all_octets rest else Some false
      end
  end.

Definition _is_valid_ip (ip : string) : bool :=
  let parts := PyExt.split_on "." ip in
  if negb (length parts =? 4)%nat then false
  else
    match all_octets parts with
    | Some b => b
    | None => false
    end.

(** One turn of the loop of [_parse_ports]: the ports a part adds. *)
Definition ports_of_part (part : string) : list Z :=
  if Py.char_in "-" part then
    match PyExt.split_on "-" part with
    | [first; last] =>
        match Py.int_of_str first with
        | None => []
        | Some a =>
            match Py.int_of_str last with
            | None => []
            | Some b => PyExt.range a (b + 1)
            end
        end
    | _ => []
    end
  else
    match Py.int_of_str part with
    | Some n => [n]
    | None => []
    end.

Definition _parse_ports (port_str : string) : list Z :=
  flat_map ports_of_part (PyExt.split_on "," port_str).

(** The metadata dictionaries; an absent key is [None]. *)
Record metadata := mkMeta {
  success : bool;
  m_target : option string;
  m_hostname : option string;
  m_os : option string;
  ports_found : option (list Z);
  services : option (list string)
}.

Definition _scan_unknown_target (target : string) : metadata :=
  if negb (_is_valid_ip target) then mkMeta false None None None None None
  else mkMeta false (Some target) None None (Some []) None.

(** [scan]: an option [-p] without a value is [True], which has no
    [split]. *)
Definition scan (target : string)
    (options : list (string * CommandParser.option_value)) : result metadata :=
  match Py.get target network_configs with
  | None => Ok (_scan_unknown_target target)
  | Some config =>
      let selected :=
        match Py.get "p" options with
        | None => Ok (ports config)
        | Some (CommandParser.Value port_str) =>
            let requested_ports := _parse_ports port_str in
            Ok (List.filter (fun p => Py.int_in (port p) requested_ports) (ports config))
        | Some CommandParser.Flag => Raise AttributeError
        end in
      match selected with
      | Raise e => Raise e
      | Ok ports_to_scan =>
          Ok (mkMeta true (Some target) (Some (hostname config)) (Some (os config))
                (Some (map port ports_to_scan)) (Some (map service ports_to_scan)))
      end
  end.

Definition execute (args : list string)
    (options : list (string * CommandParser.option_value)) : result metadata :=
  match args with
  | [] => Ok (mkMeta false None None None None None)
  | target :: _ => scan target options
  end.

End NmapSimulator.

(** ** [src/tools/file_manager.py]

    The text [download] prints is named by an [outcome]. *)

Module FileManager.

Record file_info := mkFile {
  size : string;
  description : string;
  requires_scan : bool
}.

Definition target_files : list (string * list (string * file_info)) :=
  [ ("192.168.1.100",
     [ ("traffic.pcap", mkFile "2.4 MB" "Network packet capture file" true);
       ("system.log", mkFile "156 KB" "System log file" true) ]) ].

Record manager := mkManager { downloaded_files : list string }.

Inductive outcome :=
  | TargetNotRecognized
  | TargetNotScanned
  | FileNotFound (available_files : list string)
  | AlreadyDownloaded
  | Downloaded (info : file_info)
  | Usage
  | NoFiles
  | Listing
  | UnknownCommand.

(** The metadata dictionaries; an absent key is [None]. *)
Record metadata := mkMeta {
  success : bool;
  m_filename : option string;
  m_target : option string;
  m_downloaded_files : option (list string);
  file_count : option nat;
  files : option (list string)
}.

Definition failure : metadata := mkMeta false None None None None None.

Definition download (target filename : string) (scanned_targets : list string)
    (m : manager) : (outcome * metadata) * manager :=
  match Py.get target target_files with
  | None => ((TargetNotRecognized, failure), m)
  | Some files =>
      if negb (Py.str_in target scanned_targets) then ((TargetNotScanned, failure), m)
      else
        match Py.get filename files with
        | None => ((FileNotFound (map fst files), failure), m)
        | Some info =>
            if Py.str_in filename (downloaded_files m)
            then ((AlreadyDownloaded, failure), m)
            else
              let m := mkManager (downloaded_files m ++ [filename]) in
              ((Downloaded info,
                mkMeta true (Some filename) (Some target) (Some (downloaded_files m))
                  None None),
               m)
        end
  end.

Definition list_files (m : manager) : outcome * metadata :=
  match downloaded_files m with
  | [] => (NoFiles, mkMeta true None None None (Some 0%nat) None)
  | downloaded =>
      (Listing, mkMeta true None None None (Some (length downloaded)) (Some downloaded))
  end.

Definition has_file (filename : string) (m : manager) : bool :=
  Py.str_in filename (downloaded_files m).

Definition execute (command : string) (args : list string)
    (scanned_targets : list string) (m : manager) : (outcome * metadata) * manager :=
  if String.eqb command "download" then
    match args with
    | target :: filename :: _ => download target filename scanned_targets m
    | _ => ((Usage, failure), m)
    end
  else if String.eqb command "ls" then (list_files m, m)
  else ((UnknownCommand, failure), m).

End FileManager.

(** ** [src/systems/notification_manager.py] *)

Module NotificationManager.

Record manager := mkManager {
  unread_emails : Z;
  show_notification : bool;
  notification_email_ids : list string;
  pulse_timer : float;
  pulse_speed : float
}.

Definition init : manager := mkManager 0 false [] 0%float 2%float.

(** [l.remove(x)]: the first occurrence goes. *)
Fixpoint remove_first (x : string) (l : list string) : list string :=
  match l with
  | [] => []
  | y :: r => if String.eqb x y then r else y :: remove_first x r
  end.

(** [email_id] is [None] when no id is given; [None] and [""] are false. *)
Definition add_notification (email_id : option string) (m : manager) : manager :=
  let ids := notification_email_ids m in
  mkManager (unread_emails m + 1) true
    (match email_id with
     | Some id =>
         if negb (String.eqb id EmptyString) && negb (Py.str_in id ids)
         then ids ++ [id] else ids
     | None => ids
     end)
    (pulse_timer m) (pulse_speed m).

Definition clear_notification (m : manager) : manager :=
  mkManager (unread_emails m) false (notification_email_ids m)
    (pulse_timer m) (pulse_speed m).

Definition mark_email_read (email_id : string) (m : manager) : manager :=
  if Py.str_in email_id (notification_email_ids m) then
    let unread := Z.max 0 (unread_emails m - 1) in
    mkManager unread
      (if unread =? 0 then false else show_notification m)
      (remove_first email_id (notification_email_ids m))
      (pulse_timer m) (pulse_speed m)
  else m.

Definition reset_notifications (m : manager) : manager :=
  mkManager 0 false [] (pulse_timer m) (pulse_speed m).

Definition update (dt : float) (m : manager) : manager :=
  if show_notification m
  then mkManager (unread_emails m) (show_notification m) (notification_email_ids m)
         (PrimFloat.add (pulse_timer m) (PrimFloat.mul dt (pulse_speed m)))
         (pulse_speed m)
  else m.

Definition has_unread (m : manager) : bool := 0 <? unread_emails m.

Definition get_unread_count (m : manager) : Z := unread_emails m.

(** A call of a method that writes the object. *)
Inductive call :=
  | AddNotification (email_id : option string)
  | ClearNotification
  | MarkEmailRead (email_id : string)
  | ResetNotifications
  | Update (dt : float).

Definition exec (c : call) (m : manager) : manager :=
  match c with
  | AddNotification email_id => add_notification email_id m
  | ClearNotification => clear_notification m
  | MarkEmailRead email_id => mark_email_read email_id m
  | ResetNotifications => reset_notifications m
  | Update dt => update dt m
  end.

Definition run (calls : list call) (m : manager) : manager :=
  fold_left (fun m c => exec c m) calls m.

End NotificationManager.

(** ** [generate_packets] of [src/systems/network_generator.py] *)

Module PacketGenerator.
Import Random NetworkGenerator.

Record packet := mkPacket {
  id : string;
  timestamp : string;
  src_ip : string;
  src_port : Z;
  dst_ip : string;
  dst_port : Z;
  protocol : string;
  length : Z;
  payload : string;
  is_suspicious : bool
}.

(** [d == e] on the device dictionaries: every entry is compared. *)
#[export] Instance device_eq_dec : EqDecision Device.
Proof. solve_decision. Defined.

(** [random.choice(l)]; [None] is the [IndexError] of an empty [l]. *)
Definition choice_of {A} (l : list A) (r : rng) : option (A * rng) :=
  match l with
  | [] => None
  | d :: _ => Some (choice d l r)
  end.

(** [random.choice(ports) if ports else random.randint(lo, hi)] *)
Definition pick_port (ports : list Z) (lo hi : Z) (r : rng) : Z * rng :=
  match ports with
  | [] => randint lo hi r
  | p :: _ => choice p ports r
  end.

(** One turn of the loop, for the index [i]. *)
Definition generate_packet (devices : list Device) (i : nat) (r : rng)
  : option (packet * rng) :=
  match choice_of devices r with
  | None => None
  | Some (src_device, r1) =>
      match choice_of
              (List.filter (fun d => negb (bool_decide (d = src_device))) devices) r1 with
      | None => None
      | Some (dst_device, r2) =>
          let (protocol, r3) := choice "TCP" ["TCP"; "UDP"; "ICMP"] r2 in
          let '(src_port, dst_port, r5) :=
            if Py.str_in protocol ["TCP"; "UDP"] then
              let (src_port, r4) := pick_port (open_ports src_device) 1024 65535 r3 in
              let (dst_port, r5) := pick_port (open_ports dst_device) 1 1024 r4 in
              (src_port, dst_port, r5)
            else (0, 0, r3) in
          let is_suspicious :=
            negb (is_trusted src_device) || negb (is_trusted dst_device) in
          let payload :=
            if is_suspicious && (dst_port =? 23) then "LOGIN ATTEMPT: admin:admin"
            else if is_suspicious then "SCAN ATTEMPT"
            else "NORMAL TRAFFIC" in
          let (length, r6) := randint 60 1500 r5 in
          Some (mkPacket ("PKT_" +:+ PyExt.zero_pad 4 i)
                  ("2024-01-15 10:" +:+ PyExt.zero_pad 2 i +:+ ":00")
                  (ip src_device) src_port (ip dst_device) dst_port
                  protocol length payload is_suspicious,
                r6)
      end
  end.

(** The turns [i], [i + 1], ... of the loop, [n] of them. *)
Fixpoint generate_from (devices : list Device) (i n : nat) (r : rng)
  : option (list packet * rng) :=
  match n with
  | O => Some ([], r)
  | S n' =>
      match generate_packet devices i r with
      | None => None
      | Some (pkt, r1) =>
          match generate_from devices (S i) n' r1 with
          | None => None
          | Some (rest, r2) => Some (pkt :: rest, r2)
          end
      end
  end.

Definition generate_packets (config : network_config) (count : Z) (r : rng)
  : option (list packet * rng) :=
  generate_from (devices config) 0 (Z.to_nat count) r.

End PacketGenerator.

(** ** The global simulator of [src/core/network_simulation.py] *)

Module SimulatorInstance.

Record simulator := mkSimulator {
  player_nickname : string;
  network_data : NetworkSimulator.network_data
}.

(** [NetworkSimulator(player_nickname)] *)
Definition create (player_nickname : string) : simulator :=
  mkSimulator player_nickname (NetworkSimulator.generate_network player_nickname).

(** [get_network_simulator], on the global [_network_simulator]. *)
Definition get_network_simulator (player_nickname : string) (global : option simulator)
  : simulator * option simulator :=
  match global with
  | None => let s := create player_nickname in (s, Some s)
  | Some s => (s, global)
  end.

Definition reset_network_simulator (global : option simulator) : option simulator :=
  None.

End SimulatorInstance.

(** ** The readers of [src/missions/mission2_packet_analysis.py] *)

Module Mission2Readers.
Import Objectives Mission2.

Definition get_found_threats (s : state) : list string :=
  found_threats (extra (identify_threats (objs s))).

Definition get_remaining_threats (s : state) : list string :=
  let found := found_threats (extra (identify_threats (objs s))) in
  let target := target_threats (extra (identify_threats (objs s))) in
  List.filter (fun t => negb (Py.str_in t found)) target.

Definition get_threat_info (threat_type : string) (s : state) : option threat_info :=
  Py.get threat_type (threat_types s).

End Mission2Readers.

(** ** Words for the properties of the code above *)

Module Props.

(** What a fresh [Mission1NetworkRecon] has and keeps: no found port, the
    two objectives without a working check not completed, the target count
    of the untrusted devices, and the vulnerabilities read off the
    devices. *)
Definition mission1_reachable (s : Mission1.state) : Prop :=
  let o := Mission1.objs s in
  let config := Mission1.network_config s in
  Objectives.extra (Mission1.find_risky_ports o) = []
  /\ Objectives.completed (Mission1.find_risky_ports o) = false
  /\ Objectives.completed (Mission1.analyze_packets o) = false
  /\ Objectives.required (Mission1.analyze_packets o) = true
  /\ Mission1.target_count (Objectives.extra (Mission1.isolate_threats o))
     = length (NetworkGenerator.untrusted_devices (NetworkGenerator.vulns config))
  /\ NetworkGenerator.vulns config
     = NetworkGenerator.scan_devices (NetworkGenerator.devices config).

(** The three lists [award_completion_rewards] appends to. *)
Definition reward_lists (p : Profile.t)
  : option (option (list string) * option (list string) * option (list string)) :=
  option_map
    (fun pr => (Profile.badges pr, Profile.missions_completed pr,
                Profile.unlocked_missions pr))
    (Profile.progress_of p).

Definition xp_of (p : Profile.t) : option Z :=
  match Profile.progress_of p with
  | Some pr => Profile.xp pr
  | None => None
  end.

(** The threats [__init__] of [Mission2PacketAnalysis] asks for. *)
Definition mission2_targets : list string :=
  ["telnet_scan"; "port_scan"; "discovery"; "printer_exploit"; "exfiltration"].

(** What a fresh [Mission2PacketAnalysis] has and keeps. *)
Definition mission2_reachable (s : Mission2.state) : Prop :=
  let o := Mission2.identify_threats (Mission2.objs s) in
  let found := Mission2.found_threats (Objectives.extra o) in
  Mission2.target_threats (Objectives.extra o) = mission2_targets
  /\ map fst (Mission2.threat_types s) = mission2_targets
  /\ NoDup found
  /\ (forall t, In t found -> In t mission2_targets)
  /\ Objectives.completed o
     = forallb (fun t => Py.str_in t found) mission2_targets.

(** The calls that are methods of the mission object: the other one is the
    caller writing the profile dictionary the object shares. *)
Definition mission2_method (c : Mission2.call) : bool :=
  match c with
  | Mission2.ProfileWritten _ => false
  | _ => true
  end.

(** Without Wireshark among the downloaded tools the first objective stays
    open, as long as only methods are called. *)
Definition mission2_no_wireshark (tools : option (list string)) (s : Mission2.state)
  : Prop :=
  Profile.downloaded_tools (Mission2.profile_data s) = tools
  /\ Objectives.required (Mission2.download_wireshark (Mission2.objs s)) = true
  /\ Objectives.completed (Mission2.download_wireshark (Mission2.objs s)) = false.

(** What a fresh [Mission3PcapAnalysis] has and keeps: the six objectives
    no method writes, and the two others required. *)
Definition mission3_reachable (s : Mission3.state) : Prop :=
  let o := Mission3.objs s in
  let o0 := Mission3.objs (Mission3.init (Profile.mkProfile None None)) in
  Mission3.extract_mac_dest o = Mission3.extract_mac_dest o0
  /\ Mission3.extract_mac_src o = Mission3.extract_mac_src o0
  /\ Mission3.extract_ip_src o = Mission3.extract_ip_src o0
  /\ Mission3.extract_ip_dest o = Mission3.extract_ip_dest o0
  /\ Mission3.identify_protocol o = Mission3.identify_protocol o0
  /\ Mission3.complete_report o = Mission3.complete_report o0
  /\ Objectives.required (Mission3.download_pcap_analyzer o) = true
  /\ Objectives.required (Mission3.open_pcap_analyzer o) = true.

(** The keys [validate_mission1_data] knows. *)
Definition mission1_fields : list string :=
  ["ip_address"; "mac_address"; "gateway"; "subnet_mask"; "device_count"; "router_name"].

(** The simulators a sequence of [get_network_simulator] calls returns, one
    per nickname asked with. *)
Fixpoint ask_all (nicknames : list string) (global : option SimulatorInstance.simulator)
  : list SimulatorInstance.simulator :=
  match nicknames with
  | [] => []
  | nickname :: rest =>
      let (s, global) := SimulatorInstance.get_network_simulator nickname global in
      s :: ask_all rest global
  end.

(** The calls that are not [reset_notifications]. *)
Definition keeps_notifications (c : NotificationManager.call) : bool :=
  match c with
  | NotificationManager.ResetNotifications => false
  | _ => true
  end.

(** The unread count beyond the tracked ids. *)
Definition untracked (m : NotificationManager.manager) : Z :=
  NotificationManager.unread_emails m
  - Z.of_nat (length (NotificationManager.notification_email_ids m)).

(** What a [NotificationManager] keeps from [__init__] on. *)
Definition notifications_ok (m : NotificationManager.manager) : Prop :=
  NoDup (NotificationManager.notification_email_ids m)
  /\ 0 <= untracked m
  /\ (NotificationManager.show_notification m = true
      -> 0 < NotificationManager.unread_emails m).

(** A terminal session of the file manager: [(command, args,
    scanned_targets)] per call of [execute]. *)
Definition file_session (calls : list (string * list string * list string))
    (m : FileManager.manager) : FileManager.manager :=
  fold_left
    (fun m c =>
       let '(command, args, scanned_targets) := c in
       snd (FileManager.execute command args scanned_targets m))
    calls m.

(** The files of all targets. *)
Definition known_files : list string :=
  flat_map (fun t => map fst (snd t)) FileManager.target_files.

(** What the downloaded files of a [FileManager] keep. *)
Definition files_ok (m : FileManager.manager) : Prop :=
  NoDup (FileManager.downloaded_files m)
  /\ forall f, In f (FileManager.downloaded_files m) -> In f known_files.

(** An argument of [parse]: the dash alone, or a word without a leading
    dash. *)
Definition arg_ok (a : string) : Prop := a = "-" \/ PyExt.startswith "-" a = false.

(** The value of an option of [parse]. *)
Definition value_ok (v : CommandParser.option_value) : Prop :=
  match v with
  | CommandParser.Flag => True
  | CommandParser.Value w => PyExt.startswith "-" w = false
  end.

(** [f"{a}.{b}.{c}.{d}"] *)
Definition dotted (a b c d : nat) : string :=
  Py.str_of_nat a +:+ "." +:+ Py.str_of_nat b +:+ "." +:+ Py.str_of_nat c
  +:+ "." +:+ Py.str_of_nat d.

(** [k] calls of [use_hint] in a row: what each returned, oldest first. *)
Fixpoint use_hints (k : nat) (m : MissionManager.manager)
  : list (Exn.result Json.json) * MissionManager.manager :=
  match k with
  | O => ([], m)
  | S k' =>
      let (r, m1) := MissionManager.use_hint m in
      let (rs, m2) := use_hints k' m1 in
      (r :: rs, m2)
  end.

(** [complete_objective] on each id in turn. *)
Fixpoint complete_all (ids : list string) (m : MissionManager.manager)
  : list (Exn.result bool) * MissionManager.manager :=
  match ids with
  | [] => ([], m)
  | objective_id :: rest =>
      let (r, m1) := MissionManager.complete_objective objective_id m in
      let (rs, m2) := complete_all rest m1 in
      (r :: rs, m2)
  end.

(** The [mission_state] that [load_mission] stores. *)
Definition loaded (mission : Json.json) : MissionManager.manager :=
  MissionManager.mkManager mission (Some (MissionManager.mkMissionState [] 0 0)).

(** What [load_mission] found among [filenames]: nothing, or the mission of
    one of the files. *)
Definition mission_found (mission_id : string) (filenames : list string)
    (m : MissionManager.manager) (st : FS.fs)
    (r : Exn.result Json.json) (m' : MissionManager.manager) : Prop :=
  match r with
  | Exn.Raise _ => False
  | Exn.Ok mission =>
      (mission = Json.JNull /\ m' = m)
      \/ (m' = loaded mission
          /\ SaveLoadManager.json_get mission "id" Json.JNull
             = Exn.Ok (Json.JStr mission_id)
          /\ exists filename,
               In filename filenames
               /\ Json.endswith "_config.json" filename = true
               /\ FS.files st !! FS.path_join MissionManager.missions_dir filename
                  = Some (FS.Text mission))
  end.

(** The addresses of the five devices of a Mission 1 network. *)
Definition mission1_ips : list string :=
  ["192.168.1.1"; "192.168.1.10"; "192.168.1.20"; "192.168.1.30"; "192.168.1.50"].

(** What every packet of [generate_packets] on a Mission 1 network has. *)
Definition packet_ok (p : PacketGenerator.packet) : Prop :=
  In (PacketGenerator.src_ip p) mission1_ips
  /\ In (PacketGenerator.dst_ip p) mission1_ips
  /\ PacketGenerator.src_ip p <> PacketGenerator.dst_ip p
  /\ In (PacketGenerator.protocol p) ["TCP"; "UDP"; "ICMP"]
  /\ (PacketGenerator.protocol p = "ICMP" ->
      PacketGenerator.src_port p = 0 /\ PacketGenerator.dst_port p = 0)
  /\ 60 <= PacketGenerator.length p <= 1500
  /\ PacketGenerator.is_suspicious p
     = String.eqb (PacketGenerator.src_ip p) "192.168.1.50"
       || String.eqb (PacketGenerator.dst_ip p) "192.168.1.50"
  /\ (PacketGenerator.payload p = "NORMAL TRAFFIC"
      <-> PacketGenerator.is_suspicious p = false).

(** The same, for packets between the devices [ds]. *)
Definition packet_between (ds : list NetworkGenerator.Device)
    (p : PacketGenerator.packet) : Prop :=
  exists src dst,
    In src ds /\ In dst ds /\ src <> dst
    /\ PacketGenerator.src_ip p = NetworkGenerator.ip src
    /\ PacketGenerator.dst_ip p = NetworkGenerator.ip dst
    /\ PacketGenerator.is_suspicious p
       = negb (NetworkGenerator.is_trusted src) || negb (NetworkGenerator.is_trusted dst)
    /\ In (PacketGenerator.protocol p) ["TCP"; "UDP"; "ICMP"]
    /\ (PacketGenerator.protocol p = "ICMP" ->
        PacketGenerator.src_port p = 0 /\ PacketGenerator.dst_port p = 0)
    /\ 60 <= PacketGenerator.length p <= 1500
    /\ (PacketGenerator.payload p = "NORMAL TRAFFIC"
        <-> PacketGenerator.is_suspicious p = false).

(** The characters a profile file name is made of, before its suffix:
    [a-z], [0-9], [_] and [-]. *)
Definition safe_char (c : ascii) : bool :=
  Py.is_lower c || Py.is_digit c || Py.char_in c "_-".

(** A nickname whose text is ASCII: the characters of a [str], the string
    elements of a list, the keys of a dict. *)
Definition ascii_nickname (nickname : Json.json) : bool :=
  match nickname with
  | Json.JStr s => Py.is_ascii s
  | Json.JList l =>
      forallb (fun x => match x with Json.JStr s => Py.is_ascii s | _ => true end) l
  | Json.JDict d => forallb (fun kv => Py.is_ascii (fst kv)) d
  | _ => true
  end.

(** Two upper-case hexadecimal digits. *)
Definition hex_pair (s : string) : bool :=
  match s with
  | String a (String b EmptyString) =>
      Py.char_in a "0123456789ABCDEF" && Py.char_in b "0123456789ABCDEF"
  | _ => false
  end.

(** [XX:XX:XX:XX:XX:XX] *)
Definition mac_ok (s : string) : Prop :=
  length (PyExt.split_on ":" s) = 6%nat
  /\ Forall (fun part => hex_pair part = true) (PyExt.split_on ":" s).

(** The seven objectives of Mission 1 are required. *)
Definition mission1_all_required (s : Mission1.state) : Prop :=
  Forall (fun item => Objectives.f_required (snd item) = true)
    (Mission1.items (Mission1.objs s)).

(** A terminal state in which everything [update_progress] looks at is
    done: the scan command typed, five devices discovered, port 23 blocked
    and the untrusted devices of [config] isolated. *)
Definition all_done (config : NetworkGenerator.network_config) : Mission1.terminal_state :=
  Mission1.mkTerminal
    (Some ["scan network"])
    (Some [23])
    (Some (map NetworkGenerator.ud_mac
             (NetworkGenerator.untrusted_devices (NetworkGenerator.vulns config))))
    (Some ["192.168.1.1"; "192.168.1.10"; "192.168.1.20"; "192.168.1.30";
           "192.168.1.50"]).

End Props.

(** ** The specification's words, as definitions of their own *)

Module Spec.

(** Two characters that are equal or differ only by their case. *)
Definition same_char (a b : ascii) : bool :=
  Ascii.eqb a b || Ascii.eqb (Py.lower_char a) b || Ascii.eqb a (Py.lower_char b).

(** "Compared without regard to letter case". *)
Fixpoint eq_ignoring_case (s t : string) : bool :=
  match s, t with
  | EmptyString, EmptyString => true
  | String a s', String b t' => same_char a b && eq_ignoring_case s' t'
  | _, _ => false
  end.

(** A string without letters. *)
Definition caseless (e : string) : bool :=
  String.eqb (Py.sfilter (fun c => Py.is_upper c || Py.is_lower c) e) EmptyString.

(** For the two MAC fields [-] and [:] are the same separator. *)
Definition mac_separators (field : string) (x : string) : string :=
  if String.eqb field "dest_mac" || String.eqb field "src_mac"
  then Py.replace "-" ":" x else x.

(** What a generated network shows apart from the MAC addresses, the open
    ports and the network id. *)
Definition static_view (c : NetworkGenerator.network_config) :=
  (NetworkGenerator.subnet c, NetworkGenerator.gateway c,
   NetworkGenerator.security_status c,
   map (fun d => (NetworkGenerator.name d, NetworkGenerator.ip d,
                  NetworkGenerator.device_type d, NetworkGenerator.is_trusted d,
                  NetworkGenerator.isolated d))
     (NetworkGenerator.devices c)).

(** Completion never goes back: the same keys in the same order, and
    every objective completed before is completed after. *)
Definition monotone (before after : list (string * Objectives.flags)) : Prop :=
  Forall2
    (fun a b =>
       fst a = fst b
       /\ (Objectives.f_completed (snd a) = true
           -> Objectives.f_completed (snd b) = true))
    before after.

(** At least one objective has ['required'] true. *)
Definition some_required (items : list (string * Objectives.flags)) : Prop :=
  exists item, In item items /\ Objectives.f_required (snd item) = true.


(** The file of a nickname that is a [str]. *)
Definition file_of (mgr : SaveLoadManager.manager) (n : string) : string :=
  FS.path_join (SaveLoadManager.profiles_dir mgr)
    (Py.lower (Py.sfilter SaveLoadManager.keep_char n) +:+ "_profile.json").

(** The file [load_settings] reads: the persistent one when it exists,
    else the bundled one. *)
Definition source (settings_file : string) (st : FS.fs) : option FS.file :=
  match FS.files st !! settings_file with
  | Some f => Some f
  | None => FS.files st !! "settings.json"
  end.

End Spec.

(** * Facts about the embedding *)

(** ** Characters: a property of all 256 of them is checked by running it *)

Module CharFacts.
Import Py.

Definition all_chars : list ascii := map ascii_of_nat (seq 0 256).

Lemma all_chars_complete (c : ascii) : In c all_chars.
Proof.
  unfold all_chars. rewrite <- (ascii_nat_embedding c).
  apply in_map, in_seq. pose proof (nat_ascii_bounded c). lia.
Qed.

Lemma forall_char (p : ascii -> bool) :
  forallb p all_chars = true -> forall c, p c = true.
Proof.
  intros H c. rewrite forallb_forall in H. apply H, all_chars_complete.
Qed.

Lemma forall_char2 (p : ascii -> ascii -> bool) :
  forallb (fun a => forallb (p a) all_chars) all_chars = true ->
  forall a b, p a b = true.
Proof.
  intros H a b. apply (forall_char (p a)). revert a. apply forall_char. exact H.
Qed.

Lemma lower_char_eqb (a b : ascii) :
  Ascii.eqb (lower_char a) (lower_char b) = Spec.same_char a b.
Proof.
  apply Bool.eqb_prop. revert a b.
  apply (forall_char2 (fun a b =>
    Bool.eqb (Ascii.eqb (lower_char a) (lower_char b)) (Spec.same_char a b))).
  vm_compute. reflexivity.
Qed.

Lemma upper_char_eqb (a b : ascii) :
  Ascii.eqb (upper_char a) (upper_char b) = Spec.same_char a b.
Proof.
  apply Bool.eqb_prop. revert a b.
  apply (forall_char2 (fun a b =>
    Bool.eqb (Ascii.eqb (upper_char a) (upper_char b)) (Spec.same_char a b))).
  vm_compute. reflexivity.
Qed.

Lemma is_space_lower_char (c : ascii) : is_space (lower_char c) = is_space c.
Proof.
  apply Bool.eqb_prop. revert c.
  apply (forall_char (fun c => Bool.eqb (is_space (lower_char c)) (is_space c))).
  vm_compute. reflexivity.
Qed.

Lemma same_char_space (a b : ascii) :
  Spec.same_char a b = true -> is_space a = is_space b.
Proof.
  intros H. apply Bool.eqb_prop. revert a b H.
  enough (forall a b,
    implb (Spec.same_char a b) (Bool.eqb (is_space a) (is_space b)) = true) as E.
  { intros a b H. specialize (E a b). rewrite H in E. exact E. }
  apply forall_char2. vm_compute. reflexivity.
Qed.


End CharFacts.

(** ** Strings *)

Module StrFacts.
Import Py CharFacts.

Lemma eqb_cons (a b : ascii) (s t : string) :
  String.eqb (String a s) (String b t) = Ascii.eqb a b && String.eqb s t.
Proof. simpl. destruct (Ascii.eqb a b); reflexivity. Qed.

Lemma smap_eqb (f : ascii -> ascii) (same : ascii -> ascii -> bool)
    (same_ok : forall a b, Ascii.eqb (f a) (f b) = same a b) (s t : string) :
  String.eqb (smap f s) (smap f t)
  = (fix go s t := match s, t with
                   | EmptyString, EmptyString => true
                   | String a s', String b t' => same a b && go s' t'
                   | _, _ => false
                   end) s t.
Proof.
  revert t. induction s as [|a s IH]; intros [|b t]; try reflexivity.
  cbn [smap]. rewrite eqb_cons, same_ok, IH. reflexivity.
Qed.

Lemma lower_eqb (s t : string) :
  String.eqb (lower s) (lower t) = Spec.eq_ignoring_case s t.
Proof. apply (smap_eqb _ _ lower_char_eqb). Qed.

Lemma upper_eqb (s t : string) :
  String.eqb (upper s) (upper t) = Spec.eq_ignoring_case s t.
Proof. apply (smap_eqb _ _ upper_char_eqb). Qed.

Lemma eq_ignoring_case_lower (s t : string) :
  Spec.eq_ignoring_case s t = true <-> lower s = lower t.
Proof. rewrite <- lower_eqb. apply String.eqb_eq. Qed.

Lemma smap_empty (f : ascii -> ascii) (s : string) :
  smap f s = EmptyString -> s = EmptyString.
Proof. destruct s; [reflexivity | discriminate]. Qed.

Lemma lstrip_lower (s : string) : lstrip (lower s) = lower (lstrip s).
Proof.
  induction s as [|c s IH]; [reflexivity|].
  cbn [lower smap lstrip]. rewrite is_space_lower_char.
  destruct (is_space c); [exact IH | reflexivity].
Qed.

Lemma rstrip_lower (s : string) : rstrip (lower s) = lower (rstrip s).
Proof.
  induction s as [|c s IH]; [reflexivity|].
  cbn [lower smap rstrip]. fold (lower s). rewrite IH.
  destruct (rstrip s) as [|d r]; cbn [lower smap].
  - rewrite is_space_lower_char. destruct (is_space c); reflexivity.
  - reflexivity.
Qed.

(** Trimming and lowering commute. *)
Lemma strip_lower (s : string) : strip (lower s) = lower (strip s).
Proof. unfold strip. rewrite lstrip_lower, rstrip_lower. reflexivity. Qed.

(** The separator rewrite and lowering commute: neither [-] nor [:] has a
    case. *)
Lemma replace_lower (s : string) :
  replace "-" ":" (lower s) = lower (replace "-" ":" s).
Proof.
  induction s as [|c s IH]; [reflexivity|].
  unfold replace, lower in *. cbn [smap]. rewrite IH. f_equal.
  revert c. clear.
  enough (forall c, Ascii.eqb
            (if Ascii.eqb (lower_char c) "-" then ":"%char else lower_char c)
            (lower_char (if Ascii.eqb c "-" then ":"%char else c)) = true) as E.
  { intros c. apply Ascii.eqb_eq, E. }
  apply forall_char. vm_compute. reflexivity.
Qed.

Lemma same_char_caseless (a b : ascii) :
  is_upper b || is_lower b = false -> Spec.same_char a b = Ascii.eqb a b.
Proof.
  intros H. apply Bool.eqb_prop. revert a b H.
  enough (forall a b,
    implb (negb (is_upper b || is_lower b))
      (Bool.eqb (Spec.same_char a b) (Ascii.eqb a b)) = true) as E.
  { intros a b H. specialize (E a b). rewrite H in E. exact E. }
  apply forall_char2. vm_compute. reflexivity.
Qed.

(** Against a value without letters, ignoring case changes nothing. *)
Lemma eq_ignoring_case_caseless (s e : string) :
  Spec.caseless e = true -> Spec.eq_ignoring_case s e = String.eqb s e.
Proof.
  unfold Spec.caseless. revert s. induction e as [|b e IH]; intros [|a s] H; try reflexivity.
  cbn [sfilter] in H. destruct (is_upper b || is_lower b) eqn:L; [discriminate|].
  cbn [Spec.eq_ignoring_case]. rewrite eqb_cons, same_char_caseless, IH by assumption.
  reflexivity.
Qed.

Lemma get_set {V} (k k' : string) (v : V) (d : list (string * V)) :
  get k (set k' v d) = if String.eqb k k' then Some v else get k d.
Proof.
  induction d as [|[k0 v0] d IH]; cbn [set get].
  - reflexivity.
  - destruct (String.eqb k' k0) eqn:E'; cbn [get].
    + apply String.eqb_eq in E'. subst k0.
      destruct (String.eqb k k'); reflexivity.
    + rewrite IH. destruct (String.eqb k k0) eqn:E0; [|reflexivity].
      apply String.eqb_eq in E0. subst k0.
      destruct (String.eqb k k') eqn:E; [|reflexivity].
      apply String.eqb_eq in E. subst k'. rewrite String.eqb_refl in E'. discriminate.
Qed.

Lemma str_in_In (x : string) (l : list string) : str_in x l = true <-> In x l.
Proof.
  unfold str_in. rewrite existsb_exists. split.
  - intros (y & Hy & E). apply String.eqb_eq in E. subst. exact Hy.
  - intros H. exists x. split; [exact H | apply String.eqb_refl].
Qed.

Lemma int_in_In (x : Z) (l : list Z) : int_in x l = true <-> In x l.
Proof.
  unfold int_in. rewrite existsb_exists. split.
  - intros (y & Hy & E). apply Z.eqb_eq in E. subst. exact Hy.
  - intros H. exists x. split; [exact H | apply Z.eqb_refl].
Qed.

Lemma has_key_In {V} (k : string) (d : list (string * V)) :
  has_key k d = true <-> In k (map fst d).
Proof.
  unfold has_key. induction d as [|[k0 v0] d IH]; cbn [get map fst In].
  - split; [discriminate | tauto].
  - destruct (String.eqb k k0) eqn:E.
    + apply String.eqb_eq in E. subst. tauto.
    + apply String.eqb_neq in E. rewrite IH. split; [tauto|].
      intros [H|H]; [congruence | exact H].
Qed.

End StrFacts.

(** ** C1: answer validation *)

Module ValidationFacts.
Import Py StrFacts.

Lemma validate_field_get (key : string) (test : string -> bool)
    (submitted : list (string * string)) (results : list (string * bool)) (k : string) :
  get k (NetworkSimulator.validate_field key test submitted results)
  = if String.eqb k key
    then match get key submitted with
         | Some v => Some (test v)
         | None => get k results
         end
    else get k results.
Proof.
  unfold NetworkSimulator.validate_field.
  destruct (get key submitted) as [v|].
  - apply get_set.
  - destruct (String.eqb k key); reflexivity.
Qed.

Lemma validate_answer_spec (s : Mission3.state) (field value : string) :
  Mission3.validate_answer field value s
  = match get field (Mission3.correct_answers s) with
    | None => false
    | Some expected =>
        Spec.eq_ignoring_case (Spec.mac_separators field (strip value))
          (Spec.mac_separators field (strip expected))
    end.
Proof.
  unfold Mission3.validate_answer, Spec.mac_separators, str_in.
  destruct (get field (Mission3.correct_answers s)) as [e|]; [|reflexivity].
  cbn [existsb]. rewrite orb_false_r.
  destruct (String.eqb field "dest_mac" || String.eqb field "src_mac").
  - rewrite !replace_lower. apply lower_eqb.
  - apply lower_eqb.
Qed.

Lemma validate_answer_case (s : Mission3.state) (field value value' : string) :
  Spec.eq_ignoring_case value value' = true ->
  Mission3.validate_answer field value s = Mission3.validate_answer field value' s.
Proof.
  intros H. apply eq_ignoring_case_lower in H.
  unfold Mission3.validate_answer.
  rewrite <- !strip_lower, H. reflexivity.
Qed.

Lemma report_threat_found_spec (s : Mission2.state) (threat_type : string) :
  fst (Mission2.report_threat_found threat_type s) = true
  <-> In threat_type (map fst (Mission2.threat_types s)).
Proof.
  rewrite <- has_key_In. unfold Mission2.report_threat_found.
  destruct (has_key threat_type (Mission2.threat_types s)); cbn [fst]; tauto.
Qed.

(** The slip in the MAC check of [validate_mission1_data]: the expected
    address keeps its dashes while the submitted one loses them, so that no
    submission is accepted. *)
Lemma replace_not_dash (s : string) :
  char_in "-" (replace "-" ":" s) = false.
Proof.
  induction s as [|c s IH]; [reflexivity|].
  unfold replace in *. cbn [smap char_in]. rewrite IH, orb_false_r.
  destruct (Ascii.eqb c "-") eqn:E; [reflexivity|].
  rewrite Ascii.eqb_sym. exact E.
Qed.

Lemma mission1_mac_never_accepted (nick value : string) :
  let player := NetworkSimulator.player (NetworkSimulator.generate_network nick) in
  String.eqb (replace "-" ":" (upper (strip value)))
    (upper (NetworkSimulator.p_mac_address player)) = false.
Proof.
  cbv zeta. apply String.eqb_neq. intros E.
  pose proof (replace_not_dash (upper (strip value))) as H.
  rewrite E in H. vm_compute in H. discriminate.
Qed.

End ValidationFacts.

(** C1, as the code has it.  [Mission3.validate_answer] and the
    [ip_address], [gateway], [subnet_mask] and [router_name] checks of
    [NetworkSimulator.validate_mission1_data] accept a submission exactly
    when, trimmed and compared without regard to case, it equals the expected
    value; for the two MAC fields of [validate_answer] the separators [-] and
    [:] are identified as well.  Changing only the case of a submission never
    changes the result of [validate_answer].
    [Mission2.report_threat_found] is an exact lookup: it accepts the keys of
    [threat_types] as they are written, with no trimming and no case folding.
    An ASCII [device_count] is read by [int] and compared as a number: a
    text that [int] refuses is wrong, not an error. *)
Theorem C1_validation_by_lookup :
  (forall (s : Mission3.state) (field value : string),
      Mission3.validate_answer field value s
      = match Py.get field (Mission3.correct_answers s) with
        | None => false
        | Some expected =>
            Spec.eq_ignoring_case (Spec.mac_separators field (Py.strip value))
              (Spec.mac_separators field (Py.strip expected))
        end)
  /\ (forall (s : Mission3.state) (field value value' : string),
         Spec.eq_ignoring_case value value' = true ->
         Mission3.validate_answer field value s
         = Mission3.validate_answer field value' s)
  /\ (forall (s : Mission2.state) (threat_type : string),
         fst (Mission2.report_threat_found threat_type s) = true
         <-> In threat_type (map fst (Mission2.threat_types s)))
  /\ (forall (nick : string) (submitted : list (string * string)),
         let results :=
           NetworkSimulator.validate_mission1_data
             (NetworkSimulator.generate_network nick) submitted in
         let checked key expected :=
           Py.get key results
           = option_map (fun v => Spec.eq_ignoring_case (Py.strip v) expected)
               (Py.get key submitted) in
         checked "ip_address" "192.168.1.120"
         /\ checked "gateway" "192.168.1.1"
         /\ checked "subnet_mask" "255.255.255.0"
         /\ checked "router_name" "home"
         /\ (forall v : string,
                Py.get "device_count" submitted = Some v ->
                Py.is_ascii v = true ->
                Py.get "device_count" results
                = Some match Py.int_of_str v with
                       | Some count => count =? 6
                       | None => false
                       end)
         /\ (Py.get "device_count" submitted = None ->
             Py.get "device_count" results = None)).
Proof.
  split; [exact ValidationFacts.validate_answer_spec|].
  split; [exact ValidationFacts.validate_answer_case|].
  split; [exact ValidationFacts.report_threat_found_spec|].
  intros nick submitted. cbv zeta.
  unfold NetworkSimulator.validate_mission1_data.
  rewrite !ValidationFacts.validate_field_get. cbn.
  repeat split.
  - destruct (Py.get "ip_address" submitted) as [v|]; [|reflexivity]. cbn.
    rewrite StrFacts.eq_ignoring_case_caseless; reflexivity.
  - destruct (Py.get "gateway" submitted) as [v|]; [|reflexivity]. cbn.
    rewrite StrFacts.eq_ignoring_case_caseless; reflexivity.
  - destruct (Py.get "subnet_mask" submitted) as [v|]; [|reflexivity]. cbn.
    rewrite StrFacts.eq_ignoring_case_caseless; reflexivity.
  - destruct (Py.get "router_name" submitted) as [v|]; [|reflexivity]. cbn.
    f_equal. apply (StrFacts.upper_eqb (Py.strip v) "home").
  - intros v -> _. reflexivity.
  - intros ->. reflexivity.
Qed.

(** C1 as the specification words it fails: [report_threat_found] tells
    [TELNET_SCAN] from [telnet_scan], and [validate_answer] takes a MAC
    address written with dashes, which no case folding turns into the
    expected one. *)
Lemma C1_case_changes_the_result :
  let s2 := Mission2.init (Profile.mkProfile None None) in
  let s3 := Mission3.init (Profile.mkProfile None None) in
  Spec.eq_ignoring_case "TELNET_SCAN" "telnet_scan" = true
  /\ fst (Mission2.report_threat_found "telnet_scan" s2) = true
  /\ fst (Mission2.report_threat_found "TELNET_SCAN" s2) = false
  /\ Mission3.validate_answer "dest_mac" "00-1e-ec-26-d2-ac" s3 = true
  /\ Spec.eq_ignoring_case "00-1e-ec-26-d2-ac" "00:1e:ec:26:d2:ac" = false.
Proof. vm_compute. repeat split. Qed.

(** ** [sorted] returns a sorted permutation *)

Module SortFacts.
Import Sort.

Lemma insert_perm (x : Z) (l : list Z) : insert x l ≡ₚ x :: l.
Proof.
  induction l as [|y l IH]; cbn [insert]; [reflexivity|].
  destruct (x <=? y); [reflexivity|].
  rewrite IH. apply Permutation_swap.
Qed.

Lemma sorted_perm (l : list Z) : sorted l ≡ₚ l.
Proof.
  induction l as [|x l IH]; cbn [sorted]; [reflexivity|].
  rewrite insert_perm, IH. reflexivity.
Qed.

Lemma insert_sorted (x : Z) (l : list Z) :
  StronglySorted Z.le l -> StronglySorted Z.le (insert x l).
Proof.
  induction 1 as [|y l Hl IH Hy]; cbn [insert].
  - repeat constructor.
  - destruct (x <=? y) eqn:E.
    + apply Z.leb_le in E. constructor; [constructor; assumption|].
      constructor; [exact E|].
      eapply Forall_impl; [exact Hy|]. intros z Hz. cbn in Hz. lia.
    + apply Z.leb_gt in E. constructor; [exact IH|].
      rewrite insert_perm. constructor; [lia | exact Hy].
Qed.

Lemma sorted_sorted (l : list Z) : StronglySorted Z.le (sorted l).
Proof.
  induction l as [|x l IH]; cbn [sorted]; [constructor|].
  apply insert_sorted, IH.
Qed.

Lemma sorted_strict (l : list Z) :
  NoDup l -> StronglySorted Z.le l -> StronglySorted Z.lt l.
Proof.
  intros Hnd Hs. induction Hs as [|x l Hl IH Hx]; [constructor|].
  apply NoDup_cons in Hnd as [Hnotin Hnd].
  constructor; [apply IH, Hnd|].
  rewrite Forall_forall in Hx |- *. intros y Hy.
  assert (x <> y) by (intros ->; contradiction).
  specialize (Hx y Hy). lia.
Qed.

(** Sorting a list without repetitions gives a strictly increasing list. *)
Lemma sorted_increasing (l : list Z) : NoDup l -> StronglySorted Z.lt (sorted l).
Proof.
  intros H. apply sorted_strict; [|apply sorted_sorted].
  rewrite sorted_perm. exact H.
Qed.

End SortFacts.

(** ** [random.sample] returns distinct elements of the population *)

Module SampleFacts.
Import Random.

Lemma pool_step {A} (pool : list A) (m j : nat) (x y : A) :
  (j < m)%nat -> (m <= length pool)%nat ->
  pool !! j = Some x -> pool !! (m - 1)%nat = Some y ->
  take m pool ≡ₚ x :: take (m - 1) (<[j := y]> pool).
Proof.
  intros Hj Hm Hx Hy. destruct m as [|n]; [lia|].
  replace (S n - 1)%nat with n in * by lia.
  rewrite (take_S_r _ _ _ Hy).
  destruct (decide (j = n)) as [->|Hne].
  - assert (x = y) by congruence. subst y.
    rewrite list_insert_id by exact Hx.
    symmetry. apply Permutation_cons_append.
  - assert (j < n)%nat as Hlt by lia.
    rewrite take_insert_lt by exact Hlt.
    assert (take n pool !! j = Some x) as Hx'
      by (rewrite lookup_take_lt by exact Hlt; exact Hx).
    rewrite insert_take_drop by (rewrite length_take; lia).
    rewrite <- (take_drop_middle _ _ _ Hx') at 1.
    rewrite <- !app_assoc. cbn [app].
    rewrite <- !Permutation_middle. rewrite app_nil_r. reflexivity.
Qed.

Lemma sample_loop_distinct (d : Z) (k : nat) :
  forall (pool : list Z) (m : nat) (r : rng),
    (k <= m)%nat -> (m <= length pool)%nat -> NoDup (take m pool) ->
    NoDup (fst (sample_loop d pool m k r))
    /\ forall x, x ∈ fst (sample_loop d pool m k r) -> x ∈ take m pool.
Proof.
  induction k as [|k IH]; intros pool m r Hk Hm Hnd.
  - cbn. split; [constructor | intros x Hx; inversion Hx].
  - cbn [sample_loop]. unfold randbelow, next. cbn [draws pos].
    set (j := Z.to_nat (draws r (pos r) mod Z.of_nat m)).
    assert (j < m)%nat as Hj.
    { subst j. pose proof (Z.mod_pos_bound (draws r (pos r)) (Z.of_nat m)). lia. }
    destruct (lookup_lt_is_Some_2 pool j ltac:(lia)) as [x Hx].
    destruct (lookup_lt_is_Some_2 pool (m - 1) ltac:(lia)) as [y Hy].
    rewrite !nth_lookup, Hx, Hy. cbn [default from_option id].
    pose proof (pool_step pool m j x y Hj Hm Hx Hy) as Hperm.
    rewrite Hperm in Hnd. apply NoDup_cons in Hnd as [Hnotin Hnd'].
    specialize (IH (<[j := y]> pool) (m - 1)%nat
                  (Rng (draws r) (S (pos r)))
                  ltac:(lia) ltac:(rewrite length_insert; lia) Hnd').
    destruct (sample_loop d (<[j := y]> pool) (m - 1) k _) as [rest r2].
    cbn [fst] in *. destruct IH as [IHnd IHin]. split.
    + apply NoDup_cons. split; [|exact IHnd].
      intros Hin. apply Hnotin, IHin, Hin.
    + intros z Hz. rewrite Hperm. apply elem_of_cons in Hz as [->|Hz].
      * left.
      * right. apply IHin, Hz.
Qed.

Lemma sample_distinct (d : Z) (population : list Z) (k : nat) (r : rng) :
  (k <= length population)%nat -> NoDup population ->
  NoDup (fst (sample d population k r)).
Proof.
  intros Hk Hnd. unfold sample.
  apply sample_loop_distinct; [exact Hk | lia |].
  rewrite firstn_all. exact Hnd.
Qed.

End SampleFacts.

(** ** The generated network *)

Module GeneratorFacts.
Import Random NetworkGenerator.

Lemma possible_ports_distinct (key : template_key) :
  NoDup (possible_ports (DEVICE_TEMPLATES key)).
Proof.
  destruct key; apply (bool_decide_unpack _); vm_compute; exact I.
Qed.

(** What [create_device] fixes whatever the random state: everything but
    the MAC address and the choice of the open ports, which come out
    sorted and without repetition. *)
Lemma create_device_shape (key : template_key) (host_id : nat) (r : rng) :
  let d := fst (create_device key host_id r) in
  name d = t_name (DEVICE_TEMPLATES key)
  /\ ip d = generate_ip host_id
  /\ device_type d = t_type (DEVICE_TEMPLATES key)
  /\ is_trusted d = trusted (DEVICE_TEMPLATES key)
  /\ isolated d = false
  /\ StronglySorted Z.lt (open_ports d).
Proof.
  cbv zeta. unfold create_device.
  destruct (randint 2 3 r) as [num_ports r1].
  pose proof (SampleFacts.sample_distinct 0
                (possible_ports (DEVICE_TEMPLATES key))
                (Nat.min (Z.to_nat num_ports)
                   (length (possible_ports (DEVICE_TEMPLATES key))))
                r1 ltac:(lia) (possible_ports_distinct key)) as Hnd.
  destruct (sample 0 _ _ r1) as [selected r2]. cbn [fst] in Hnd.
  assert (forall sel r3,
    NoDup sel ->
    let d := fst (let (m, r4) := generate_mac r3 in
                  (mkDevice (t_name (DEVICE_TEMPLATES key)) (generate_ip host_id) m
                     (t_type (DEVICE_TEMPLATES key)) (Sort.sorted sel)
                     (trusted (DEVICE_TEMPLATES key)) false, r4)) in
    name d = t_name (DEVICE_TEMPLATES key)
    /\ ip d = generate_ip host_id
    /\ device_type d = t_type (DEVICE_TEMPLATES key)
    /\ is_trusted d = trusted (DEVICE_TEMPLATES key)
    /\ isolated d = false
    /\ StronglySorted Z.lt (open_ports d)) as Hfinal.
  { intros sel r3 Hsel. cbv zeta. destruct (generate_mac r3) as [m r4]. cbn.
    repeat split. apply SortFacts.sorted_increasing, Hsel. }
  destruct (risky_ports (DEVICE_TEMPLATES key)) as [|p ps] eqn:Hr.
  - apply Hfinal, Hnd.
  - destruct (random r2) as [u r2a]. destruct (gt_0_3 u).
    + destruct (choice 0 (p :: ps) r2a) as [risky_port r2b].
      destruct (Py.int_in risky_port selected) eqn:Hin.
      * apply Hfinal, Hnd.
      * apply Hfinal. apply NoDup_app. repeat split.
        -- exact Hnd.
        -- intros x Hx Hx'. apply list_elem_of_singleton in Hx'. subst x.
           apply list_elem_of_In, StrFacts.int_in_In in Hx. congruence.
        -- apply NoDup_singleton.
    + apply Hfinal, Hnd.
Qed.

Lemma static_view_fixed (r : rng) :
  Spec.static_view (fst (generate_mission1_network r))
  = ("192.168.1.0/24", "192.168.1.1", "vulnerable",
     [ ("Router", "192.168.1.1", "router", true, false);
       ("PC-Principal", "192.168.1.10", "computer", true, false);
       ("Smartphone", "192.168.1.20", "mobile", true, false);
       ("Camera-IP", "192.168.1.30", "iot", true, false);
       ("Device-Inconnu", "192.168.1.50", "unknown", false, false) ]).
Proof.
  unfold generate_mission1_network.
  pose proof (create_device_shape router 1 r) as H1.
  destruct (create_device router 1 r) as [d1 r1].
  pose proof (create_device_shape player_pc 10 r1) as H2.
  destruct (create_device player_pc 10 r1) as [d2 r2].
  pose proof (create_device_shape phone 20 r2) as H3.
  destruct (create_device phone 20 r2) as [d3 r3].
  pose proof (create_device_shape iot_camera 30 r3) as H4.
  destruct (create_device iot_camera 30 r3) as [d4 r4].
  pose proof (create_device_shape unknown_device 50 r4) as H5.
  destruct (create_device unknown_device 50 r4) as [d5 r5].
  destruct (randint 1000 9999 r5) as [n r6].
  cbv zeta in *. cbn [fst] in *.
  destruct H1 as (N1 & I1 & D1 & T1 & O1 & _), H2 as (N2 & I2 & D2 & T2 & O2 & _),
           H3 as (N3 & I3 & D3 & T3 & O3 & _), H4 as (N4 & I4 & D4 & T4 & O4 & _),
           H5 as (N5 & I5 & D5 & T5 & O5 & _).
  unfold Spec.static_view.
  cbn [devices gateway subnet security_status map].
  rewrite N1, N2, N3, N4, N5, I1, I2, I3, I4, I5, D1, D2, D3, D4, D5,
    T1, T2, T3, T4, T5, O1, O2, O3, O4, O5.
  reflexivity.
Qed.

End GeneratorFacts.

(** C5.  Whatever the random state, [generate_mission1_network] returns five
    devices with the fixed names and addresses, the gateway 192.168.1.1 and
    the subnet 192.168.1.0/24; Device-Inconnu is the only untrusted device and
    the only entry of [untrusted_devices]; and the open ports of every device
    are strictly increasing. *)
Theorem C5_mission1_network_shape (r : Random.rng) :
  let config := fst (NetworkGenerator.generate_mission1_network r) in
  map (fun d => (NetworkGenerator.name d, NetworkGenerator.ip d))
      (NetworkGenerator.devices config)
  = [ ("Router", "192.168.1.1"); ("PC-Principal", "192.168.1.10");
      ("Smartphone", "192.168.1.20"); ("Camera-IP", "192.168.1.30");
      ("Device-Inconnu", "192.168.1.50") ]
  /\ NetworkGenerator.gateway config = "192.168.1.1"
  /\ NetworkGenerator.subnet config = "192.168.1.0/24"
  /\ map NetworkGenerator.is_trusted (NetworkGenerator.devices config)
     = [true; true; true; true; false]
  /\ map NetworkGenerator.ud_name
       (NetworkGenerator.untrusted_devices (NetworkGenerator.vulns config))
     = ["Device-Inconnu"]
  /\ Forall (fun d => StronglySorted Z.lt (NetworkGenerator.open_ports d))
       (NetworkGenerator.devices config).
Proof.
  cbv zeta. unfold NetworkGenerator.generate_mission1_network.
  pose proof (GeneratorFacts.create_device_shape NetworkGenerator.router 1 r) as H1.
  destruct (NetworkGenerator.create_device NetworkGenerator.router 1 r) as [d1 r1].
  pose proof (GeneratorFacts.create_device_shape NetworkGenerator.player_pc 10 r1) as H2.
  destruct (NetworkGenerator.create_device NetworkGenerator.player_pc 10 r1) as [d2 r2].
  pose proof (GeneratorFacts.create_device_shape NetworkGenerator.phone 20 r2) as H3.
  destruct (NetworkGenerator.create_device NetworkGenerator.phone 20 r2) as [d3 r3].
  pose proof (GeneratorFacts.create_device_shape NetworkGenerator.iot_camera 30 r3) as H4.
  destruct (NetworkGenerator.create_device NetworkGenerator.iot_camera 30 r3) as [d4 r4].
  pose proof (GeneratorFacts.create_device_shape NetworkGenerator.unknown_device 50 r4) as H5.
  destruct (NetworkGenerator.create_device NetworkGenerator.unknown_device 50 r4) as [d5 r5].
  destruct (Random.randint 1000 9999 r5) as [n r6].
  cbv zeta in *. cbn [fst] in *.
  destruct H1 as (N1 & I1 & _ & T1 & _ & S1), H2 as (N2 & I2 & _ & T2 & _ & S2),
           H3 as (N3 & I3 & _ & T3 & _ & S3), H4 as (N4 & I4 & _ & T4 & _ & S4),
           H5 as (N5 & I5 & _ & T5 & _ & S5).
  cbn [NetworkGenerator.devices NetworkGenerator.gateway NetworkGenerator.subnet
       NetworkGenerator.vulns map NetworkGenerator.scan_devices
       NetworkGenerator.untrusted_devices].
  rewrite N1, N2, N3, N4, N5, I1, I2, I3, I4, I5, T1, T2, T3, T4, T5.
  cbn. repeat split. repeat constructor; assumption.
Qed.

(** C2, as the code has it.  [NetworkSimulator.generate_network] draws
    nothing: its data are fixed but for the player's host name, which is the
    nickname followed by [-PC].  [NetworkGenerator.generate_mission1_network]
    reads the random state: it is a function of that state, and only the
    subnet, the gateway, the status and the names, addresses, types and trust
    flags of the devices are the same in every run. *)
Theorem C2_determinism_up_to_the_random_state :
  (forall nick1 nick2 : string,
      let a := NetworkSimulator.generate_network nick1 in
      let b := NetworkSimulator.generate_network nick2 in
      NetworkSimulator.router a = NetworkSimulator.router b
      /\ NetworkSimulator.devices a = NetworkSimulator.devices b
      /\ NetworkSimulator.network a = NetworkSimulator.network b
      /\ NetworkSimulator.p_hostname (NetworkSimulator.player a) = nick1 +:+ "-PC"
      /\ (nick1 = nick2 -> a = b))
  /\ (forall r1 r2 : Random.rng,
         Spec.static_view (fst (NetworkGenerator.generate_mission1_network r1))
         = Spec.static_view (fst (NetworkGenerator.generate_mission1_network r2)))
  /\ (forall r1 r2 : Random.rng,
         Random.draws r1 = Random.draws r2 -> Random.pos r1 = Random.pos r2 ->
         NetworkGenerator.generate_mission1_network r1
         = NetworkGenerator.generate_mission1_network r2).
Proof.
  split; [|split].
  - intros nick1 nick2. cbv zeta. repeat split. intros ->. reflexivity.
  - intros r1 r2. rewrite !GeneratorFacts.static_view_fixed. reflexivity.
  - intros [d1 p1] [d2 p2]. cbn. intros -> ->. reflexivity.
Qed.

(** C2 as the specification words it fails: two calls on the one generator
    object, the second starting where the first left the random state,
    return different MAC addresses, open ports and network ids; so do two
    runs whose random states differ. *)
Lemma C2_two_runs_differ :
  let r0 := Random.Rng (fun n => Z.of_nat n * 7919) 0 in
  let first := NetworkGenerator.generate_mission1_network r0 in
  let second := NetworkGenerator.generate_mission1_network (snd first) in
  NetworkGenerator.network_id (fst first) = "net_3112"
  /\ NetworkGenerator.network_id (fst second) = "net_3062"
  /\ map NetworkGenerator.mac (NetworkGenerator.devices (fst first))
     <> map NetworkGenerator.mac (NetworkGenerator.devices (fst second))
  /\ map NetworkGenerator.open_ports (NetworkGenerator.devices (fst first))
     <> map NetworkGenerator.open_ports (NetworkGenerator.devices (fst second))
  /\ fst (NetworkGenerator.generate_mission1_network (Random.Rng (fun _ => 0) 0))
     <> fst (NetworkGenerator.generate_mission1_network (Random.Rng (fun _ => 1) 0)).
Proof. vm_compute. repeat split; discriminate. Qed.

(** ** Mission 1: the final audit and [update_progress] *)

Module Mission1Facts.
Import Objectives Mission1.

Lemma final_audit_condition (s : state) (isolated_devices : list string)
    (blocked_ports : list Z) :
  fst (check_final_audit_complete isolated_devices blocked_ports s) = true
  <-> (forall device,
          In device (NetworkGenerator.untrusted_devices
                       (NetworkGenerator.vulns (network_config s))) ->
          In (NetworkGenerator.ud_mac device) isolated_devices)
      /\ (forall vuln,
             In vuln (NetworkGenerator.risky_ports_found
                        (NetworkGenerator.vulns (network_config s))) ->
             In (NetworkGenerator.port vuln) blocked_ports).
Proof.
  unfold check_final_audit_complete.
  match goal with
  | |- fst (if ?a && ?b then _ else _) = true <-> _ =>
      destruct a eqn:Ha; destruct b eqn:Hb; cbn [andb fst]
  end.
  all: rewrite ?forallb_forall in *.
  - split; [intros _ | reflexivity]. split.
    + intros d Hd. apply StrFacts.str_in_In, Ha, Hd.
    + intros v Hv. apply StrFacts.int_in_In, Hb, Hv.
  - split; [discriminate|]. intros [_ H].
    rewrite <- Hb. apply forallb_forall. intros v Hv. apply StrFacts.int_in_In, H, Hv.
  - split; [discriminate|]. intros [H _].
    rewrite <- Ha. apply forallb_forall. intros d Hd. apply StrFacts.str_in_In, H, Hd.
  - split; [discriminate|]. intros [H _].
    rewrite <- Ha. apply forallb_forall. intros d Hd. apply StrFacts.str_in_In, H, Hd.
Qed.

(** [update_progress] never touches the two objectives it has no check
    for. *)
Lemma update_progress_skips (ts : terminal_state) (s : state) :
  find_risky_ports (objs (update_progress ts s)) = find_risky_ports (objs s)
  /\ analyze_packets (objs (update_progress ts s)) = analyze_packets (objs s).
Proof.
  unfold update_progress, check_scan_network_complete,
    check_identify_devices_complete, check_isolate_threats_complete,
    check_block_risky_ports_complete, check_final_audit_complete.
  repeat match goal with
         | |- context [if ?b then _ else _] => destruct b
         end; cbn; split; reflexivity.
Qed.

Lemma incomplete_third (a b c : string * flags) (rest : list (string * flags)) :
  f_required (snd c) = true -> f_completed (snd c) = false ->
  Objectives.is_mission_complete (a :: b :: c :: rest) = false.
Proof.
  destruct a as [ka [ca ra]], b as [kb [cb rb]], c as [kc [cc rc]]. cbn.
  intros -> ->. destruct ra, ca, rb, cb; reflexivity.
Qed.

End Mission1Facts.

(** C3.  [check_final_audit_complete] returns [True] exactly when every
    untrusted device has its MAC in the isolated list and every risky-port
    entry has its port in the blocked list; it then sets the flag of
    [final_audit], and otherwise it leaves the whole object as it was. *)
Theorem C3_final_audit_target (s : Mission1.state)
    (isolated_devices : list string) (blocked_ports : list Z) :
  let vulns := NetworkGenerator.vulns (Mission1.network_config s) in
  let target :=
    (forall device, In device (NetworkGenerator.untrusted_devices vulns) ->
                    In (NetworkGenerator.ud_mac device) isolated_devices)
    /\ (forall vuln, In vuln (NetworkGenerator.risky_ports_found vulns) ->
                     In (NetworkGenerator.port vuln) blocked_ports) in
  let result := Mission1.check_final_audit_complete isolated_devices blocked_ports s in
  (fst result = true <-> target)
  /\ (fst result = false <-> ~ target)
  /\ (target ->
      Objectives.completed (Mission1.final_audit (Mission1.objs (snd result))) = true)
  /\ (~ target -> snd result = s).
Proof.
  cbv zeta.
  pose proof (Mission1Facts.final_audit_condition s isolated_devices blocked_ports) as H.
  assert (fst (Mission1.check_final_audit_complete isolated_devices blocked_ports s) = false
          <-> fst (Mission1.check_final_audit_complete isolated_devices blocked_ports s) <> true)
    as Hneg by (destruct (fst _); split; congruence).
  split; [exact H|]. split; [rewrite Hneg, H; reflexivity|]. split.
  - intros Ht. apply H in Ht. revert Ht.
    unfold Mission1.check_final_audit_complete.
    match goal with |- context [if ?c then _ else _] => destruct c end;
      cbn; [reflexivity | discriminate].
  - intros Hn. rewrite <- H in Hn. revert Hn.
    unfold Mission1.check_final_audit_complete.
    match goal with |- context [if ?c then _ else _] => destruct c end;
      cbn; [congruence | reflexivity].
Qed.

(** C4.  From a fresh [Mission1NetworkRecon], whatever the network drawn
    and whatever the terminal states passed to [update_progress], the
    objectives [find_risky_ports] and [analyze_packets] stay not completed
    and [is_mission_complete] returns [False]. *)
Theorem C4_update_progress_never_completes (profile : Profile.t) (r : Random.rng)
    (terminal_states : list Mission1.terminal_state) :
  let s := fold_left (fun s ts => Mission1.update_progress ts s) terminal_states
             (Mission1.init profile r) in
  Objectives.completed (Mission1.find_risky_ports (Mission1.objs s)) = false
  /\ Objectives.completed (Mission1.analyze_packets (Mission1.objs s)) = false
  /\ Mission1.is_mission_complete s = false.
Proof.
  cbv zeta.
  assert (forall tss s0,
    Mission1.find_risky_ports
      (Mission1.objs (fold_left (fun s ts => Mission1.update_progress ts s) tss s0))
    = Mission1.find_risky_ports (Mission1.objs s0)
    /\ Mission1.analyze_packets
         (Mission1.objs (fold_left (fun s ts => Mission1.update_progress ts s) tss s0))
       = Mission1.analyze_packets (Mission1.objs s0)) as Hkeep.
  { induction tss as [|ts tss IH]; intros s0; cbn [fold_left]; [split; reflexivity|].
    destruct (IH (Mission1.update_progress ts s0)) as [E1 E2].
    destruct (Mission1Facts.update_progress_skips ts s0) as [F1 F2].
    rewrite E1, E2, F1, F2. split; reflexivity. }
  destruct (Hkeep terminal_states (Mission1.init profile r)) as [E1 E2].
  split; [rewrite E1; reflexivity|]. split; [rewrite E2; reflexivity|].
  unfold Mission1.is_mission_complete, Mission1.items.
  apply Mission1Facts.incomplete_third; cbn [snd Objectives.flags_of
    Objectives.f_required Objectives.f_completed]; rewrite E1; reflexivity.
Qed.

(** ** Completion is monotone *)

Module MonotoneFacts.
Import Objectives.

Lemma monotone_refl (items : list (string * flags)) : Spec.monotone items items.
Proof.
  unfold Spec.monotone. induction items; constructor; auto.
Qed.

Lemma monotone_trans (a b c : list (string * flags)) :
  Spec.monotone a b -> Spec.monotone b c -> Spec.monotone a c.
Proof.
  unfold Spec.monotone. intros Hab. revert c.
  induction Hab as [|x y a b [Hk Hc] Hab IH]; intros c Hbc; inversion Hbc; subst.
  - constructor.
  - constructor; [|apply IH; assumption].
    match goal with H : _ /\ _ |- _ => destruct H as [Hk' Hc'] end.
    split; [congruence | auto].
Qed.

(** Case analysis on every test of a method body, then one item at a time. *)
Ltac by_cases :=
  repeat match goal with
         | |- context [if ?b then _ else _] => destruct b
         | |- context [let (_, _) := ?p in _] => destruct p
         end;
  cbn; repeat constructor; cbn; auto.

Lemma mission1_exec (c : Mission1.call) (s : Mission1.state) :
  Spec.monotone (Mission1.items (Mission1.objs s))
    (Mission1.items (Mission1.objs (Mission1.exec c s))).
Proof.
  unfold Spec.monotone.
  destruct c; cbn [Mission1.exec];
    unfold Mission1.update_progress, Mission1.check_scan_network_complete,
      Mission1.check_identify_devices_complete,
      Mission1.check_find_risky_ports_complete,
      Mission1.check_isolate_threats_complete,
      Mission1.check_block_risky_ports_complete,
      Mission1.check_final_audit_complete, Mission1.award_completion_rewards;
    by_cases.
Qed.

Lemma mission2_exec (c : Mission2.call) (s : Mission2.state) :
  Spec.monotone (Mission2.items (Mission2.objs s))
    (Mission2.items (Mission2.objs (Mission2.exec c s))).
Proof.
  unfold Spec.monotone.
  destruct c; cbn [Mission2.exec];
    unfold Mission2.update_progress, Mission2.mark_wireshark_opened,
      Mission2.check_wireshark_downloaded, Mission2.submit_suspicious_ip,
      Mission2.report_threat_found, Mission2.check_report_complete,
      Mission2.award_completion_rewards;
    by_cases.
Qed.

Lemma mission3_exec (c : Mission3.call) (s : Mission3.state) :
  Spec.monotone (Mission3.items (Mission3.objs s))
    (Mission3.items (Mission3.objs (Mission3.exec c s))).
Proof.
  unfold Spec.monotone.
  destruct c; cbn [Mission3.exec];
    unfold Mission3.mark_pcap_analyzer_opened,
      Mission3.check_pcap_analyzer_downloaded, Mission3.award_completion_rewards;
    by_cases.
Qed.

End MonotoneFacts.

(** C9.  In the three mission classes every method leaves the keys of
    [self.objectives] as they are and never takes ['completed'] from [True]
    back to [False]; so an objective that is completed stays completed after
    any sequence of method calls, whatever is written to the shared profile
    in between. *)
Theorem C9_completion_is_monotone :
  (forall (calls : list Mission1.call) (s : Mission1.state),
      Spec.monotone (Mission1.items (Mission1.objs s))
        (Mission1.items (Mission1.objs (Mission1.run calls s))))
  /\ (forall (calls : list Mission2.call) (s : Mission2.state),
         Spec.monotone (Mission2.items (Mission2.objs s))
           (Mission2.items (Mission2.objs (Mission2.run calls s))))
  /\ (forall (calls : list Mission3.call) (s : Mission3.state),
         Spec.monotone (Mission3.items (Mission3.objs s))
           (Mission3.items (Mission3.objs (Mission3.run calls s)))).
Proof.
  split; [|split].
  - induction calls as [|c calls IH]; intros s; cbn.
    + apply MonotoneFacts.monotone_refl.
    + eapply MonotoneFacts.monotone_trans;
        [apply MonotoneFacts.mission1_exec | apply IH].
  - induction calls as [|c calls IH]; intros s; cbn.
    + apply MonotoneFacts.monotone_refl.
    + eapply MonotoneFacts.monotone_trans;
        [apply MonotoneFacts.mission2_exec | apply IH].
  - induction calls as [|c calls IH]; intros s; cbn.
    + apply MonotoneFacts.monotone_refl.
    + eapply MonotoneFacts.monotone_trans;
        [apply MonotoneFacts.mission3_exec | apply IH].
Qed.

(** ** Completion and the percentage *)

Module PercentageFacts.
Import Objectives.

Lemma counts_le (items : list (string * flags)) :
  (completed_required items <= total_required items)%nat.
Proof.
  unfold completed_required, total_required, count.
  induction items as [|[k [c r]] items IH]; cbn; [lia|].
  destruct r, c; cbn; lia.
Qed.

Lemma total_le_length (items : list (string * flags)) :
  (total_required items <= length items)%nat.
Proof. unfold total_required, count. apply List.filter_length_le. Qed.

(** Complete means that every required objective is counted as completed. *)
Lemma complete_iff_counts (items : list (string * flags)) :
  is_mission_complete items = true
  <-> completed_required items = total_required items.
Proof.
  induction items as [|[k [c r]] items IH]; [cbn; tauto|].
  pose proof (counts_le items) as Hle. revert IH Hle.
  unfold completed_required, total_required, count.
  cbn [is_mission_complete List.filter snd f_required f_completed].
  destruct r, c; cbn [andb negb length]; intros IH Hle.
  - rewrite IH. lia.
  - split; [discriminate | lia].
  - exact IH.
  - exact IH.
Qed.

Lemma some_required_total (items : list (string * flags)) :
  Spec.some_required items <-> (0 < total_required items)%nat.
Proof.
  unfold Spec.some_required, total_required, count.
  induction items as [|it items IH]; cbn [List.filter].
  - split; [intros (x & [] & _) | cbn; lia].
  - destruct (f_required (snd it)) eqn:E.
    + split; [cbn; lia | intros _; exists it; split; [left; reflexivity | exact E]].
    + rewrite <- IH. split.
      * intros (x & [->|Hx] & Hr); [congruence | exists x; tauto].
      * intros (x & Hx & Hr). exists x. split; [right; exact Hx | exact Hr].
Qed.

(** The binary64 computation, run on every pair of counts a mission can
    reach: it gives 100 exactly when the two counts are equal. *)
Lemma percentage_100 (c t : nat) :
  (0 < t <= 8)%nat -> (c <= t)%nat ->
  PrimFloat.eqb
    (PrimFloat.mul (PrimFloat.div (float_of_nat c) (float_of_nat t))
       (float_of_nat 100))
    100%float
  = Nat.eqb c t.
Proof.
  intros Ht Hc.
  destruct t as [|[|[|[|[|[|[|[|[|t]]]]]]]]]; try lia;
    destruct c as [|[|[|[|[|[|[|[|[|c]]]]]]]]]; try lia;
    vm_compute; reflexivity.
Qed.

Lemma percentage_iff (items : list (string * flags)) :
  (length items <= 8)%nat -> Spec.some_required items ->
  is_mission_complete items = true
  <-> PrimFloat.eqb (get_completion_percentage items) 100%float = true.
Proof.
  intros Hlen Hsome. apply some_required_total in Hsome.
  pose proof (total_le_length items). pose proof (counts_le items).
  rewrite complete_iff_counts. unfold get_completion_percentage.
  destruct (Nat.ltb_spec 0 (total_required items)) as [_|]; [|lia].
  rewrite percentage_100 by lia. symmetry. apply Nat.eqb_eq.
Qed.

End PercentageFacts.

(** C10.  In each mission class, whenever some objective is required,
    [is_mission_complete()] is [True] exactly when
    [get_completion_percentage()], computed in binary64 arithmetic, equals
    100.  Each fresh mission object is such a state. *)
Theorem C10_complete_iff_hundred_percent :
  (forall s : Mission1.state,
      Spec.some_required (Mission1.items (Mission1.objs s)) ->
      Mission1.is_mission_complete s = true
      <-> PrimFloat.eqb (Mission1.get_completion_percentage s) 100%float = true)
  /\ (forall s : Mission2.state,
         Spec.some_required (Mission2.items (Mission2.objs s)) ->
         Mission2.is_mission_complete s = true
         <-> PrimFloat.eqb (Mission2.get_completion_percentage s) 100%float = true)
  /\ (forall s : Mission3.state,
         Spec.some_required (Mission3.items (Mission3.objs s)) ->
         Mission3.is_mission_complete s = true
         <-> PrimFloat.eqb (Mission3.get_completion_percentage s) 100%float = true)
  /\ (forall (p : Profile.t) (r : Random.rng),
         Spec.some_required (Mission1.items (Mission1.objs (Mission1.init p r)))
         /\ Spec.some_required (Mission2.items (Mission2.objs (Mission2.init p)))
         /\ Spec.some_required (Mission3.items (Mission3.objs (Mission3.init p)))).
Proof.
  repeat split.
  1-6: try (apply PercentageFacts.percentage_iff; [cbn; lia | assumption]).
  - eexists. split; [left; reflexivity | reflexivity].
  - eexists. split; [left; reflexivity | reflexivity].
  - eexists. split; [left; reflexivity | reflexivity].
Qed.

(** ** Profile files *)

Module SaveLoadFacts.
Import Exn Json FS SaveLoadManager.





Lemma filename_str (mgr : manager) (n : string) :
  _get_profile_filename mgr (JStr n) = Ok (Spec.file_of mgr n).
Proof. reflexivity. Qed.


Lemma get_stamp_nickname (t1 t2 : string) (d : list (string * json)) :
  Py.get "nickname" (stamp t1 t2 d) = Py.get "nickname" d.
Proof.
  unfold stamp.
  repeat match goal with
         | |- context [if ?b then _ else _] => destruct b
         end;
    rewrite ?StrFacts.get_set; reflexivity.
Qed.

(** [save_profile] for a dictionary whose nickname is a [str]: one file is
    written, or nothing when the path is refused. *)
Lemma save_profile_str (mgr : manager) (t1 t2 n : string)
    (d : list (string * json)) (st : fs) :
  Py.get "nickname" d = Some (JStr n) ->
  save_profile mgr t1 t2 (JDict d) st
  = if denied st (Spec.file_of mgr n) then (Ok (false, SaveError OSError), st)
    else if disk_full st
         then (Ok (false, SaveError OSError),
               with_files (<[Spec.file_of mgr n := Garbage]> (files st)) st)
         else (Ok (true, Saved (JStr n)),
               with_files
                 (<[Spec.file_of mgr n := Text (JDict (stamp t1 t2 d))]> (files st)) st).
Proof.
  intros Hn. unfold save_profile, save_profile_try, try_except.
  rewrite get_stamp_nickname, Hn.
  unfold bind, filename_of, write_json, ret. rewrite filename_str.
  destruct (denied st (Spec.file_of mgr n)); [reflexivity|].
  destruct (disk_full st); reflexivity.
Qed.

Lemma load_profile_str (mgr : manager) (n : string) (st : fs) :
  load_profile mgr (JStr n) st
  = (Ok match files st !! Spec.file_of mgr n with
        | Some (Text j) => j
        | _ => JNull
        end, st).
Proof.
  unfold load_profile, load_profile_try, try_except, bind, filename_of,
    path_exists, gets, read_json, ret.
  rewrite filename_str.
  destruct (files st !! Spec.file_of mgr n) as [[j| |]|] eqn:E; cbn; rewrite ?E; reflexivity.
Qed.

End SaveLoadFacts.



(** ** Exceptions stop at the [except] clauses *)

Module ExnFacts.
Import Exn Json FS SaveLoadManager.

(** A [try] whose handler returns does not raise. *)
Lemma try_except_returns {S A} (body : M S A) (handler : exn -> M S A) (s : S) :
  (forall e s', raised (fst (handler e s')) = false) ->
  raised (fst (try_except body handler s)) = false.
Proof.
  intros H. unfold try_except. destruct (body s) as [[a|e] s']; [reflexivity | apply H].
Qed.

(** What a [try] returns when its block raises is what the handler
    returns. *)
Lemma try_except_raised {S A} (body : M S A) (handler : exn -> M S A) (s : S) (e : exn) :
  fst (body s) = Raise e ->
  try_except body handler s = handler e (snd (body s)).
Proof.
  unfold try_except. destruct (body s) as [[a|e'] s']; cbn; [discriminate|].
  intros [= ->]. reflexivity.
Qed.

Lemma try_except_returned {S A} (body : M S A) (handler : exn -> M S A) (s : S) (a : A) :
  fst (body s) = Ok a -> try_except body handler s = body s.
Proof.
  unfold try_except. destruct (body s) as [[a'|e'] s']; cbn; [reflexivity | discriminate].
Qed.

(** The block of [save_profile] returns [True] whenever it returns. *)
Lemma save_profile_try_true (mgr : manager) (t1 t2 : string) (pd : json) (st : fs)
    (r : bool * message) :
  fst (save_profile_try mgr t1 t2 pd st) = Ok r -> fst r = true.
Proof.
  unfold save_profile_try.
  destruct pd as [| | | | |d]; try discriminate.
  destruct (Py.get "nickname" _) as [nick|]; [|discriminate].
  unfold bind, filename_of, write_json, ret.
  destruct (_get_profile_filename mgr nick) as [f|e]; [|discriminate].
  destruct (denied st f); [discriminate|].
  destruct (disk_full st); [discriminate|].
  cbn. intros [= <-]. reflexivity.
Qed.

Lemma load_profile_try_missing (mgr : manager) (nickname : json) (st : fs)
    (path : string) (j : json) :
  _get_profile_filename mgr nickname = Ok path ->
  fst (load_profile mgr nickname st) = Ok j ->
  match files st !! path with
  | Some (Text j') => j = j'
  | _ => j = JNull
  end.
Proof.
  intros Hf. unfold load_profile, load_profile_try, try_except, bind, filename_of,
    path_exists, gets, read_json, ret.
  rewrite Hf.
  destruct (files st !! path) as [[j'| |]|] eqn:E; cbn; rewrite ?E; cbn; congruence.
Qed.

Lemma list_profiles_returns
    (sort : list profile_info -> list profile_info * option exn)
    (mgr : manager) (st : fs) :
  raised (fst (list_profiles sort mgr st)) = false.
Proof.
  unfold list_profiles.
  match goal with
  | |- context [try_except ?b ?h ?s] =>
      pose proof (try_except_returns b h s (fun _ _ => eq_refl)) as H;
      destruct (try_except b h s) as [[[]|e] [profiles st']]
  end; [reflexivity | discriminate].
Qed.

Lemma list_profiles_no_directory
    (sort : list profile_info -> list profile_info * option exn)
    (mgr : manager) (st : fs) :
  files st !! profiles_dir mgr = None ->
  fst (list_profiles sort mgr st) = Ok [].
Proof.
  intros H. unfold list_profiles, try_except, bind, on_disk, path_exists, gets, ret.
  cbn. rewrite H. reflexivity.
Qed.

End ExnFacts.

(** C7.  Whatever the arguments and the state of the disk, [save_profile]
    and [delete_profile] return a pair and raise nothing, with [False] first
    whenever their [try] block raised (for [save_profile], exactly then);
    [load_profile] returns a value and raises nothing, and it returns [None]
    when its block raised and when the file is missing, unreadable or not
    JSON; [list_profiles] returns a list and raises nothing, the empty list
    when the directory does not exist. *)
Theorem C7_file_operations_never_raise (mgr : SaveLoadManager.manager) (st : FS.fs) :
  (forall (saved_at created_at : string) (profile_data : Json.json),
      exists ok msg,
        fst (SaveLoadManager.save_profile mgr saved_at created_at profile_data st)
        = Exn.Ok (ok, msg)
        /\ (ok = false
            <-> Exn.raised
                  (fst (SaveLoadManager.save_profile_try mgr saved_at created_at
                          profile_data st)) = true))
  /\ (forall nickname : Json.json,
         exists ok msg,
           fst (SaveLoadManager.delete_profile mgr nickname st) = Exn.Ok (ok, msg)
           /\ (Exn.raised (fst (SaveLoadManager.delete_profile_try mgr nickname st)) = true
               -> ok = false))
  /\ (forall nickname : Json.json,
         exists j,
           fst (SaveLoadManager.load_profile mgr nickname st) = Exn.Ok j
           /\ (Exn.raised (fst (SaveLoadManager.load_profile_try mgr nickname st)) = true
               -> j = Json.JNull)
           /\ (forall path,
                  SaveLoadManager._get_profile_filename mgr nickname = Exn.Ok path ->
                  match FS.files st !! path with
                  | Some (FS.Text j') => j = j'
                  | _ => j = Json.JNull
                  end))
  /\ (forall sort : list SaveLoadManager.profile_info
                    -> list SaveLoadManager.profile_info * option Exn.exn,
         (exists profiles,
             fst (SaveLoadManager.list_profiles sort mgr st) = Exn.Ok profiles)
         /\ (FS.files st !! SaveLoadManager.profiles_dir mgr = None ->
             fst (SaveLoadManager.list_profiles sort mgr st) = Exn.Ok [])).
Proof.
  split; [|split; [|split]].
  - intros t1 t2 pd. unfold SaveLoadManager.save_profile.
    destruct (fst (SaveLoadManager.save_profile_try mgr t1 t2 pd st)) as [[ok msg]|e] eqn:E.
    + rewrite (ExnFacts.try_except_returned _ _ _ _ E), E.
      exists ok, msg. split; [reflexivity|].
      apply ExnFacts.save_profile_try_true in E. cbn in E. subst ok.
      cbn. split; discriminate.
    + rewrite (ExnFacts.try_except_raised _ _ _ _ E).
      exists false, (SaveLoadManager.SaveError e). cbn. tauto.
  - intros nick. unfold SaveLoadManager.delete_profile.
    destruct (fst (SaveLoadManager.delete_profile_try mgr nick st)) as [[ok msg]|e] eqn:E.
    + rewrite (ExnFacts.try_except_returned _ _ _ _ E), E.
      exists ok, msg. split; [reflexivity | discriminate].
    + rewrite (ExnFacts.try_except_raised _ _ _ _ E).
      exists false, (SaveLoadManager.DeleteError e). cbn. tauto.
  - intros nick.
    assert (exists j, fst (SaveLoadManager.load_profile mgr nick st) = Exn.Ok j
                      /\ (Exn.raised (fst (SaveLoadManager.load_profile_try mgr nick st))
                          = true -> j = Json.JNull)) as (j & Hj & Hr).
    { unfold SaveLoadManager.load_profile.
      destruct (fst (SaveLoadManager.load_profile_try mgr nick st)) as [j|e] eqn:E.
      - rewrite (ExnFacts.try_except_returned _ _ _ _ E), E.
        exists j. split; [reflexivity | discriminate].
      - rewrite (ExnFacts.try_except_raised _ _ _ _ E).
        exists Json.JNull. cbn. tauto. }
    exists j. split; [exact Hj|]. split; [exact Hr|].
    intros path Hp. apply (ExnFacts.load_profile_try_missing _ _ _ _ _ Hp Hj).
  - intros sort. split.
    + pose proof (ExnFacts.list_profiles_returns sort mgr st) as H.
      destruct (fst (SaveLoadManager.list_profiles sort mgr st)) as [l|e];
        [exists l; reflexivity | discriminate].
    + apply ExnFacts.list_profiles_no_directory.
Qed.

(** ** Settings *)

Module SettingsFacts.
Import Exn Json FS SettingsManager.

(** Merging into a JSON object: the file's entries stay, the missing keys
    take their default. *)
Lemma merge_defaults_dict (defaults : list (string * json)) :
  forall d : list (string * json),
  exists m,
    merge_defaults defaults (JDict d) = Ok (JDict m)
    /\ (forall k v, Py.get k d = Some v -> Py.get k m = Some v)
    /\ (forall k, Py.get k d = None -> Py.get k m = Py.get k defaults).
Proof.
  induction defaults as [|[key value] rest IH]; intros d.
  - exists d. cbn. repeat split; auto.
  - cbn [merge_defaults key_missing set_item]. unfold Py.has_key.
    destruct (Py.get key d) as [v0|] eqn:Hk; cbn [negb].
    + destruct (IH d) as (m & Hm & Hkeep & Hfill). exists m.
      split; [exact Hm|]. split; [exact Hkeep|].
      intros k Hnone. cbn [Py.get].
      destruct (String.eqb k key) eqn:E; [|apply Hfill, Hnone].
      apply String.eqb_eq in E. congruence.
    + destruct (IH (Py.set key value d)) as (m & Hm & Hkeep & Hfill). exists m.
      split; [exact Hm|]. split.
      * intros k v Hv. apply Hkeep. rewrite StrFacts.get_set.
        destruct (String.eqb k key) eqn:E; [|exact Hv].
        apply String.eqb_eq in E. congruence.
      * intros k Hnone. cbn [Py.get].
        destruct (String.eqb k key) eqn:E.
        -- apply Hkeep. rewrite StrFacts.get_set, E. reflexivity.
        -- apply Hfill. rewrite StrFacts.get_set, E. exact Hnone.
Qed.

(** Merging into anything else raises or changes nothing. *)
Lemma merge_defaults_other (defaults : list (string * json)) (j : json) :
  (forall d, j <> JDict d) ->
  merge_defaults defaults j = Ok j \/ exists e, merge_defaults defaults j = Raise e.
Proof.
  intros Hj. induction defaults as [|[key value] rest IH]; [left; reflexivity|].
  cbn [merge_defaults].
  destruct j as [| | | | |d]; cbn [key_missing set_item];
    try (right; eexists; reflexivity); try (exfalso; eapply Hj; reflexivity).
  - destruct (negb _); [right; eexists; reflexivity | exact IH].
  - destruct (negb _); [right; eexists; reflexivity | exact IH].
Qed.

Lemma load_settings_eq (settings_file : string) (st : fs) :
  load_settings settings_file st
  = (Ok match Spec.source settings_file st with
        | Some (Text j) =>
            match merge_defaults default_settings j with
            | Ok loaded => loaded
            | Raise _ => JDict default_settings
            end
        | _ => JDict default_settings
        end, st).
Proof.
  unfold load_settings, Spec.source, load_from, try_except, bind, path_exists, gets,
    read_json, ret.
  generalize (merge_defaults default_settings). intros md.
  destruct (files st !! settings_file) as [[j| |]|] eqn:E1; cbn; rewrite ?E1; cbn.
  - destruct (md j); reflexivity.
  - reflexivity.
  - reflexivity.
  - destruct (files st !! "settings.json") as [[j| |]|] eqn:E2; cbn; rewrite ?E2; cbn;
      try reflexivity.
    destruct (md j); reflexivity.
Qed.

End SettingsFacts.

(** C8, as the code has it.  [load_settings] raises nothing and leaves the
    disk as it is.  It reads the persistent settings file when that exists and
    else the bundled [settings.json] of the working directory.  When the file
    read holds a JSON object, the result is a dictionary with every default
    key, in which the keys of the file keep the file's value and the missing
    keys take their default.  When no file is read, or the one read cannot be
    opened or parsed, the result is the default settings. *)
Theorem C8_load_settings_total (settings_file : string) (st : FS.fs) :
  let source :=
    match FS.files st !! settings_file with
    | Some f => Some f
    | None => FS.files st !! "settings.json"
    end in
  exists loaded,
    SettingsManager.load_settings settings_file st = (Exn.Ok loaded, st)
    /\ match source with
       | Some (FS.Text (Json.JDict d)) =>
           exists m,
             loaded = Json.JDict m
             /\ (forall k, In k (map fst SettingsManager.default_settings) ->
                           Py.has_key k m = true)
             /\ (forall k v, Py.get k d = Some v -> Py.get k m = Some v)
             /\ (forall k, Py.get k d = None ->
                           Py.get k m = Py.get k SettingsManager.default_settings)
       | Some (FS.Text j) =>
           loaded = Json.JDict SettingsManager.default_settings \/ loaded = j
       | Some FS.Garbage | Some FS.Unreadable | None =>
           loaded = Json.JDict SettingsManager.default_settings
       end.
Proof.
  cbv zeta. rewrite SettingsFacts.load_settings_eq. eexists. split; [reflexivity|].
  unfold Spec.source.
  set (src := match FS.files st !! settings_file with
              | Some f => Some f
              | None => FS.files st !! "settings.json"
              end).
  destruct src as [[j| |]|]; try reflexivity.
  destruct j as [| | | | |d].
  1-5: match goal with
       | |- context [SettingsManager.merge_defaults ?ds ?j] =>
           destruct (SettingsFacts.merge_defaults_other ds j ltac:(discriminate))
             as [E|[e E]]; rewrite E; auto
       end.
  destruct (SettingsFacts.merge_defaults_dict SettingsManager.default_settings d)
    as (m & Hm & Hkeep & Hfill).
  rewrite Hm. exists m. split; [reflexivity|]. split; [|split; assumption].
  intros k Hk. apply StrFacts.has_key_In in Hk. unfold Py.has_key in *.
  destruct (Py.get k d) as [v|] eqn:E.
  - rewrite (Hkeep _ _ E). reflexivity.
  - rewrite (Hfill _ E). exact Hk.
Qed.

(** C8 as the specification words it fails: with the persistent file absent
    and a bundled [settings.json] in the working directory, the result takes
    the bundled values and is not the default settings. *)
Lemma C8_absent_file_reads_the_bundled_one :
  let st :=
    FS.mkFs {["settings.json" := FS.Text (Json.JDict [("master_volume", Json.JInt 10)])]}
      (fun _ => Exn.Ok []) (fun _ => false) false in
  let settings_file := "/home/player/.cyberhero/settings.json" in
  FS.files st !! settings_file = None
  /\ (exists m,
         fst (SettingsManager.load_settings settings_file st) = Exn.Ok (Json.JDict m)
         /\ Py.get "master_volume" m = Some (Json.JInt 10)
         /\ Py.get "master_volume" SettingsManager.default_settings
            = Some (Json.JInt 70))
  /\ fst (SettingsManager.load_settings settings_file st)
     <> Exn.Ok (Json.JDict SettingsManager.default_settings).
Proof.
  vm_compute. split; [reflexivity|]. split; [|discriminate].
  eexists. repeat split.
Qed.

(** C3 on a drawn network: with every draw zero the unknown device has the
    MAC [00:00:00:00:00:00] and Telnet is open on two devices; isolating
    that MAC and blocking port 23 passes the audit and sets the flag. *)
Lemma C3_final_audit_target_witness :
  let s := Mission1.init (Profile.mkProfile None None) (Random.Rng (fun _ => 0) 0) in
  let result := Mission1.check_final_audit_complete ["00:00:00:00:00:00"] [23] s in
  fst result = true
  /\ Objectives.completed (Mission1.final_audit (Mission1.objs (snd result))) = true.
Proof.
  cbv zeta.
  destruct (C3_final_audit_target
              (Mission1.init (Profile.mkProfile None None) (Random.Rng (fun _ => 0) 0))
              ["00:00:00:00:00:00"] [23]) as (Hiff & _ & Hflag & _).
  assert ((forall device,
              In device
                (NetworkGenerator.untrusted_devices
                   (NetworkGenerator.vulns
                      (Mission1.network_config
                         (Mission1.init (Profile.mkProfile None None)
                            (Random.Rng (fun _ => 0) 0))))) ->
              In (NetworkGenerator.ud_mac device) ["00:00:00:00:00:00"])
          /\ (forall vuln,
                 In vuln
                   (NetworkGenerator.risky_ports_found
                      (NetworkGenerator.vulns
                         (Mission1.network_config
                            (Mission1.init (Profile.mkProfile None None)
                               (Random.Rng (fun _ => 0) 0))))) ->
                 In (NetworkGenerator.port vuln) [23])) as Htarget.
  { vm_compute. split.
    - intros device [<-|[]]. left. reflexivity.
    - intros vuln [<-|[<-|[]]]; left; reflexivity. }
  split; [apply Hiff, Htarget | apply Hflag, Htarget].
Defined.


(** * More of the code: what it shows *)

(** ** Mission 1, whatever method is called *)

Module Mission1MoreFacts.
Import Objectives Mission1.

Lemma telnet_found_nil (risky : list NetworkGenerator.risky_port_entry) :
  telnet_found risky [] = false.
Proof.
  induction risky as [|v risky IH]; cbn; [reflexivity|].
  destruct (NetworkGenerator.port v =? 23); exact IH.
Qed.

Lemma generated_vulns (r : Random.rng) :
  let config := fst (NetworkGenerator.generate_mission1_network r) in
  NetworkGenerator.vulns config
  = NetworkGenerator.scan_devices (NetworkGenerator.devices config).
Proof.
  cbv zeta. unfold NetworkGenerator.generate_mission1_network.
  repeat match goal with
         | |- context [let (_, _) := ?p in _] => destruct p
         end.
  reflexivity.
Qed.

Lemma mission1_reachable_init (profile : Profile.t) (r : Random.rng) :
  Props.mission1_reachable (init profile r).
Proof.
  unfold Props.mission1_reachable, init. cbn.
  repeat split; try reflexivity. apply generated_vulns.
Qed.

Lemma mission1_reachable_exec (c : call) (s : state) :
  Props.mission1_reachable s -> Props.mission1_reachable (exec c s).
Proof.
  unfold Props.mission1_reachable. cbv zeta.
  intros (Hfound & Hrisky & Hpackets & Hreq & Htarget & Hvulns).
  destruct c; cbn [exec];
    unfold update_progress, check_scan_network_complete,
      check_identify_devices_complete, check_find_risky_ports_complete,
      check_isolate_threats_complete, check_block_risky_ports_complete,
      check_final_audit_complete, award_completion_rewards;
    rewrite ?Hfound, ?telnet_found_nil;
    repeat match goal with
           | |- context [if ?b then _ else _] => destruct b
           end;
    cbn; repeat split; assumption.
Qed.

Lemma mission1_reachable_run (calls : list call) (s : state) :
  Props.mission1_reachable s -> Props.mission1_reachable (run calls s).
Proof.
  revert s. induction calls as [|c calls IH]; intros s H; cbn; [exact H|].
  apply IH, mission1_reachable_exec, H.
Qed.

Lemma incomplete_fourth (a b c d : string * flags) (rest : list (string * flags)) :
  f_required (snd d) = true -> f_completed (snd d) = false ->
  Objectives.is_mission_complete (a :: b :: c :: d :: rest) = false.
Proof.
  destruct a as [ka [ca ra]], b as [kb [cb rb]], c as [kc [cc rc]],
    d as [kd [cd rd]]. cbn.
  intros -> ->. destruct ra, ca, rb, cb, rc, cc; reflexivity.
Qed.

Lemma count_isolated_le (untrusted : list NetworkGenerator.untrusted_entry)
    (isolated : list string) :
  (count_isolated untrusted isolated <= length untrusted)%nat.
Proof.
  induction untrusted as [|d untrusted IH]; cbn; [lia|].
  destruct (Py.str_in _ isolated); lia.
Qed.

Lemma count_isolated_all (untrusted : list NetworkGenerator.untrusted_entry)
    (isolated : list string) :
  count_isolated untrusted isolated = length untrusted
  <-> forall device, In device untrusted ->
                     In (NetworkGenerator.ud_mac device) isolated.
Proof.
  induction untrusted as [|d untrusted IH]; cbn.
  - split; [intros _ device [] | reflexivity].
  - pose proof (count_isolated_le untrusted isolated).
    destruct (Py.str_in (NetworkGenerator.ud_mac d) isolated) eqn:E.
    + apply StrFacts.str_in_In in E. split.
      * intros Hc device [<-|Hd]; [exact E|]. apply IH; [lia | exact Hd].
      * intros Hall. f_equal. apply IH. intros device Hd. apply Hall. right. exact Hd.
    + split; [lia|]. intros Hall.
      assert (Py.str_in (NetworkGenerator.ud_mac d) isolated = true) as E'
        by (apply StrFacts.str_in_In, Hall; left; reflexivity).
      congruence.
Qed.

Lemma scan_devices_ports (ds : list NetworkGenerator.Device) :
  Forall (fun v => NetworkGenerator.port v = 23)
    (NetworkGenerator.risky_ports_found (NetworkGenerator.scan_devices ds)).
Proof.
  induction ds as [|d ds IH]; cbn; [constructor|].
  destruct (Py.int_in 23 (NetworkGenerator.open_ports d)); [constructor|]; auto.
Qed.

Lemma scan_devices_none (ds : list NetworkGenerator.Device) :
  NetworkGenerator.risky_ports_found (NetworkGenerator.scan_devices ds) = []
  <-> existsb (fun d => Py.int_in 23 (NetworkGenerator.open_ports d)) ds = false.
Proof.
  induction ds as [|d ds IH]; cbn; [tauto|].
  destruct (Py.int_in 23 (NetworkGenerator.open_ports d)); cbn.
  - split; discriminate.
  - exact IH.
Qed.

End Mission1MoreFacts.

(** X1.  No method of [Mission1NetworkRecon] completes [find_risky_ports]
    (its check looks for 23 in [found_ports], which nothing ever fills) or
    [analyze_packets] (which has no check): after any sequence of method
    calls on a fresh object both are not completed and
    [is_mission_complete] returns [False]. *)
Theorem X1_mission1_methods_never_complete (profile : Profile.t) (r : Random.rng)
    (calls : list Mission1.call) :
  let s := Mission1.run calls (Mission1.init profile r) in
  Objectives.extra (Mission1.find_risky_ports (Mission1.objs s)) = []
  /\ Objectives.completed (Mission1.find_risky_ports (Mission1.objs s)) = false
  /\ Objectives.completed (Mission1.analyze_packets (Mission1.objs s)) = false
  /\ Mission1.is_mission_complete s = false.
Proof.
  cbv zeta.
  destruct (Mission1MoreFacts.mission1_reachable_run calls _
              (Mission1MoreFacts.mission1_reachable_init profile r))
    as (Hfound & Hrisky & Hpackets & Hreq & _).
  repeat split; try assumption.
  unfold Mission1.is_mission_complete, Mission1.items.
  apply Mission1MoreFacts.incomplete_fourth; cbn; assumption.
Qed.

(** X2.  On a mission object reached from a fresh one by method calls,
    [check_isolate_threats_complete], which counts, returns [True] exactly
    when every untrusted device has its MAC in the list: the half of the
    final audit that is about devices. *)
Theorem X2_isolate_threats_counts_all (profile : Profile.t) (r : Random.rng)
    (calls : list Mission1.call) (isolated_devices : list string) :
  let s := Mission1.run calls (Mission1.init profile r) in
  let untrusted :=
    NetworkGenerator.untrusted_devices
      (NetworkGenerator.vulns (Mission1.network_config s)) in
  (fst (Mission1.check_isolate_threats_complete isolated_devices s) = true
   <-> forall device, In device untrusted ->
                      In (NetworkGenerator.ud_mac device) isolated_devices)
  /\ Mission1.isolated_count
       (Objectives.extra
          (Mission1.isolate_threats
             (Mission1.objs
                (snd (Mission1.check_isolate_threats_complete isolated_devices s)))))
     = Mission1.count_isolated untrusted isolated_devices.
Proof.
  cbv zeta.
  destruct (Mission1MoreFacts.mission1_reachable_run calls _
              (Mission1MoreFacts.mission1_reachable_init profile r))
    as (_ & _ & _ & _ & Htarget & _).
  set (s := Mission1.run calls (Mission1.init profile r)) in *.
  rewrite <- Mission1MoreFacts.count_isolated_all.
  pose proof (Mission1MoreFacts.count_isolated_le
                (NetworkGenerator.untrusted_devices
                   (NetworkGenerator.vulns (Mission1.network_config s)))
                isolated_devices) as Hle.
  unfold Mission1.check_isolate_threats_complete. cbn. rewrite Htarget.
  destruct (Nat.leb_spec
              (length (NetworkGenerator.untrusted_devices
                         (NetworkGenerator.vulns (Mission1.network_config s))))
              (Mission1.count_isolated
                 (NetworkGenerator.untrusted_devices
                    (NetworkGenerator.vulns (Mission1.network_config s)))
                 isolated_devices)); cbn; split; try reflexivity;
    split; try discriminate; try lia; intros _; reflexivity.
Qed.

(** X3.  On such an object every risky-port entry is port 23, so the final
    audit asks for the isolation of the untrusted devices and, only when
    some device has Telnet open, for port 23 in the blocked list.  There is
    a draw with no Telnet port at all: the audit then passes with nothing
    blocked, while [check_block_risky_ports_complete] fails. *)
Theorem X3_final_audit_on_a_generated_network :
  (forall (profile : Profile.t) (r : Random.rng) (calls : list Mission1.call)
          (isolated_devices : list string) (blocked_ports : list Z),
      let s := Mission1.run calls (Mission1.init profile r) in
      let config := Mission1.network_config s in
      fst (Mission1.check_final_audit_complete isolated_devices blocked_ports s) = true
      <-> (forall device,
              In device (NetworkGenerator.untrusted_devices
                           (NetworkGenerator.vulns config)) ->
              In (NetworkGenerator.ud_mac device) isolated_devices)
          /\ (existsb (fun d => Py.int_in 23 (NetworkGenerator.open_ports d))
                (NetworkGenerator.devices config) = true ->
              In 23 blocked_ports))
  /\ (exists r : Random.rng,
         forall profile : Profile.t,
           let s := Mission1.init profile r in
           fst (Mission1.check_final_audit_complete ["00:00:00:00:00:00"] [] s) = true
           /\ fst (Mission1.check_block_risky_ports_complete [] s) = false).
Proof.
  split.
  - intros profile r calls isolated_devices blocked_ports. cbv zeta.
    destruct (Mission1MoreFacts.mission1_reachable_run calls _
                (Mission1MoreFacts.mission1_reachable_init profile r))
      as (_ & _ & _ & _ & _ & Hvulns).
    set (s := Mission1.run calls (Mission1.init profile r)) in *.
    rewrite Mission1Facts.final_audit_condition.
    apply and_iff_compat_l.
    rewrite Hvulns.
    pose proof (Mission1MoreFacts.scan_devices_ports
                  (NetworkGenerator.devices (Mission1.network_config s))) as Hports.
    pose proof (Mission1MoreFacts.scan_devices_none
                  (NetworkGenerator.devices (Mission1.network_config s))) as Hnone.
    rewrite List.Forall_forall in Hports.
    destruct (NetworkGenerator.risky_ports_found
                (NetworkGenerator.scan_devices
                   (NetworkGenerator.devices (Mission1.network_config s))))
      as [|v risky] eqn:E.
    + destruct Hnone as [Hnone _]. rewrite (Hnone eq_refl).
      split; [discriminate | intros _ vuln []].
    + assert (existsb (fun d => Py.int_in 23 (NetworkGenerator.open_ports d))
                (NetworkGenerator.devices (Mission1.network_config s)) = true) as Hsome.
      { destruct Hnone as [_ Hback].
        destruct (existsb _ _); [reflexivity|].
        discriminate (Hback eq_refl). }
      rewrite Hsome. split.
      * intros H _. rewrite <- (Hports v) by (left; reflexivity).
        apply H. left. reflexivity.
      * intros H vuln Hv. rewrite (Hports vuln Hv). apply H. reflexivity.
  - exists (Random.Rng
              (fun n => if (n =? 29)%nat || (n =? 30)%nat || (n =? 39)%nat || (n =? 40)%nat
                        then 1 else 0) 0).
    intros profile. vm_compute. split; reflexivity.
Qed.


(** ** The rewards of the three missions *)

Module RewardFacts.
Import Profile.

Lemma add_once_idem (x : string) (l : option (list string)) :
  add_once x (add_once x l) = add_once x l.
Proof.
  unfold add_once. set (l0 := default [] l).
  destruct (Py.str_in x l0) eqn:E; cbn [default from_option id].
  - rewrite E. reflexivity.
  - assert (Py.str_in x (l0 ++ [x]) = true) as ->; [|reflexivity].
    apply StrFacts.str_in_In, in_or_app. right. left. reflexivity.
Qed.

Lemma award_lists (g : Z) (c : option Z) (l : option string) (b m u : string) (p : t) :
  Props.reward_lists (award g c l b m u (award g c l b m u p))
  = Props.reward_lists (award g c l b m u p).
Proof.
  unfold award, Props.reward_lists.
  destruct p as [tools [pr|]]; cbn; [|reflexivity].
  rewrite !add_once_idem. reflexivity.
Qed.

Lemma award_xp (g : Z) (c : option Z) (l : option string) (b m u : string) (p : t) :
  Props.xp_of (award g c l b m u (award g c l b m u p))
  = option_map (fun x => x + g) (Props.xp_of (award g c l b m u p)).
Proof.
  unfold award, Props.xp_of.
  destruct p as [tools [pr|]]; reflexivity.
Qed.

Lemma award_nothing (g : Z) (c : option Z) (l : option string) (b m u : string) (p : t) :
  progress_of p = None -> award g c l b m u p = p.
Proof. unfold award. intros ->. reflexivity. Qed.

End RewardFacts.

(** X4.  [award_completion_rewards] of the three missions does not look at
    the objectives, and a second call appends no badge, mission or unlocked
    mission a second time but adds the XP again (500, 300 and 500); on a
    profile without ['progress'] the rewards are stored nowhere. *)
Theorem X4_rewards_awarded_again (s1 : Mission1.state) (s2 : Mission2.state)
    (s3 : Mission3.state) :
  let once1 := Mission1.award_completion_rewards s1 in
  let once2 := Mission2.award_completion_rewards s2 in
  let once3 := Mission3.award_completion_rewards s3 in
  let p1 := Mission1.profile_data in
  let p2 := Mission2.profile_data in
  let p3 := Mission3.profile_data in
  (Props.reward_lists (p1 (Mission1.award_completion_rewards once1))
   = Props.reward_lists (p1 once1)
   /\ Props.xp_of (p1 (Mission1.award_completion_rewards once1))
      = option_map (fun x => x + 500) (Props.xp_of (p1 once1))
   /\ (Profile.progress_of (p1 s1) = None -> once1 = s1))
  /\ (Props.reward_lists (p2 (Mission2.award_completion_rewards once2))
      = Props.reward_lists (p2 once2)
      /\ Props.xp_of (p2 (Mission2.award_completion_rewards once2))
         = option_map (fun x => x + 300) (Props.xp_of (p2 once2))
      /\ (Profile.progress_of (p2 s2) = None -> once2 = s2))
  /\ (Props.reward_lists (p3 (Mission3.award_completion_rewards once3))
      = Props.reward_lists (p3 once3)
      /\ Props.xp_of (p3 (Mission3.award_completion_rewards once3))
         = option_map (fun x => x + 500) (Props.xp_of (p3 once3))
      /\ (Profile.progress_of (p3 s3) = None -> once3 = s3)).
Proof.
  cbv zeta.
  unfold Mission1.award_completion_rewards, Mission2.award_completion_rewards,
    Mission3.award_completion_rewards.
  cbn [Mission1.profile_data Mission2.profile_data Mission3.profile_data].
  repeat split;
    try apply RewardFacts.award_lists; try apply RewardFacts.award_xp;
    intros E; rewrite (RewardFacts.award_nothing _ _ _ _ _ _ _ E);
    [destruct s1 | destruct s2 | destruct s3]; reflexivity.
Qed.

(** ** Mission 3, whatever method is called *)

Module Mission3MoreFacts.
Import Objectives Mission3.

Lemma mission3_reachable_init (profile : Profile.t) : Props.mission3_reachable (init profile).
Proof. unfold Props.mission3_reachable. cbn. repeat split. Qed.

Lemma mission3_reachable_exec (c : call) (s : state) :
  Props.mission3_reachable s -> Props.mission3_reachable (exec c s).
Proof.
  unfold Props.mission3_reachable. cbv zeta. intros H.
  destruct c; cbn [exec];
    unfold mark_pcap_analyzer_opened, check_pcap_analyzer_downloaded,
      award_completion_rewards;
    repeat match goal with
           | |- context [if ?b then _ else _] => destruct b
           end;
    cbn; exact H.
Qed.

Lemma mission3_reachable_run (calls : list call) (s : state) :
  Props.mission3_reachable s -> Props.mission3_reachable (run calls s).
Proof.
  revert s. induction calls as [|c calls IH]; intros s H; cbn; [exact H|].
  apply IH, mission3_reachable_exec, H.
Qed.

End Mission3MoreFacts.

(** X5.  No method of [Mission3PcapAnalysis] writes the five extraction
    objectives or [complete_report] ([validate_answer] only returns its
    verdict): after any sequence of calls on a fresh object, the caller
    writing the shared profile included, at most two of the eight required
    objectives are completed and [is_mission_complete] returns [False]. *)
Theorem X5_mission3_methods_never_complete (profile : Profile.t)
    (calls : list Mission3.call) :
  let s := Mission3.run calls (Mission3.init profile) in
  Objectives.total_required (Mission3.items (Mission3.objs s)) = 8%nat
  /\ (Objectives.completed_required (Mission3.items (Mission3.objs s)) <= 2)%nat
  /\ Mission3.is_mission_complete s = false.
Proof.
  cbv zeta.
  pose proof (Mission3MoreFacts.mission3_reachable_run calls _
                (Mission3MoreFacts.mission3_reachable_init profile)) as H.
  set (s := Mission3.run calls (Mission3.init profile)) in *.
  destruct H as (H1 & H2 & H3 & H4 & H5 & H6 & Ra & Rb).
  cbn in H1, H2, H3, H4, H5, H6.
  unfold Mission3.is_mission_complete, Objectives.total_required,
    Objectives.completed_required, Objectives.count, Mission3.items.
  rewrite H1, H2, H3, H4, H5, H6.
  cbn. rewrite Ra, Rb.
  destruct (Objectives.completed (Mission3.download_pcap_analyzer (Mission3.objs s))),
    (Objectives.completed (Mission3.open_pcap_analyzer (Mission3.objs s)));
    cbn; repeat split; lia.
Qed.


(** ** Mission 2, whatever method is called *)

Module Mission2MoreFacts.
Import Objectives Mission2.

Lemma targets_nodup : NoDup Props.mission2_targets.
Proof. apply (bool_decide_unpack _). vm_compute. reflexivity. Qed.

Lemma found_grows (found l : list string) (x : string) :
  forallb (fun t => Py.str_in t found) l = true ->
  forallb (fun t => Py.str_in t (found ++ [x])) l = true.
Proof.
  rewrite !forallb_forall. intros H t Ht.
  apply StrFacts.str_in_In, in_or_app. left. apply StrFacts.str_in_In, H, Ht.
Qed.

Lemma mission2_reachable_init (profile : Profile.t) : Props.mission2_reachable (init profile).
Proof.
  unfold Props.mission2_reachable. cbn.
  repeat split; try reflexivity; [constructor | intros t []].
Qed.

Lemma mission2_reachable_report (threat_type : string) (s : state) :
  Props.mission2_reachable s ->
  Props.mission2_reachable (snd (report_threat_found threat_type s)).
Proof.
  unfold Props.mission2_reachable, report_threat_found. cbv zeta.
  destruct s as [pd [a b c [cmp req [found target]] e] wo ip types].
  cbn -[forallb Py.str_in].
  intros (-> & Htypes & Hnodup & Hincl & ->).
  destruct (Py.has_key threat_type types) eqn:Hkey; cbn -[forallb Py.str_in];
    [|repeat split; assumption].
  apply StrFacts.has_key_In in Hkey. rewrite Htypes in Hkey.
  destruct (Py.str_in threat_type found) eqn:Hin; cbn -[forallb Py.str_in].
  - destruct (forallb (fun t => Py.str_in t found) Props.mission2_targets) eqn:Hall;
      cbn -[forallb Py.str_in]; repeat split; try assumption; congruence.
  - assert (NoDup (found ++ [threat_type])) as Hnodup'.
    { apply NoDup_app. split; [exact Hnodup|]. split.
      - intros x Hx [->|[]]%list_elem_of_In.
        apply list_elem_of_In, StrFacts.str_in_In in Hx. congruence.
      - apply NoDup_singleton. }
    assert (forall t, In t (found ++ [threat_type]) -> In t Props.mission2_targets)
      as Hincl'.
    { intros t [Ht|[<-|[]]]%in_app_or; [apply Hincl, Ht | exact Hkey]. }
    destruct (forallb (fun t => Py.str_in t (found ++ [threat_type]))
                Props.mission2_targets) eqn:Hall;
      cbn -[forallb Py.str_in]; repeat split; try assumption; try congruence.
    destruct (forallb (fun t => Py.str_in t found) Props.mission2_targets) eqn:Hold;
      [|symmetry; exact Hall].
    apply (found_grows _ _ threat_type) in Hold. congruence.
Qed.

Lemma mission2_reachable_exec (c : call) (s : state) :
  Props.mission2_reachable s -> Props.mission2_reachable (exec c s).
Proof.
  intros H. destruct c; cbn [exec]; try exact H;
    try (apply mission2_reachable_report; exact H);
    revert H; unfold Props.mission2_reachable; cbv zeta; intros H;
    unfold update_progress, mark_wireshark_opened, check_wireshark_downloaded,
      submit_suspicious_ip, check_report_complete, award_completion_rewards;
    repeat match goal with
           | |- context [if ?b then _ else _] => destruct b
           end;
    cbn; exact H.
Qed.

Lemma mission2_reachable_run (calls : list call) (s : state) :
  Props.mission2_reachable s -> Props.mission2_reachable (run calls s).
Proof.
  revert s. induction calls as [|c calls IH]; intros s H; cbn; [exact H|].
  apply IH, mission2_reachable_exec, H.
Qed.

Lemma filter_none {A} (f : A -> bool) (l : list A) :
  List.filter (fun x => negb (f x)) l = [] <-> forallb f l = true.
Proof.
  induction l as [|x l IH]; cbn; [tauto|].
  destruct (f x); cbn; [exact IH|]. split; discriminate.
Qed.

Lemma no_wireshark_exec (tools : option (list string)) (c : call) (s : state) :
  Py.str_in "wireshark" (default [] tools) = false ->
  Props.mission2_method c = true ->
  Props.mission2_no_wireshark tools s -> Props.mission2_no_wireshark tools (exec c s).
Proof.
  unfold Props.mission2_no_wireshark. intros Hno Hc (Htools & Hreq & Hopen).
  destruct c; try discriminate Hc; cbn [exec];
    unfold update_progress, mark_wireshark_opened, check_wireshark_downloaded,
      submit_suspicious_ip, report_threat_found, check_report_complete,
      award_completion_rewards;
    rewrite ?Htools, ?Hno;
    repeat match goal with
           | |- context [if ?b then _ else _] => destruct b
           end;
    cbn; repeat split; try assumption.
  all: unfold Profile.award; destruct (Profile.progress_of (profile_data s));
    cbn; assumption.
Qed.

Lemma no_wireshark_run (tools : option (list string)) (calls : list call) (s : state) :
  Py.str_in "wireshark" (default [] tools) = false ->
  forallb Props.mission2_method calls = true ->
  Props.mission2_no_wireshark tools s -> Props.mission2_no_wireshark tools (run calls s).
Proof.
  intros Hno. revert s.
  induction calls as [|c calls IH]; intros s Hcalls H; cbn; [exact H|].
  cbn in Hcalls. apply andb_prop in Hcalls as [Hc Hcalls].
  apply IH; [exact Hcalls|]. apply no_wireshark_exec; assumption.
Qed.

End Mission2MoreFacts.

(** X6.  After any sequence of calls on a fresh [Mission2PacketAnalysis]
    the found threats have no duplicate, [get_found_threats] and
    [get_remaining_threats] together are the five target threats, and
    [identify_threats] is completed exactly when nothing remains. *)
Theorem X6_mission2_found_and_remaining (profile : Profile.t)
    (calls : list Mission2.call) :
  let s := Mission2.run calls (Mission2.init profile) in
  let found := Mission2Readers.get_found_threats s in
  let remaining := Mission2Readers.get_remaining_threats s in
  NoDup found
  /\ Permutation (found ++ remaining) Props.mission2_targets
  /\ (Objectives.completed (Mission2.identify_threats (Mission2.objs s)) = true
      <-> remaining = []).
Proof.
  cbv zeta.
  destruct (Mission2MoreFacts.mission2_reachable_run calls _
              (Mission2MoreFacts.mission2_reachable_init profile))
    as (Htarget & _ & Hnodup & Hincl & Hcompleted).
  set (s := Mission2.run calls (Mission2.init profile)) in *.
  unfold Mission2Readers.get_found_threats, Mission2Readers.get_remaining_threats.
  rewrite Htarget, Hcompleted.
  set (found := Mission2.found_threats _) in *.
  split; [exact Hnodup|]. split.
  - apply NoDup_Permutation.
    + apply NoDup_app. split; [exact Hnodup|]. split.
      * intros x Hx Hf. apply list_elem_of_In, List.filter_In in Hf as [_ Hf].
        apply list_elem_of_In, StrFacts.str_in_In in Hx. rewrite Hx in Hf.
        discriminate.
      * apply NoDup_ListNoDup, List.NoDup_filter, NoDup_ListNoDup,
          Mission2MoreFacts.targets_nodup.
    + apply Mission2MoreFacts.targets_nodup.
    + intros x. rewrite !list_elem_of_In, in_app_iff, List.filter_In. split.
      * intros [Hx|[Hx _]]; [apply Hincl, Hx | exact Hx].
      * intros Hx. destruct (Py.str_in x found) eqn:E.
        -- left. apply StrFacts.str_in_In, E.
        -- right. split; [exact Hx | reflexivity].
  - symmetry. apply Mission2MoreFacts.filter_none.
Qed.

(** X7.  Mission 2 can be completed through its methods exactly when
    ['wireshark'] is among the [downloaded_tools] of the profile: without
    it [download_wireshark] stays open whatever is answered, with it eight
    calls are enough. *)
Theorem X7_mission2_needs_wireshark (profile : Profile.t) :
  (exists calls : list Mission2.call,
      forallb Props.mission2_method calls = true
      /\ Mission2.is_mission_complete (Mission2.run calls (Mission2.init profile)) = true)
  <-> Py.str_in "wireshark" (default [] (Profile.downloaded_tools profile)) = true.
Proof.
  split.
  - intros (calls & Hcalls & Hdone).
    destruct (Py.str_in "wireshark" (default [] (Profile.downloaded_tools profile)))
      eqn:Hno; [reflexivity|].
    destruct (Mission2MoreFacts.no_wireshark_run _ calls (Mission2.init profile)
                Hno Hcalls) as (_ & Hreq & Hopen).
    { repeat split. }
    unfold Mission2.is_mission_complete, Mission2.items in Hdone.
    cbn in Hdone. rewrite Hreq, Hopen in Hdone. discriminate.
  - intros Hyes.
    exists [ Mission2.MarkWiresharkOpened;
             Mission2.SubmitSuspiciousIp "192.168.1.66";
             Mission2.ReportThreatFound "telnet_scan";
             Mission2.ReportThreatFound "port_scan";
             Mission2.ReportThreatFound "discovery";
             Mission2.ReportThreatFound "printer_exploit";
             Mission2.ReportThreatFound "exfiltration";
             Mission2.CheckReportComplete ].
    split; [reflexivity|].
    unfold Mission2.run. cbn [fold_left Mission2.exec].
    unfold Mission2.mark_wireshark_opened, Mission2.check_wireshark_downloaded.
    cbn [Mission2.init Mission2.profile_data]. rewrite Hyes.
    vm_compute. reflexivity.
Qed.


(** ** The network simulator of mission 1 *)

Module SimulatorFacts.
Import NetworkSimulator.

Lemma validate_field_keys (key : string) (test : string -> bool)
    (submitted : list (string * string)) (results : list (string * bool)) (k : string) :
  Py.has_key k (validate_field key test submitted results)
  = (String.eqb k key && Py.has_key key submitted) || Py.has_key k results.
Proof.
  unfold Py.has_key. rewrite ValidationFacts.validate_field_get.
  destruct (String.eqb k key) eqn:E; [|reflexivity].
  destruct (Py.get key submitted); [reflexivity|]. reflexivity.
Qed.

Lemma ask_all_same (s : SimulatorInstance.simulator) (nicknames : list string) :
  Forall (fun s' => s' = s) (Props.ask_all nicknames (Some s)).
Proof.
  induction nicknames as [|n nicknames IH]; cbn; [constructor|].
  constructor; [reflexivity | exact IH].
Qed.

End SimulatorFacts.

(** X8.  The [mac_address] check of [validate_mission1_data] never passes:
    the submission has its dashes turned into colons, the expected address
    [00:15:00-2B-3A-D4] keeps its own.  The result has an entry exactly for
    the known keys that were submitted, so a full submission never
    validates. *)
Theorem X8_mac_address_never_validates (nick : string)
    (submitted : list (string * string)) :
  let results :=
    NetworkSimulator.validate_mission1_data
      (NetworkSimulator.generate_network nick) submitted in
  Py.get "mac_address" results
  = option_map (fun _ => false) (Py.get "mac_address" submitted)
  /\ (forall key : string,
         Py.has_key key results = true
         <-> In key Props.mission1_fields /\ Py.has_key key submitted = true).
Proof.
  cbv zeta. unfold NetworkSimulator.validate_mission1_data. split.
  - rewrite !ValidationFacts.validate_field_get. cbn.
    destruct (Py.get "mac_address" submitted) as [v|]; [|reflexivity]. cbn.
    f_equal. apply (ValidationFacts.mission1_mac_never_accepted nick v).
  - intros key. rewrite !SimulatorFacts.validate_field_keys.
    change (Py.has_key key []) with false. rewrite orb_false_r.
    unfold Props.mission1_fields. cbn [In].
    rewrite !orb_true_iff, !andb_true_iff, !String.eqb_eq.
    split.
    + intros H. repeat destruct H as [H|H]; destruct H as [-> H]; tauto.
    + intros [H Hkey].
      repeat destruct H as [H|H]; try contradiction; subst key; tauto.
Qed.

(** X9.  [get_network_simulator] builds the simulator on the first call
    only: all later calls, with whatever nickname, return that object, whose
    hostname is the first nickname followed by [-PC]. *)
Theorem X9_first_nickname_stays (first : string) (others : list string) :
  Forall
    (fun s =>
       s = SimulatorInstance.create first
       /\ NetworkSimulator.p_hostname
            (NetworkSimulator.player (SimulatorInstance.network_data s))
          = first +:+ "-PC")
    (Props.ask_all (first :: others) None).
Proof.
  cbn. constructor; [split; reflexivity|].
  eapply Forall_impl; [apply SimulatorFacts.ask_all_same|].
  intros s ->. split; reflexivity.
Qed.

(** ** The notification manager *)

Module NotificationFacts.
Import NotificationManager.

Lemma remove_first_length (x : string) (l : list string) :
  In x l -> S (length (remove_first x l)) = length l.
Proof.
  induction l as [|y l IH]; cbn; [intros []|].
  destruct (String.eqb x y) eqn:E; [reflexivity|].
  intros [->|H]; [rewrite String.eqb_refl in E; discriminate|].
  cbn. f_equal. apply IH, H.
Qed.

Lemma remove_first_In (x y : string) (l : list string) :
  In y (remove_first x l) -> In y l.
Proof.
  induction l as [|z l IH]; cbn; [tauto|].
  destruct (String.eqb x z); [tauto|]. intros [->|H]; [tauto|]. right. apply IH, H.
Qed.

Lemma remove_first_nodup (x : string) (l : list string) :
  NoDup l -> NoDup (remove_first x l).
Proof.
  induction 1 as [|y l Hy Hl IH]; cbn; [constructor|].
  destruct (String.eqb x y); [exact Hl|].
  constructor; [|exact IH].
  intros H. apply Hy. apply list_elem_of_In, (remove_first_In x), list_elem_of_In, H.
Qed.

(** Every method but [reset_notifications] keeps or grows the count beyond
    the tracked ids. *)
Lemma exec_untracked (c : call) (m : manager) :
  Props.keeps_notifications c = true ->
  0 <= Props.untracked m ->
  Props.untracked m <= Props.untracked (exec c m).
Proof.
  unfold Props.untracked. intros Hc Hm.
  destruct c as [[id|]| |id| |dt]; try discriminate Hc; cbn [exec].
  - unfold add_notification. cbn.
    destruct (negb (String.eqb id "") && negb (Py.str_in id (notification_email_ids m)));
      rewrite ?length_app; cbn; lia.
  - cbn. lia.
  - cbn. lia.
  - unfold mark_email_read.
    destruct (Py.str_in id (notification_email_ids m)) eqn:E; [|lia].
    apply StrFacts.str_in_In, remove_first_length in E. cbn. lia.
  - unfold update. destruct (show_notification m); cbn; lia.
Qed.

Lemma exec_ok (c : call) (m : manager) :
  Props.notifications_ok m -> Props.notifications_ok (exec c m).
Proof.
  unfold Props.notifications_ok, Props.untracked.
  intros (Hnodup & Hcount & Hshow).
  destruct c as [[id|]| |id| |dt]; cbn [exec].
  - unfold add_notification. cbn.
    destruct (String.eqb id ""); cbn; [repeat split; try assumption; lia|].
    destruct (Py.str_in id (notification_email_ids m)) eqn:E; cbn;
      [repeat split; try assumption; lia|].
    rewrite length_app. cbn. repeat split; try lia.
    apply NoDup_app. split; [exact Hnodup|]. split; [|apply NoDup_singleton].
    intros x Hx [->|[]]%list_elem_of_In.
    apply list_elem_of_In, StrFacts.str_in_In in Hx. congruence.
  - cbn. repeat split; try assumption; lia.
  - cbn. repeat split; try assumption; try lia; try discriminate.
  - unfold mark_email_read.
    destruct (Py.str_in id (notification_email_ids m)) eqn:E;
      [|repeat split; assumption].
    apply StrFacts.str_in_In, remove_first_length in E. cbn.
    split; [apply remove_first_nodup, Hnodup|]. split; [lia|].
    destruct (Z.eqb_spec (Z.max 0 (unread_emails m - 1)) 0); [discriminate|].
    intros _. lia.
  - cbn. repeat split; try lia; try discriminate. constructor.
  - unfold update. destruct (show_notification m) eqn:E; cbn;
      repeat split; try assumption; rewrite ?E; assumption.
Qed.

Lemma run_ok (calls : list call) (m : manager) :
  Props.notifications_ok m -> Props.notifications_ok (run calls m).
Proof.
  revert m. induction calls as [|c calls IH]; intros m H; cbn; [exact H|].
  apply IH, exec_ok, H.
Qed.

Lemma init_ok : Props.notifications_ok init.
Proof.
  unfold Props.notifications_ok, Props.untracked. cbn.
  repeat split; [constructor | lia | discriminate].
Qed.

Lemma run_untracked (calls : list call) (m : manager) :
  forallb Props.keeps_notifications calls = true ->
  Props.notifications_ok m ->
  Props.untracked m <= Props.untracked (run calls m).
Proof.
  revert m. induction calls as [|c calls IH]; intros m Hcalls Hm; cbn; [lia|].
  cbn in Hcalls. apply andb_prop in Hcalls as [Hc Hcalls].
  pose proof (exec_untracked c m Hc (proj1 (proj2 Hm))).
  pose proof (IH (exec c m) Hcalls (exec_ok c m Hm)).
  unfold run in *. lia.
Qed.

End NotificationFacts.

(** X10.  Whatever is called on a [NotificationManager], the tracked ids
    have no duplicate, the unread count is at least their number, and the
    badge is shown only while the count is positive. *)
Theorem X10_notification_counts (calls : list NotificationManager.call) :
  let m := NotificationManager.run calls NotificationManager.init in
  NoDup (NotificationManager.notification_email_ids m)
  /\ Z.of_nat (length (NotificationManager.notification_email_ids m))
     <= NotificationManager.get_unread_count m
  /\ (NotificationManager.show_notification m = true
      -> NotificationManager.has_unread m = true).
Proof.
  cbv zeta.
  destruct (NotificationFacts.run_ok calls _ NotificationFacts.init_ok)
    as (Hnodup & Hcount & Hshow).
  unfold Props.untracked in Hcount.
  unfold NotificationManager.get_unread_count, NotificationManager.has_unread.
  repeat split; [exact Hnodup | lia |].
  intros H. apply Z.ltb_lt, Hshow, H.
Qed.

(** X11.  A notification added without an id, or with an id that is
    already tracked, can never be read away: [add_notification] counts it,
    [mark_email_read] takes one off the count only together with a tracked
    id, so [has_unread] stays [True] until [reset_notifications]. *)
Theorem X11_untracked_notification_stays (before after : list NotificationManager.call)
    (email_id : option string) :
  let m := NotificationManager.run before NotificationManager.init in
  match email_id with
  | None => True
  | Some id => id = "" \/ In id (NotificationManager.notification_email_ids m)
  end ->
  forallb Props.keeps_notifications after = true ->
  NotificationManager.has_unread
    (NotificationManager.run after (NotificationManager.add_notification email_id m))
  = true.
Proof.
  cbv zeta. intros Hid Hafter.
  pose proof (NotificationFacts.run_ok before _ NotificationFacts.init_ok) as Hm.
  set (m := NotificationManager.run before NotificationManager.init) in *.
  pose proof (NotificationFacts.exec_ok (NotificationManager.AddNotification email_id)
                m Hm) as Hadd.
  cbn [NotificationManager.exec] in Hadd.
  pose proof (NotificationFacts.run_untracked after _ Hafter Hadd) as Hle.
  pose proof (NotificationFacts.run_ok after _ Hadd) as (_ & Hpos & _).
  assert (Props.untracked m + 1
          <= Props.untracked (NotificationManager.add_notification email_id m)) as Hone.
  { unfold Props.untracked, NotificationManager.add_notification. cbn.
    destruct email_id as [id|]; [|lia].
    destruct Hid as [->|Hid]; [cbn; lia|].
    apply StrFacts.str_in_In in Hid. rewrite Hid, andb_false_r. lia. }
  destruct Hm as (_ & Hm & _).
  unfold NotificationManager.has_unread. apply Z.ltb_lt.
  unfold Props.untracked in *. lia.
Qed.

Lemma X11_untracked_notification_stays_witness :
  NotificationManager.has_unread
    (NotificationManager.run
       [NotificationManager.MarkEmailRead "email_002";
        NotificationManager.ClearNotification;
        NotificationManager.MarkEmailRead "email_002"]
       (NotificationManager.add_notification (Some "email_002")
          (NotificationManager.run
             [NotificationManager.AddNotification (Some "email_002")]
             NotificationManager.init)))
  = true.
Proof.
  apply (X11_untracked_notification_stays
           [NotificationManager.AddNotification (Some "email_002")]
           [NotificationManager.MarkEmailRead "email_002";
            NotificationManager.ClearNotification;
            NotificationManager.MarkEmailRead "email_002"]
           (Some "email_002")).
  - right. left. reflexivity.
  - reflexivity.
Defined.

(** ** The file manager *)

Module FileFacts.
Import FileManager.

Lemma get_In {V} (k : string) (v : V) (d : list (string * V)) :
  Py.get k d = Some v -> In (k, v) d.
Proof.
  induction d as [|[k0 v0] d IH]; cbn [Py.get]; [discriminate|].
  destruct (String.eqb k k0) eqn:E.
  - apply String.eqb_eq in E. subst. intros [= ->]. left. reflexivity.
  - intros H. right. apply IH, H.
Qed.

Lemma download_ok (target filename : string) (scanned : list string) (m : manager) :
  Props.files_ok m -> Props.files_ok (snd (download target filename scanned m)).
Proof.
  unfold download, Props.files_ok. intros [Hnodup Hknown].
  destruct (Py.get target target_files) as [files|] eqn:Ht; [|split; assumption].
  destruct (Py.str_in target scanned); cbn [negb]; [|split; assumption].
  destruct (Py.get filename files) as [info|] eqn:Hf; [|split; assumption].
  destruct (Py.str_in filename (downloaded_files m)) eqn:Hin; [split; assumption|].
  cbn [snd downloaded_files]. split.
  - apply NoDup_app. split; [exact Hnodup|]. split; [|apply NoDup_singleton].
    intros x Hx [->|[]]%list_elem_of_In.
    apply list_elem_of_In, StrFacts.str_in_In in Hx. congruence.
  - intros f [Hf'|[<-|[]]]%in_app_or; [apply Hknown, Hf'|].
    apply get_In in Ht, Hf. unfold Props.known_files.
    apply in_flat_map. exists (target, files). split; [exact Ht|].
    apply in_map_iff. exists (filename, info). split; [reflexivity | exact Hf].
Qed.

Lemma execute_ok (command : string) (args scanned : list string) (m : manager) :
  Props.files_ok m -> Props.files_ok (snd (execute command args scanned m)).
Proof.
  unfold execute. intros H.
  destruct (String.eqb command "download").
  - destruct args as [|target [|filename rest]]; try exact H.
    apply download_ok, H.
  - destruct (String.eqb command "ls"); exact H.
Qed.

Lemma session_ok (calls : list (string * list string * list string)) (m : manager) :
  Props.files_ok m -> Props.files_ok (Props.file_session calls m).
Proof.
  revert m. induction calls as [|[[command args] scanned] calls IH]; intros m H;
    [exact H|].
  apply IH, execute_ok, H.
Qed.

End FileFacts.

(** X12.  The downloaded files of a [FileManager] never hold a name twice
    and only names of the target's files, so at most two.  A failed
    [download] changes nothing; a successful one needs a scanned target and
    a file not yet downloaded, and repeating it is refused as already
    downloaded. *)
Theorem X12_file_downloads (calls : list (string * list string * list string))
    (target filename : string) (scanned_targets : list string) :
  let m := Props.file_session calls (FileManager.mkManager []) in
  let r := FileManager.download target filename scanned_targets m in
  let m' := snd r in
  (NoDup (FileManager.downloaded_files m)
   /\ (forall f, In f (FileManager.downloaded_files m) -> In f Props.known_files)
   /\ (length (FileManager.downloaded_files m) <= 2)%nat)
  /\ (FileManager.success (snd (fst r)) = false -> m' = m)
  /\ (FileManager.success (snd (fst r)) = true ->
      In target scanned_targets
      /\ FileManager.has_file filename m = false
      /\ FileManager.has_file filename m' = true
      /\ FileManager.download target filename scanned_targets m'
         = ((FileManager.AlreadyDownloaded, FileManager.failure), m')).
Proof.
  cbv zeta.
  assert (Props.files_ok (FileManager.mkManager [])) as H0.
  { split; [constructor | intros f []]. }
  destruct (FileFacts.session_ok calls _ H0) as [Hnodup Hknown].
  set (m := Props.file_session calls (FileManager.mkManager [])) in *.
  split; [split; [exact Hnodup|]; split; [exact Hknown|]|].
  - apply NoDup_ListNoDup in Hnodup.
    apply (List.NoDup_incl_length Hnodup Hknown).
  - unfold FileManager.download, FileManager.has_file.
    destruct (Py.get target FileManager.target_files) as [files|] eqn:Ht;
      [|split; [reflexivity | discriminate]].
    destruct (Py.str_in target scanned_targets) eqn:Hs; cbn [negb];
      [|split; [reflexivity | discriminate]].
    destruct (Py.get filename files) as [info|] eqn:Hf;
      [|split; [reflexivity | discriminate]].
    destruct (Py.str_in filename (FileManager.downloaded_files m)) eqn:Hin;
      [split; [reflexivity | discriminate]|].
    cbn [fst snd FileManager.success FileManager.downloaded_files].
    split; [discriminate|]. intros _.
    assert (Py.str_in filename (FileManager.downloaded_files m ++ [filename]) = true)
      as Hnow.
    { apply StrFacts.str_in_In, in_or_app. right. left. reflexivity. }
    rewrite Hnow.
    repeat split. apply StrFacts.str_in_In, Hs.
Qed.


(** ** The command parser *)

Module ParserFacts.
Import PyExt CommandParser.

Lemma set_keys {V} (k : string) (v : V) (d : list (string * V)) :
  map fst (Py.set k v d) = if Py.has_key k d then map fst d else map fst d ++ [k].
Proof.
  unfold Py.has_key. induction d as [|[k0 v0] d IH]; cbn [Py.set Py.get]; [reflexivity|].
  destruct (String.eqb k k0); [reflexivity|].
  cbn [map fst]. rewrite IH. destruct (Py.get k d); reflexivity.
Qed.

Lemma set_keys_nodup {V} (k : string) (v : V) (d : list (string * V)) :
  NoDup (map fst d) -> NoDup (map fst (Py.set k v d)).
Proof.
  intros H. rewrite set_keys. destruct (Py.has_key k d) eqn:E; [exact H|].
  apply NoDup_app. split; [exact H|]. split; [|apply NoDup_singleton].
  intros x Hx [->|[]]%list_elem_of_In.
  apply list_elem_of_In, StrFacts.has_key_In in Hx. congruence.
Qed.

Lemma set_values {V} (Q : V -> Prop) (k : string) (v : V) (d : list (string * V)) :
  Q v -> Forall (fun kv => Q (snd kv)) d -> Forall (fun kv => Q (snd kv)) (Py.set k v d).
Proof.
  intros Hv. induction 1 as [|[k0 v0] d H0 Hd IH]; cbn [Py.set].
  - constructor; [exact Hv | constructor].
  - destruct (String.eqb k k0); constructor; try assumption.
Qed.

Lemma dash_only (part : string) :
  startswith "-" part = true -> (1 <? String.length part)%nat = false -> part = "-".
Proof.
  unfold startswith. destruct part as [|c [|d r]]; cbn [String.prefix String.length].
  - intros H. discriminate H.
  - destruct (ascii_dec "-" c) as [<-|]; [reflexivity|]. intros H. discriminate H.
  - intros _ H. discriminate H.
Qed.

Lemma parse_parts_ok (n : nat) (parts args : list string)
    (options : list (string * option_value)) :
  (length parts <= n)%nat ->
  Forall Props.arg_ok args ->
  Forall (fun kv => Props.value_ok (snd kv)) options ->
  NoDup (map fst options) ->
  Forall Props.arg_ok (fst (parse_parts parts args options))
  /\ Forall (fun kv => Props.value_ok (snd kv)) (snd (parse_parts parts args options))
  /\ NoDup (map fst (snd (parse_parts parts args options))).
Proof.
  revert parts args options.
  induction n as [|n IH]; intros [|part rest] args options Hn Hargs Hopts Hkeys;
    cbn [length] in Hn; try lia; cbn [parse_parts fst snd]; try (repeat split; assumption).
  assert (forall name, Forall (fun kv => Props.value_ok (snd kv)) (Py.set name Flag options))
    as Hflag by (intros name; apply set_values; [exact I | exact Hopts]).
  assert (forall name next, startswith "-" next = false ->
            Forall (fun kv => Props.value_ok (snd kv)) (Py.set name (Value next) options))
    as Hvalue by (intros name next E; apply set_values; [exact E | exact Hopts]).
  destruct (startswith "--" part).
  - destruct rest as [|next rest'].
    + apply IH; [cbn; lia | exact Hargs | apply Hflag | apply set_keys_nodup, Hkeys].
    + destruct (startswith "-" next) eqn:E; cbn [negb].
      * apply IH; [cbn in *; lia | exact Hargs | apply Hflag | apply set_keys_nodup, Hkeys].
      * apply IH; [cbn in *; lia | exact Hargs | apply Hvalue, E
                  | apply set_keys_nodup, Hkeys].
  - destruct (startswith "-" part) eqn:Hdash; cbn [andb].
    + destruct (1 <? String.length part)%nat eqn:Hlen.
      * destruct rest as [|next rest'].
        -- apply IH; [cbn; lia | exact Hargs | apply Hflag | apply set_keys_nodup, Hkeys].
        -- destruct (startswith "-" next) eqn:E; cbn [negb].
           ++ apply IH; [cbn in *; lia | exact Hargs | apply Hflag
                        | apply set_keys_nodup, Hkeys].
           ++ apply IH; [cbn in *; lia | exact Hargs | apply Hvalue, E
                        | apply set_keys_nodup, Hkeys].
      * apply IH; [lia | | exact Hopts | exact Hkeys].
        apply Forall_app. split; [exact Hargs|].
        constructor; [|constructor]. left. apply dash_only; assumption.
    + apply IH; [lia | | exact Hopts | exact Hkeys].
      apply Forall_app. split; [exact Hargs|].
      constructor; [|constructor]. right. exact Hdash.
Qed.

Lemma lower_char_idem (c : ascii) : Py.lower_char (Py.lower_char c) = Py.lower_char c.
Proof.
  apply Ascii.eqb_eq. revert c.
  apply (CharFacts.forall_char
           (fun c => Ascii.eqb (Py.lower_char (Py.lower_char c)) (Py.lower_char c))).
  vm_compute. reflexivity.
Qed.

Lemma lower_idem (s : string) : Py.lower (Py.lower s) = Py.lower s.
Proof.
  unfold Py.lower. induction s as [|c s IH]; cbn; [reflexivity|].
  rewrite lower_char_idem, IH. reflexivity.
Qed.

Lemma words_head (cur s : string) :
  cur <> "" -> exists w ws, words cur s = w :: ws /\ w <> "".
Proof.
  revert cur. induction s as [|c s IH]; intros cur Hcur; cbn [words].
  - destruct cur; [contradiction|]. eauto.
  - destruct (Py.is_space c).
    + destruct cur; [contradiction|]. eauto.
    + apply IH. destruct cur; discriminate.
Qed.

Lemma lstrip_head (s : string) :
  Py.lstrip s = "" \/ exists c r, Py.lstrip s = String c r /\ Py.is_space c = false.
Proof.
  induction s as [|c s IH]; cbn [Py.lstrip]; [left; reflexivity|].
  destruct (Py.is_space c) eqn:E; [exact IH|]. right. eauto.
Qed.

Lemma strip_head (s : string) :
  Py.strip s = "" \/ exists c r, Py.strip s = String c r /\ Py.is_space c = false.
Proof.
  unfold Py.strip. destruct (lstrip_head s) as [->|(c & r & -> & Hc)];
    [left; reflexivity|].
  right. cbn [Py.rstrip]. rewrite Hc. destruct (Py.rstrip r); eauto.
Qed.

Lemma strip_empty : Py.strip "" = "".
Proof. reflexivity. Qed.

(** Some available command is within two characters of any length from 1
    to 12. *)
Lemma near_command (n : nat) :
  (1 <= n <= 12)%nat ->
  exists cmd, In cmd (map fst available_commands)
              /\ (Z.abs (Z.of_nat (String.length cmd) - Z.of_nat n) <=? 2) = true.
Proof.
  intros Hn.
  destruct (le_lt_dec n 5); [|destruct (le_lt_dec n 9)].
  - exists "vpn". split; [cbn; tauto|]. apply Z.leb_le. cbn [String.length]. lia.
  - exists "analyze". split; [cbn; tauto|]. apply Z.leb_le. cbn [String.length]. lia.
  - exists "objectives". split; [cbn; tauto|]. apply Z.leb_le. cbn [String.length]. lia.
Qed.

Lemma firstn_filter_nonempty {A} (f : A -> bool) (l : list A) (k : nat) :
  existsb f l = true -> firstn (S k) (List.filter f l) <> [].
Proof.
  induction l as [|x l IH]; cbn; [discriminate|].
  destruct (f x); cbn; [discriminate | exact IH].
Qed.

Lemma firstn_In {A} (n : nat) (l : list A) (x : A) : In x (firstn n l) -> In x l.
Proof.
  intros H. rewrite <- (firstn_skipn n l). apply in_or_app. left. exact H.
Qed.

Lemma similar_nonempty (command : string) :
  (1 <= String.length command <= 12)%nat -> get_similar_commands command 2 <> [].
Proof.
  intros Hn. unfold get_similar_commands. apply firstn_filter_nonempty.
  apply existsb_exists. destruct (near_command _ Hn) as (cmd & Hcmd & Hnear).
  exists cmd. split; [exact Hcmd|]. rewrite Hnear. apply orb_true_r.
Qed.

End ParserFacts.

(** X13.  What [parse] returns: an argument never starts with a dash unless
    it is the dash alone, the value of an option never starts with a dash
    (a word that does is read as the next option, so a negative number is
    never a value), an option name occurs once, and the command is in
    lower case. *)
Theorem X13_parse_shape (command_str : string) (p : CommandParser.parser) :
  let '(command, args, options) := fst (CommandParser.parse command_str p) in
  Forall (fun a => a = "-" \/ PyExt.startswith "-" a = false) args
  /\ Forall (fun kv => forall w, snd kv = CommandParser.Value w ->
                                 PyExt.startswith "-" w = false) options
  /\ NoDup (map fst options)
  /\ Py.lower command = command.
Proof.
  unfold CommandParser.parse.
  destruct (String.eqb command_str "" || String.eqb (Py.strip command_str) "").
  - cbn. repeat split; constructor.
  - destruct (ParserFacts.parse_parts_ok
                (length (tl (PyExt.split (Py.strip command_str))))
                (tl (PyExt.split (Py.strip command_str))) [] [])
      as (Hargs & Hopts & Hkeys); try constructor.
    destruct (CommandParser.parse_parts _ [] []) as [args options].
    cbn [fst snd] in *. split; [exact Hargs|]. split; [|split; [exact Hkeys|]].
    + eapply Forall_impl; [exact Hopts|]. intros [k v] Hv w Hw. cbn in *.
      subst v. exact Hv.
    + destruct (PyExt.split (Py.strip command_str)); [reflexivity|].
      apply ParserFacts.lower_idem.
Qed.

(** X14.  [parse] on a blank line (empty, or whitespace only) returns the
    empty command, which [validate_command] refuses, and records nothing;
    on any other line the command is not empty and the line goes into the
    history as typed, untrimmed. *)
Theorem X14_parse_blank_or_recorded (command_str : string) (p : CommandParser.parser) :
  let '(command, args, options) := fst (CommandParser.parse command_str p) in
  let p' := snd (CommandParser.parse command_str p) in
  if String.eqb (Py.strip command_str) ""
  then command = "" /\ args = [] /\ options = [] /\ p' = p
       /\ CommandParser.validate_command command
          = (false, CommandParser.NoCommandEntered)
  else command <> ""
       /\ CommandParser.command_history p'
          = CommandParser.command_history p ++ [command_str].
Proof.
  unfold CommandParser.parse.
  destruct (String.eqb (Py.strip command_str) "") eqn:E.
  - rewrite orb_true_r. cbn. repeat split.
  - assert (String.eqb command_str "" = false) as ->.
    { destruct command_str; [discriminate E | reflexivity]. }
    cbn [orb].
    destruct (ParserFacts.strip_head command_str) as [E'|(c & r & E' & Hc)];
      [rewrite E' in E; discriminate|].
    rewrite E'. unfold PyExt.split. cbn [PyExt.words]. rewrite Hc.
    change ("" +:+ String c "") with (String c "").
    destruct (ParserFacts.words_head (String c "") r) as (w & ws & -> & Hw);
      [discriminate|].
    cbn [tl]. destruct (CommandParser.parse_parts ws [] []) as [args options].
    cbn [fst snd CommandParser.command_history]. split; [|reflexivity].
    destruct w; [contradiction | discriminate].
Qed.

(** X15.  [get_similar_commands] returns at most three names, all of them
    commands; the length test alone finds one for every command of 1 to 12
    characters, so [validate_command] answers an unknown command with its
    "Type 'help'" message only from 13 characters on, and suggests
    [nmap, vpn, tor] for [zzzz]. *)
Theorem X15_suggestions :
  (forall (command : string) (max_distance : Z),
      (length (CommandParser.get_similar_commands command max_distance) <= 3)%nat
      /\ forall cmd, In cmd (CommandParser.get_similar_commands command max_distance) ->
                     Py.has_key cmd CommandParser.available_commands = true)
  /\ (forall command : string,
         snd (CommandParser.validate_command command)
         = CommandParser.UnknownCommand command ->
         (13 <= String.length command)%nat)
  /\ CommandParser.validate_command "zzzz"
     = (false, CommandParser.DidYouMean "zzzz" ["nmap"; "vpn"; "tor"])
  /\ CommandParser.validate_command "zzzzzzzzzzzzz"
     = (false, CommandParser.UnknownCommand "zzzzzzzzzzzzz").
Proof.
  split; [|split; [|split; reflexivity]].
  - intros command max_distance. unfold CommandParser.get_similar_commands. split.
    + rewrite length_firstn. lia.
    + intros cmd Hcmd. apply StrFacts.has_key_In.
      apply ParserFacts.firstn_In in Hcmd. apply List.filter_In in Hcmd. tauto.
  - intros command. unfold CommandParser.validate_command.
    destruct (String.eqb command "") eqn:E; [discriminate|].
    destruct (Py.has_key command CommandParser.available_commands); [discriminate|].
    cbn [negb].
    destruct (CommandParser.get_similar_commands command 2) eqn:Hs; [|discriminate].
    intros _. destruct (le_lt_dec 13 (String.length command)) as [H|H]; [exact H|].
    exfalso. apply (ParserFacts.similar_nonempty command); [|exact Hs].
    destruct command; [discriminate E|]. cbn [String.length] in *. lia.
Qed.

(** X16.  [get_command_history(count)] returns the last [count] lines for a
    positive [count] (all of them when there are fewer), the whole history
    for 0, and for a negative [count] the history without its first
    [-count] lines. *)
Theorem X16_history_slice (count : Z) (p : CommandParser.parser) :
  let history := CommandParser.command_history p in
  (0 < count ->
   CommandParser.get_command_history count p
   = skipn (length history - Z.to_nat count) history)
  /\ (count = 0 -> CommandParser.get_command_history count p = history)
  /\ (count < 0 ->
      CommandParser.get_command_history count p = skipn (Z.to_nat (- count)) history).
Proof.
  cbv zeta. unfold CommandParser.get_command_history, PyExt.last_slice.
  set (h := CommandParser.command_history p). repeat split.
  - intros H. destruct (Z.ltb_spec (- count) 0); [|lia]. f_equal. lia.
  - intros ->. destruct (Z.ltb_spec (- 0) 0); [lia|].
    replace (Z.to_nat _) with 0%nat by lia. reflexivity.
  - intros H. destruct (Z.ltb_spec (- count) 0); [lia|].
    destruct (Z.le_gt_cases (- count) (Z.of_nat (length h))) as [Hle|Hgt].
    + f_equal. lia.
    + rewrite !skipn_all2; [reflexivity | lia | lia].
Qed.


(** ** Numbers as text, and back *)

From Stdlib Require DecimalNat.

Module NumberFacts.
Import Py PyExt.

Lemma digit_val_nonneg (c : ascii) : is_digit c = true -> 0 <= digit_val c.
Proof.
  intros H. apply Z.leb_le. revert c H.
  enough (forall c, implb (is_digit c) (0 <=? digit_val c) = true) as E.
  { intros c H. specialize (E c). rewrite H in E. exact E. }
  apply CharFacts.forall_char. vm_compute. reflexivity.
Qed.

(** The characters of a decimal numeral are digits. *)
Lemma uint_chars (d : Decimal.uint) (c : ascii) :
  char_in c (NilEmpty.string_of_uint d) = true -> is_digit c = true.
Proof.
  induction d; cbn [NilEmpty.string_of_uint char_in]; try discriminate;
    intros [E|H]%orb_prop; try (apply IHd, H);
    apply Ascii.eqb_eq in E; subst c; reflexivity.
Qed.

Lemma str_of_nat_chars (n : nat) (c : ascii) :
  char_in c (str_of_nat n) = true -> is_digit c = true.
Proof.
  unfold str_of_nat, NilZero.string_of_uint.
  destruct (Nat.to_uint n) eqn:E; try (rewrite <- E; apply uint_chars).
  cbn. rewrite orb_false_r. intros H. apply Ascii.eqb_eq in H. subst c. reflexivity.
Qed.

Lemma digit_not_int_space (c : ascii) : is_digit c = true -> is_int_space c = false.
Proof.
  intros H. apply negb_true_iff. revert c H.
  enough (forall c, implb (is_digit c) (negb (is_int_space c)) = true) as E.
  { intros c H. specialize (E c). rewrite H in E. exact E. }
  apply CharFacts.forall_char. vm_compute. reflexivity.
Qed.

Lemma int_lstrip_no_space (s : string) :
  (forall c, char_in c s = true -> is_int_space c = false) -> int_lstrip s = s.
Proof.
  destruct s as [|c r]; [reflexivity|]. intros H. cbn [int_lstrip].
  rewrite (H c); [reflexivity|]. cbn. rewrite Ascii.eqb_refl. reflexivity.
Qed.

Lemma int_rstrip_no_space (s : string) :
  (forall c, char_in c s = true -> is_int_space c = false) -> int_rstrip s = s.
Proof.
  induction s as [|c r IH]; [reflexivity|]. intros H. cbn [int_rstrip].
  rewrite IH.
  - destruct r; [|reflexivity]. rewrite (H c); [reflexivity|].
    cbn. rewrite Ascii.eqb_refl. reflexivity.
  - intros d Hd. apply H. cbn. rewrite Hd. apply orb_true_r.
Qed.

Lemma int_strip_no_space (s : string) :
  (forall c, char_in c s = true -> is_int_space c = false) -> int_strip s = s.
Proof.
  intros H. unfold int_strip.
  rewrite int_lstrip_no_space, int_rstrip_no_space by exact H.
  reflexivity.
Qed.

(** Without a sign in front, [int] reads the digits. *)
Lemma int_of_str_unsigned (c : ascii) (r : string) :
  int_strip (String c r) = String c r -> is_digit c = true ->
  int_of_str (String c r) = unsigned_int (String c r).
Proof.
  intros Hs Hc. unfold int_of_str. rewrite Hs.
  destruct c as [[] [] [] [] [] [] [] []]; try discriminate Hc; reflexivity.
Qed.

Lemma digits_uint (d : Decimal.uint) (acc : nat) :
  digits (Z.of_nat acc) true (NilEmpty.string_of_uint d)
  = Some (Z.of_nat (Nat.of_uint_acc d acc)).
Proof.
  revert acc.
  induction d; intros acc; cbn [NilEmpty.string_of_uint Nat.of_uint_acc digits];
    [reflexivity|..];
    match goal with
    | |- context [is_digit ?c] =>
        change (is_digit c) with true; cbv iota;
        rewrite <- IHd; f_equal; rewrite ?Nat2Z.inj_succ, Nat.tail_mul_spec;
        change (digit_val c) with (Z.of_N (code c) - 48); cbn [code]
    end;
    rewrite Nat2Z.inj_mul; cbn; lia.
Qed.

(** A numeral has as many digits as characters. *)
Lemma count_digits_uint (d : Decimal.uint) :
  count_digits (NilEmpty.string_of_uint d) = Z.of_nat (Decimal.nb_digits d).
Proof.
  induction d; cbn [NilEmpty.string_of_uint count_digits Decimal.nb_digits];
    [reflexivity|..];
    match goal with
    | |- context [is_digit ?c] => change (is_digit c) with true; cbv iota
    end;
    rewrite IHd; lia.
Qed.

Lemma length_uint (d : Decimal.uint) :
  String.length (NilEmpty.string_of_uint d) = Decimal.nb_digits d.
Proof.
  induction d; cbn [NilEmpty.string_of_uint String.length Decimal.nb_digits];
    congruence.
Qed.

Lemma unsigned_uint (d : Decimal.uint) :
  d <> Decimal.Nil ->
  unsigned_int (NilEmpty.string_of_uint d)
  = if Z.of_nat (Decimal.nb_digits d) <=? int_max_str_digits
    then Some (Z.of_nat (Nat.of_uint d)) else None.
Proof.
  intros Hd. rewrite <- count_digits_uint. unfold Nat.of_uint.
  destruct d; [contradiction|..];
    cbn [NilEmpty.string_of_uint unsigned_int];
    match goal with
    | |- context [is_digit ?c] => change (is_digit c) with true; cbv iota
    end;
    (destruct (_ <=? _); [|reflexivity]);
    cbn [Nat.of_uint_acc digits];
    match goal with
    | |- context [is_digit ?c] => change (is_digit c) with true; cbv iota
    end;
    rewrite <- digits_uint; f_equal.
Qed.

(** The numeral of a number is never empty, and starts with [0] only for 0. *)
Lemma to_uint_nonnil (n : nat) : Nat.to_uint n <> Decimal.Nil.
Proof.
  rewrite <- (DecimalNat.Unsigned.of_to n) at 1.
  rewrite DecimalNat.Unsigned.to_of. apply DecimalFacts.unorm_nonnil.
Qed.

Lemma to_uint_zero (n : nat) (d : Decimal.uint) :
  Nat.to_uint n = Decimal.D0 d -> n = 0%nat /\ d = Decimal.Nil.
Proof.
  intros E. pose proof (DecimalNat.Unsigned.to_of (Nat.to_uint n)) as H.
  rewrite DecimalNat.Unsigned.of_to in H. rewrite E in H.
  unfold Decimal.unorm in H.
  destruct (Decimal.nzhead (Decimal.D0 d)) eqn:Ez;
    try discriminate H;
    try (exfalso; exact (DecimalFacts.nzhead_nonzero _ _ Ez)).
  injection H as H. subst d. split; [|reflexivity].
  rewrite <- (DecimalNat.Unsigned.of_to n), E. reflexivity.
Qed.

(** The value of a numeral read after [acc]. *)
Lemma of_uint_acc_bounds (d : Decimal.uint) (acc : nat) :
  Z.of_nat acc * 10 ^ Z.of_nat (Decimal.nb_digits d)
  <= Z.of_nat (Nat.of_uint_acc d acc)
  < (Z.of_nat acc + 1) * 10 ^ Z.of_nat (Decimal.nb_digits d).
Proof.
  revert acc.
  induction d; intros acc; cbn [Nat.of_uint_acc Decimal.nb_digits];
    [cbn; lia|..];
    rewrite Nat2Z.inj_succ, Z.pow_succ_r by lia;
    rewrite Nat.tail_mul_spec;
    match goal with
    | |- context [Nat.of_uint_acc d ?a] =>
        specialize (IHd a); set (v := Z.of_nat (Nat.of_uint_acc d a)) in *
    end;
    rewrite ?Nat2Z.inj_succ, Nat2Z.inj_mul in IHd;
    change (Z.of_nat 10) with 10 in IHd;
    pose proof (Z.pow_pos_nonneg 10 (Z.of_nat (Decimal.nb_digits d))
                  ltac:(lia) ltac:(lia));
    set (p := 10 ^ Z.of_nat (Decimal.nb_digits d)) in *;
    nia.
Qed.

(** As many digits as the size of the number asks for. *)
Lemma nb_digits_le (n : nat) (k : Z) :
  0 < k ->
  Z.of_nat (Decimal.nb_digits (Nat.to_uint n)) <= k <-> Z.of_nat n < 10 ^ k.
Proof.
  intros Hk. pose proof (DecimalNat.Unsigned.of_to n) as Hn.
  pose proof (to_uint_zero n) as Hz.
  pose proof (Z.pow_pos_nonneg 10 k ltac:(lia) ltac:(lia)) as Hpos.
  unfold Nat.of_uint in Hn.
  destruct (Nat.to_uint n) as [|d|d|d|d|d|d|d|d|d|d] eqn:E;
    [exact (False_ind _ (to_uint_nonnil n E))
    |destruct (Hz d eq_refl) as [-> ->]; cbn [Decimal.nb_digits]; lia
    |..];
    clear Hz; cbn [Nat.of_uint_acc Decimal.nb_digits] in *;
    change (Nat.tail_mul 10 0) with 0%nat in Hn;
    match type of Hn with
    | Nat.of_uint_acc d ?a = _ => pose proof (of_uint_acc_bounds d a) as Hb
    end;
    rewrite Hn in Hb; rewrite Nat2Z.inj_succ;
    set (m := Z.of_nat (Decimal.nb_digits d)) in *;
    assert (0 <= m) as Hm by (subst m; lia);
    pose proof (Z.pow_pos_nonneg 10 m ltac:(lia) Hm) as Hpm;
    (split; intros H;
     [ assert (10 ^ Z.succ m <= 10 ^ k) by (apply Z.pow_le_mono_r; lia);
       rewrite Z.pow_succ_r in * by lia; nia
     | destruct (Z.le_gt_cases (Z.succ m) k) as [|Hgt]; [assumption|];
       assert (10 ^ k <= 10 ^ m) by (apply Z.pow_le_mono_r; lia);
       nia ]).
Qed.

Lemma str_of_nat_length (n : nat) :
  String.length (str_of_nat n) = Decimal.nb_digits (Nat.to_uint n).
Proof.
  pose proof (to_uint_nonnil n) as H.
  unfold str_of_nat, NilZero.string_of_uint.
  destruct (Nat.to_uint n) eqn:E; [contradiction|..]; rewrite <- E at 1;
    rewrite length_uint, E; reflexivity.
Qed.

(** The text of a number has at most [k] characters exactly when the number
    is below [10 ^ k]. *)
Lemma str_of_nat_short (n : nat) (k : Z) :
  0 < k -> Z.of_nat (String.length (str_of_nat n)) <= k <-> Z.of_nat n < 10 ^ k.
Proof. rewrite str_of_nat_length. apply nb_digits_le. Qed.

(** [int(str(n)) == n] up to the limit on the number of digits. *)
Lemma int_of_str_of_nat (n : nat) :
  int_of_str (str_of_nat n)
  = if Z.of_nat n <? 10 ^ int_max_str_digits then Some (Z.of_nat n) else None.
Proof.
  assert (int_strip (str_of_nat n) = str_of_nat n) as Hs.
  { apply int_strip_no_space. intros c Hc.
    apply digit_not_int_space, (str_of_nat_chars n), Hc. }
  pose proof (DecimalNat.Unsigned.of_to n) as Hn.
  pose proof (nb_digits_le n int_max_str_digits eq_refl) as Hlen.
  pose proof (to_uint_nonnil n) as Hnil.
  assert (unsigned_int (str_of_nat n)
          = if Z.of_nat n <? 10 ^ int_max_str_digits
            then Some (Z.of_nat n) else None) as Hu.
  { unfold str_of_nat, NilZero.string_of_uint.
    destruct (Nat.to_uint n) eqn:E; [contradiction|..]; rewrite <- E in *;
      rewrite (unsigned_uint _ Hnil), Hn;
      destruct (Z.leb_spec (Z.of_nat (Decimal.nb_digits (Nat.to_uint n)))
                  int_max_str_digits),
               (Z.ltb_spec (Z.of_nat n) (10 ^ int_max_str_digits));
      try reflexivity; exfalso; tauto || lia. }
  rewrite <- Hu.
  unfold str_of_nat, NilZero.string_of_uint in *.
  destruct (Nat.to_uint n) eqn:E; [contradiction|..];
    cbn [NilEmpty.string_of_uint] in *;
    (apply int_of_str_unsigned; [exact Hs | reflexivity]).
Qed.

(** Small numbers are below the limit. *)
Lemma below_limit (n : nat) :
  Z.of_nat n <= 65535 -> (Z.of_nat n <? 10 ^ int_max_str_digits) = true.
Proof.
  intros H. apply Z.ltb_lt.
  assert (10 ^ 5 <= 10 ^ int_max_str_digits) as Hp
    by (apply Z.pow_le_mono_r; [lia | unfold int_max_str_digits; lia]).
  change (10 ^ 5) with 100000 in Hp.
  set (limit := 10 ^ int_max_str_digits) in *. clearbody limit. lia.
Qed.

(** *** [split] on a separator *)

Lemma append_nil_l (t : string) : "" +:+ t = t.
Proof. reflexivity. Qed.

Lemma append_cons (c : ascii) (s t : string) : String c s +:+ t = String c (s +:+ t).
Proof. reflexivity. Qed.

Lemma append_nil_r (s : string) : s +:+ "" = s.
Proof.
  induction s as [|x s IH]; [reflexivity|]. rewrite append_cons, IH. reflexivity.
Qed.

Lemma append_assoc (a b c : string) : (a +:+ b) +:+ c = a +:+ (b +:+ c).
Proof.
  induction a as [|x a IH]; [reflexivity|]. rewrite !append_cons, IH. reflexivity.
Qed.

Lemma fields_app (sep : ascii) (cur s t : string) :
  fields sep cur (s +:+ String sep t) = fields sep cur s ++ fields sep "" t.
Proof.
  revert cur. induction s as [|c s IH]; intros cur.
  - rewrite append_nil_l. cbn [fields]. rewrite Ascii.eqb_refl. reflexivity.
  - rewrite append_cons. cbn [fields]. destruct (Ascii.eqb c sep); [|apply IH].
    cbn [app]. f_equal. apply IH.
Qed.

Lemma fields_one (sep : ascii) (cur s : string) :
  char_in sep s = false -> fields sep cur s = [cur +:+ s].
Proof.
  revert cur. induction s as [|c s IH]; intros cur; cbn [fields char_in].
  - intros _. rewrite append_nil_r. reflexivity.
  - intros [E H]%orb_false_elim. rewrite Ascii.eqb_sym, E.
    rewrite IH by exact H. rewrite append_assoc. reflexivity.
Qed.

Lemma split_on_app (sep : ascii) (s t : string) :
  split_on sep (s +:+ String sep t) = split_on sep s ++ split_on sep t.
Proof. apply fields_app. Qed.

Lemma split_on_one (sep : ascii) (s : string) :
  char_in sep s = false -> split_on sep s = [s].
Proof. apply (fields_one sep ""). Qed.

Lemma char_in_app (c : ascii) (s t : string) :
  char_in c (s +:+ t) = char_in c s || char_in c t.
Proof.
  induction s as [|x s IH]; [reflexivity|].
  rewrite append_cons. cbn [char_in]. rewrite IH. apply orb_assoc.
Qed.

Lemma str_of_nat_sep (sep : ascii) (n : nat) :
  is_digit sep = false -> char_in sep (str_of_nat n) = false.
Proof.
  intros H. destruct (char_in sep (str_of_nat n)) eqn:E; [|reflexivity].
  apply str_of_nat_chars in E. congruence.
Qed.

End NumberFacts.


(** ** The Nmap simulator *)

Module NmapFacts.
Import Py PyExt NmapSimulator NumberFacts.

Lemma all_octets_spec (parts : list string) :
  all_octets parts = Some true
  <-> Forall (fun part => exists n, int_of_str part = Some n /\ 0 <= n <= 255) parts.
Proof.
  induction parts as [|part parts IH]; cbn [all_octets].
  - split; [constructor | reflexivity].
  - destruct (int_of_str part) as [n|] eqn:E.
    + destruct (Z.leb_spec 0 n) as [Hlo|Hlo], (Z.leb_spec n 255) as [Hhi|Hhi];
        cbn [andb].
      * rewrite IH. split.
        -- intros Hall. constructor; [exists n; split; [exact E | lia] | exact Hall].
        -- intros Hall. inversion Hall. assumption.
      * split; [discriminate|]. intros Hall.
        inversion Hall as [|? ? (m & Em & Hm)]. rewrite E in Em. injection Em as <-. lia.
      * split; [discriminate|]. intros Hall.
        inversion Hall as [|? ? (m & Em & Hm)]. rewrite E in Em. injection Em as <-. lia.
      * split; [discriminate|]. intros Hall.
        inversion Hall as [|? ? (m & Em & Hm)]. rewrite E in Em. injection Em as <-. lia.
    + split; [discriminate|]. intros Hall.
      inversion Hall as [|? ? (m & Em & _)]. rewrite E in Em. discriminate Em.
Qed.

Lemma split_dotted (a b c d : nat) :
  split_on "." (Props.dotted a b c d)
  = [str_of_nat a; str_of_nat b; str_of_nat c; str_of_nat d].
Proof.
  unfold Props.dotted.
  rewrite !(append_cons "." ""), !append_nil_l.
  rewrite !split_on_app, !split_on_one by (apply str_of_nat_sep; reflexivity).
  reflexivity.
Qed.

(** One more octet in front: a number above 255 ends the check, by [False]
    or by the [ValueError] of a numeral that is too long. *)
Lemma octet (n : nat) (rest : list string) :
  match all_octets (str_of_nat n :: rest) with Some b => b | None => false end
  = (n <=? 255)%nat
    && match all_octets rest with Some b => b | None => false end.
Proof.
  cbn [all_octets]. rewrite int_of_str_of_nat.
  destruct (Nat.leb_spec n 255) as [Hn|Hn]; cbn [andb].
  - rewrite below_limit by lia.
    destruct (Z.leb_spec 0 (Z.of_nat n)); [|lia].
    destruct (Z.leb_spec (Z.of_nat n) 255); [|lia]. reflexivity.
  - destruct (Z.of_nat n <? 10 ^ int_max_str_digits); [|reflexivity].
    destruct (Z.leb_spec 0 (Z.of_nat n)); [|lia].
    destruct (Z.leb_spec (Z.of_nat n) 255); [lia|]. reflexivity.
Qed.

Lemma int_lstrip_chars (c : ascii) (s : string) :
  char_in c (int_lstrip s) = true -> char_in c s = true.
Proof.
  induction s as [|x s IH]; cbn [int_lstrip char_in]; [discriminate|].
  destruct (is_int_space x); [|exact (fun H => H)].
  intros H. rewrite (IH H). apply orb_true_r.
Qed.

Lemma int_rstrip_chars (c : ascii) (s : string) :
  char_in c (int_rstrip s) = true -> char_in c s = true.
Proof.
  induction s as [|x s IH]; cbn [int_rstrip char_in]; [discriminate|].
  destruct (int_rstrip s) as [|y r].
  - destruct (is_int_space x); cbn [char_in]; [discriminate|].
    rewrite orb_false_r. intros ->. reflexivity.
  - cbn [char_in] in *. intros [->|H]%orb_prop; [reflexivity|].
    rewrite (IH H). apply orb_true_r.
Qed.

Lemma int_strip_chars (c : ascii) (s : string) :
  char_in c s = false -> char_in c (int_strip s) = false.
Proof.
  intros H. destruct (char_in c (int_strip s)) eqn:E; [|reflexivity].
  apply int_rstrip_chars, int_lstrip_chars in E. congruence.
Qed.

Lemma digits_nonneg (s : string) (acc : Z) (b : bool) (n : Z) :
  0 <= acc -> digits acc b s = Some n -> 0 <= n.
Proof.
  revert acc b. induction s as [|c s IH]; intros acc b Hacc; cbn [digits].
  - destruct b; [intros [= <-]; exact Hacc | discriminate].
  - destruct (is_digit c) eqn:Hc.
    + apply IH. pose proof (digit_val_nonneg c Hc). lia.
    + destruct (Ascii.eqb c "_"); [|discriminate].
      destruct b; [apply IH, Hacc | discriminate].
Qed.

Lemma unsigned_nonneg (s : string) (n : Z) : unsigned_int s = Some n -> 0 <= n.
Proof.
  unfold unsigned_int. destruct s as [|c r]; [discriminate|].
  destruct (is_digit c); [|discriminate].
  destruct (_ <=? _); [|discriminate]. apply digits_nonneg. lia.
Qed.

(** Without a minus sign in the text, [int] is not negative. *)
Lemma int_nonneg (s : string) (n : Z) :
  char_in "-" s = false -> int_of_str s = Some n -> 0 <= n.
Proof.
  intros H. apply (int_strip_chars "-") in H. unfold int_of_str.
  destruct (int_strip s) as [|c r]; [discriminate|].
  destruct c as [[] [] [] [] [] [] [] []]; try discriminate H;
    apply unsigned_nonneg.
Qed.

Lemma fields_no_sep (sep : ascii) (cur s : string) :
  char_in sep cur = false ->
  Forall (fun f => char_in sep f = false) (fields sep cur s).
Proof.
  revert cur. induction s as [|c s IH]; intros cur Hcur; cbn [fields].
  - constructor; [exact Hcur | constructor].
  - destruct (Ascii.eqb c sep) eqn:E.
    + constructor; [exact Hcur | apply IH; reflexivity].
    + apply IH. rewrite char_in_app, Hcur. cbn. rewrite Ascii.eqb_sym, E. reflexivity.
Qed.

Lemma range_from (a x : Z) (b : Z) : In x (range a b) -> a <= x.
Proof.
  unfold range. intros (i & <- & _)%in_map_iff. lia.
Qed.

Lemma range_nat (a k : nat) :
  map (fun i => Z.of_nat a + Z.of_nat i) (seq 0 k) = map Z.of_nat (seq a k).
Proof.
  revert a. induction k as [|k IH]; intros a; [reflexivity|].
  cbn [seq map]. f_equal; [lia|].
  rewrite <- seq_shift, map_map, <- IH. apply map_ext. intros i. lia.
Qed.

Lemma ports_of_part_nonneg (part : string) : Forall (fun p => 0 <= p) (ports_of_part part).
Proof.
  unfold ports_of_part. destruct (char_in "-" part) eqn:E.
  - pose proof (fields_no_sep "-" "" part eq_refl) as Hf. fold (split_on "-" part) in Hf.
    destruct (split_on "-" part) as [|first [|last [|? ?]]]; try constructor.
    inversion Hf as [|? ? Hfirst _]. subst.
    destruct (int_of_str first) as [a|] eqn:Ea; [|constructor].
    destruct (int_of_str last) as [b|]; [|constructor].
    apply List.Forall_forall. intros x Hx%range_from.
    pose proof (int_nonneg first a Hfirst Ea). lia.
  - destruct (int_of_str part) as [n|] eqn:En; [|constructor].
    constructor; [|constructor]. apply (int_nonneg part n E En).
Qed.

Lemma parse_ports_one (part : string) :
  char_in "," part = false -> _parse_ports part = ports_of_part part.
Proof.
  intros H. unfold _parse_ports. rewrite split_on_one by exact H.
  cbn [flat_map]. apply app_nil_r.
Qed.

End NmapFacts.

(** X17.  [_is_valid_ip] accepts the text of four numbers joined by dots
    exactly when each is at most 255.  An ASCII text is accepted exactly when
    it is made of four parts that [int] reads as numbers from 0 to 255: this
    lets signs, blanks and underscores through, and not the separators
    FS..US that [strip] would drop. *)
Theorem X17_valid_ip :
  (forall a b c d : nat,
      NmapSimulator._is_valid_ip (Props.dotted a b c d)
      = (a <=? 255)%nat && (b <=? 255)%nat && (c <=? 255)%nat && (d <=? 255)%nat)
  /\ (forall ip : string,
         Py.is_ascii ip = true ->
         (NmapSimulator._is_valid_ip ip = true
          <-> length (PyExt.split_on "." ip) = 4%nat
              /\ Forall (fun part =>
                           exists n, Py.int_of_str part = Some n /\ 0 <= n <= 255)
                   (PyExt.split_on "." ip)))
  /\ NmapSimulator._is_valid_ip " 1.+2.0_3.-0" = true
  /\ NmapSimulator._is_valid_ip (String "028" "1.2.3.4") = false.
Proof.
  split; [|split; [|split; reflexivity]].
  - intros a b c d. unfold NmapSimulator._is_valid_ip.
    rewrite NmapFacts.split_dotted. cbn [length Nat.eqb negb].
    rewrite !NmapFacts.octet. cbn [NmapSimulator.all_octets].
    rewrite andb_true_r, !andb_assoc. reflexivity.
  - intros ip _. unfold NmapSimulator._is_valid_ip.
    rewrite <- NmapFacts.all_octets_spec.
    destruct (Nat.eqb_spec (length (PyExt.split_on "." ip)) 4); cbn [negb].
    + destruct (NmapSimulator.all_octets _) as [[]|]; split; try tauto;
        try discriminate; intros [_ H]; discriminate H.
    + split; [discriminate | tauto].
Qed.

(** X18.  [_parse_ports] reads the parts between commas one by one.  The
    numeral of [n] is read as [n] as long as [int] reads it, that is up to
    4300 digits, and adds nothing beyond; the numerals of [a] and [b] joined
    by [-] are read as the ports from [a] to [b] (none when [b < a]), for
    [b] up to the highest port 65535.  A part [int] refuses adds nothing.
    Whatever the text, it never returns a negative port. *)
Theorem X18_parse_ports :
  (forall s t : string,
      NmapSimulator._parse_ports (s +:+ "," +:+ t)
      = NmapSimulator._parse_ports s ++ NmapSimulator._parse_ports t)
  /\ (forall n : nat,
         NmapSimulator._parse_ports (Py.str_of_nat n)
         = if Z.of_nat n <? 10 ^ Py.int_max_str_digits then [Z.of_nat n] else [])
  /\ (forall n : nat,
         Z.of_nat n <= 65535 ->
         NmapSimulator._parse_ports (Py.str_of_nat n) = [Z.of_nat n])
  /\ (forall a b : nat,
         Z.of_nat b <= 65535 ->
         NmapSimulator._parse_ports (Py.str_of_nat a +:+ "-" +:+ Py.str_of_nat b)
         = map Z.of_nat (seq a (S b - a)))
  /\ NmapSimulator._parse_ports (String "028" "80") = []
  /\ (forall port_str : string,
         Forall (fun p => 0 <= p) (NmapSimulator._parse_ports port_str)).
Proof.
  assert (forall n : nat,
             NmapSimulator._parse_ports (Py.str_of_nat n)
             = if Z.of_nat n <? 10 ^ Py.int_max_str_digits
               then [Z.of_nat n] else []) as Hone.
  { intros n. rewrite NmapFacts.parse_ports_one
      by (apply NumberFacts.str_of_nat_sep; reflexivity).
    unfold NmapSimulator.ports_of_part.
    rewrite NumberFacts.str_of_nat_sep by reflexivity.
    rewrite NumberFacts.int_of_str_of_nat.
    destruct (_ <? _); reflexivity. }
  split; [|split; [|split; [|split; [|split]]]].
  - intros s t. unfold NmapSimulator._parse_ports.
    rewrite (NumberFacts.append_cons "," ""), NumberFacts.append_nil_l.
    rewrite NumberFacts.split_on_app. apply flat_map_app.
  - exact Hone.
  - intros n Hn. rewrite Hone, NumberFacts.below_limit by exact Hn. reflexivity.
  - intros a b Hb.
    rewrite (NumberFacts.append_cons "-" ""), NumberFacts.append_nil_l.
    rewrite NmapFacts.parse_ports_one.
    2:{ rewrite NumberFacts.char_in_app. cbn [Py.char_in].
        rewrite !NumberFacts.str_of_nat_sep by reflexivity. reflexivity. }
    unfold NmapSimulator.ports_of_part.
    rewrite NumberFacts.char_in_app. cbn [Py.char_in].
    rewrite Ascii.eqb_refl, orb_true_r. cbn [orb].
    rewrite NumberFacts.split_on_app,
      !NumberFacts.split_on_one by (apply NumberFacts.str_of_nat_sep; reflexivity).
    cbn [app]. rewrite !NumberFacts.int_of_str_of_nat.
    rewrite (NumberFacts.below_limit b) by exact Hb.
    destruct (Z.of_nat a <? _) eqn:Ea.
    + unfold PyExt.range.
      replace (Z.to_nat (Z.of_nat b + 1 - Z.of_nat a)) with (S b - a)%nat by lia.
      apply NmapFacts.range_nat.
    + destruct (Z.le_gt_cases (Z.of_nat a) 65535) as [Ha|Ha].
      * rewrite NumberFacts.below_limit in Ea by exact Ha. discriminate Ea.
      * replace (S b - a)%nat with 0%nat by lia. reflexivity.
  - reflexivity.
  - intros port_str. unfold NmapSimulator._parse_ports.
    induction (PyExt.split_on "," port_str) as [|part parts IH]; cbn [flat_map];
      [constructor|].
    apply Forall_app. split; [apply NmapFacts.ports_of_part_nonneg | exact IH].
Qed.

(** X19.  [scan] raises exactly when the target is a configured one and
    the option [p] has no value: the [True] that [parse] stores for a bare
    [-p] has no [split].  So [nmap <configured target> -p] typed at the
    prompt ends in an [AttributeError]; an unknown target never does, and
    never scans with success. *)
Theorem X19_scan_bare_port_option :
  (forall (target : string) (options : list (string * CommandParser.option_value)),
      (exists e, NmapSimulator.scan target options = Exn.Raise e)
      <-> Py.has_key target NmapSimulator.network_configs = true
          /\ Py.get "p" options = Some CommandParser.Flag)
  /\ (forall (target : string) (p : CommandParser.parser),
         Py.has_key target NmapSimulator.network_configs = true ->
         let '(command, args, options) :=
           fst (CommandParser.parse ("nmap " +:+ target +:+ " -p") p) in
         command = "nmap"
         /\ NmapSimulator.execute args options = Exn.Raise Exn.AttributeError)
  /\ (forall (target : string) (options : list (string * CommandParser.option_value)),
         Py.has_key target NmapSimulator.network_configs = false ->
         exists m, NmapSimulator.scan target options = Exn.Ok m
                   /\ NmapSimulator.success m = false).
Proof.
  split; [|split].
  - intros target options. unfold NmapSimulator.scan, Py.has_key.
    destruct (Py.get target NmapSimulator.network_configs) as [config|].
    + destruct (Py.get "p" options) as [[|port_str]|]; split;
        try (intros [e H]; discriminate H); try (intros [_ H]; discriminate H).
      * intros _. split; reflexivity.
      * intros _. exists Exn.AttributeError. reflexivity.
    + split; [intros [e H]; discriminate H | intros [H _]; discriminate H].
  - intros target p Hknown. apply StrFacts.has_key_In in Hknown. cbn in Hknown.
    destruct Hknown as [<-|[<-|[<-|[]]]]; vm_compute; split; reflexivity.
  - intros target options Hunknown. unfold NmapSimulator.scan, Py.has_key in *.
    destruct (Py.get target NmapSimulator.network_configs); [discriminate|].
    eexists. split; [reflexivity|]. unfold NmapSimulator._scan_unknown_target.
    destruct (NmapSimulator._is_valid_ip target); reflexivity.
Qed.


(** ** The mission manager *)

Module ManagerFacts.
Import Exn Json FS MissionManager.

Lemma skipn_nth {A} (l : list A) (h : nat) (x : A) :
  nth_error l h = Some x -> skipn h l = x :: skipn (S h) l.
Proof.
  revert h. induction l as [|y l IH]; intros [|h]; cbn; try discriminate.
  - intros [= ->]. reflexivity.
  - apply IH.
Qed.

Lemma skipn_none {A} (l : list A) (h : nat) :
  nth_error l h = None -> skipn h l = [].
Proof.
  intros H. apply skipn_all2, nth_error_None, H.
Qed.

(** One call of [use_hint] on a mission whose hints are a list. *)
Lemma use_hint_list (mission : json) (hints : list json) (ms : mission_state) :
  truthy mission = true ->
  SaveLoadManager.json_get mission "hints" (JList []) = Ok (JList hints) ->
  use_hint (mkManager mission (Some ms))
  = match nth_error hints (hints_used ms) with
    | Some hint =>
        (Ok hint,
         mkManager mission
           (Some (mkMissionState (objectives_completed ms) (S (hints_used ms))
                    (attempts ms))))
    | None => (Ok JNull, mkManager mission (Some ms))
    end.
Proof.
  intros Ht Hh. unfold use_hint, bind, gets, of_result, the_state, count_hint, modify, ret.
  cbn [current_mission state]. rewrite Ht, Hh. cbn -[nth_error].
  destruct (nth_error hints (hints_used ms)); reflexivity.
Qed.

Lemma use_hints_list (mission : json) (hints : list json) (k : nat) (ms : mission_state) :
  truthy mission = true ->
  SaveLoadManager.json_get mission "hints" (JList []) = Ok (JList hints) ->
  let rest := skipn (hints_used ms) hints in
  Props.use_hints k (mkManager mission (Some ms))
  = (map Ok (firstn k rest) ++ repeat (Ok JNull) (k - length rest),
     mkManager mission
       (Some (mkMissionState (objectives_completed ms)
                (hints_used ms + Nat.min k (length rest)) (attempts ms)))).
Proof.
  intros Ht Hh. cbv zeta. revert ms.
  induction k as [|k IH]; intros [done used tries]; cbn [Props.use_hints].
  - cbn. rewrite Nat.add_0_r. reflexivity.
  - rewrite (use_hint_list _ _ _ Ht Hh). cbn [hints_used objectives_completed attempts].
    destruct (nth_error hints used) as [hint|] eqn:E.
    + rewrite IH. cbn [hints_used objectives_completed attempts].
      rewrite (skipn_nth _ _ _ E). cbn [firstn map app length Nat.sub Nat.min].
      rewrite Nat.add_succ_r. reflexivity.
    + rewrite IH. cbn [hints_used objectives_completed attempts].
      rewrite (skipn_none _ _ E). cbn [length]. rewrite !firstn_nil, !Nat.min_0_r.
      cbn [map app]. rewrite !Nat.sub_0_r, !Nat.add_0_r. reflexivity.
Qed.

Lemma complete_all_fresh (mission : json) (ids done : list string) (used tries : nat) :
  NoDup (done ++ ids) ->
  Props.complete_all ids (mkManager mission (Some (mkMissionState done used tries)))
  = (repeat (Ok true) (length ids),
     mkManager mission (Some (mkMissionState (done ++ ids) used tries))).
Proof.
  revert done. induction ids as [|x ids IH]; intros done Hnodup; cbn [Props.complete_all].
  - rewrite app_nil_r. reflexivity.
  - unfold complete_objective at 1. unfold bind, the_state, modify, ret.
    cbn [state objectives_completed hints_used attempts current_mission].
    assert (Py.str_in x done = false) as ->.
    { destruct (Py.str_in x done) eqn:E; [|reflexivity].
      apply StrFacts.str_in_In in E. apply NoDup_app in Hnodup as (_ & Hd & _).
      exfalso. apply (Hd x); [apply list_elem_of_In, E | left]. }
    cbn [negb]. rewrite IH by (rewrite <- app_assoc; exact Hnodup).
    rewrite <- app_assoc. reflexivity.
Qed.

(** The body of the [try] in [load_mission], file by file. *)
Lemma try_file_spec (mission_id filename : string) (m : manager) (st : fs) :
  try_file mission_id filename (m, st)
  = match files st !! path_join missions_dir filename with
    | Some (Text mission) =>
        match SaveLoadManager.json_get mission "id" JNull with
        | Ok id =>
            if is_str mission_id id
            then (Ok (Some mission), (Props.loaded mission, st))
            else (Ok None, (m, st))
        | Raise e => (Raise e, (m, st))
        end
    | Some Garbage => (Raise JSONDecodeError, (m, st))
    | Some Unreadable | None => (Raise OSError, (m, st))
    end.
Proof.
  unfold try_file, bind, on_disk, read_json, of_result, modify, ret. cbn [fst snd].
  destruct (files st !! path_join missions_dir filename) as [[mission| |]|];
    try reflexivity.
  destruct (SaveLoadManager.json_get mission "id" JNull) as [id|e]; [|reflexivity].
  destruct (is_str mission_id id); reflexivity.
Qed.

Lemma is_str_eq (key : string) (x : json) : is_str key x = true -> x = JStr key.
Proof.
  destruct x; cbn; try discriminate. intros H. apply String.eqb_eq in H. congruence.
Qed.

Lemma load_first_spec (mission_id : string) (filenames : list string)
    (m : manager) (st : fs) :
  snd (snd (load_first mission_id filenames (m, st))) = st
  /\ Props.mission_found mission_id filenames m st
       (fst (load_first mission_id filenames (m, st)))
       (fst (snd (load_first mission_id filenames (m, st)))).
Proof.
  induction filenames as [|filename rest IH]; cbn [load_first].
  - split; [reflexivity|]. left. split; reflexivity.
  - assert (Props.mission_found mission_id rest m st
              (fst (load_first mission_id rest (m, st)))
              (fst (snd (load_first mission_id rest (m, st)))) ->
            Props.mission_found mission_id (filename :: rest) m st
              (fst (load_first mission_id rest (m, st)))
              (fst (snd (load_first mission_id rest (m, st))))) as Hweak.
    { unfold Props.mission_found. destruct (fst (load_first mission_id rest (m, st))); [|tauto].
      intros [H|(H1 & H2 & f & Hf & H3)]; [left; exact H|].
      right. split; [exact H1|]. split; [exact H2|]. exists f. cbn. tauto. }
    destruct (endswith "_config.json" filename) eqn:Hend;
      [|split; [apply IH | apply Hweak, IH]].
    unfold bind, try_except. rewrite try_file_spec.
    destruct (files st !! path_join missions_dir filename) as [[mission| |]|] eqn:Hfile;
      cbn [ret]; try (split; [apply IH | apply Hweak, IH]).
    destruct (SaveLoadManager.json_get mission "id" JNull) as [id|e] eqn:Hid;
      cbn [ret]; try (split; [apply IH | apply Hweak, IH]).
    destruct (is_str mission_id id) eqn:Hstr;
      cbn [ret]; try (split; [apply IH | apply Hweak, IH]).
    cbn [fst snd]. split; [reflexivity|]. right. split; [reflexivity|].
    split; [rewrite Hid, (is_str_eq _ _ Hstr); reflexivity|].
    exists filename. cbn. tauto.
Qed.

End ManagerFacts.

(** X20.  On a mission whose hints are a list, [use_hint] hands them out
    in order, one per call, and answers [None] from then on: the counter
    never passes their number. *)
Theorem X20_hints_in_order (mission : Json.json) (hints : list Json.json) (k : nat) :
  MissionManager.truthy mission = true ->
  SaveLoadManager.json_get mission "hints" (Json.JList []) = Exn.Ok (Json.JList hints) ->
  let (results, m) := Props.use_hints k (Props.loaded mission) in
  results = map Exn.Ok (firstn k hints) ++ repeat (Exn.Ok Json.JNull) (k - length hints)
  /\ MissionManager.current_mission m = mission
  /\ option_map MissionManager.hints_used (MissionManager.state m)
     = Some (Nat.min k (length hints)).
Proof.
  intros Ht Hh. unfold Props.loaded.
  rewrite (ManagerFacts.use_hints_list mission hints k _ Ht Hh). cbn.
  repeat split.
Qed.

Lemma X20_hints_in_order_witness :
  let mission :=
    Json.JDict [("id", Json.JStr "mission1");
                ("hints", Json.JList [Json.JStr "a"; Json.JStr "b"])] in
  let (results, m) := Props.use_hints 3 (Props.loaded mission) in
  results = map Exn.Ok (firstn 3 [Json.JStr "a"; Json.JStr "b"])
            ++ repeat (Exn.Ok Json.JNull) (3 - 2)
  /\ MissionManager.current_mission m = mission
  /\ option_map MissionManager.hints_used (MissionManager.state m) = Some (Nat.min 3 2).
Proof.
  apply (X20_hints_in_order
           (Json.JDict [("id", Json.JStr "mission1");
                        ("hints", Json.JList [Json.JStr "a"; Json.JStr "b"])])
           [Json.JStr "a"; Json.JStr "b"] 3); reflexivity.
Defined.

(** X21.  [complete_objective] accepts any id it has not seen, and
    [is_mission_complete] only counts: once as many distinct ids are
    completed as the mission has objectives, the mission is complete,
    whether or not the ids are those of its objectives.  Before a mission
    is loaded [complete_objective] raises [KeyError]. *)
Theorem X21_objectives_are_counted (mission : Json.json) (objectives : list Json.json)
    (ids : list string) :
  MissionManager.truthy mission = true ->
  SaveLoadManager.json_get mission "objectives" (Json.JList [])
  = Exn.Ok (Json.JList objectives) ->
  NoDup ids ->
  let (results, m) := Props.complete_all ids (Props.loaded mission) in
  results = repeat (Exn.Ok true) (length ids)
  /\ fst (MissionManager.is_mission_complete m)
     = Exn.Ok (length objectives <=? length ids)%nat
  /\ (forall objective_id,
         In objective_id ids ->
         MissionManager.complete_objective objective_id m = (Exn.Ok false, m))
  /\ (forall objective_id,
         fst (MissionManager.complete_objective objective_id MissionManager.init)
         = Exn.Raise Exn.KeyError).
Proof.
  intros Ht Ho Hnodup. unfold Props.loaded.
  rewrite (ManagerFacts.complete_all_fresh mission ids [] 0 0 Hnodup).
  cbn [app]. split; [reflexivity|]. split; [|split].
  - unfold MissionManager.is_mission_complete, Exn.bind, Exn.gets,
      MissionManager.of_result, MissionManager.the_state, Exn.ret.
    cbn [MissionManager.current_mission MissionManager.state
         MissionManager.objectives_completed].
    rewrite Ht, Ho. reflexivity.
  - intros objective_id Hin. apply StrFacts.str_in_In in Hin.
    unfold MissionManager.complete_objective, Exn.bind, MissionManager.the_state, Exn.ret.
    cbn [MissionManager.state MissionManager.objectives_completed].
    rewrite Hin. reflexivity.
  - reflexivity.
Qed.

Lemma X21_objectives_are_counted_witness :
  let mission :=
    Json.JDict [("id", Json.JStr "mission1");
                ("objectives", Json.JList [Json.JStr "scan"; Json.JStr "report"])] in
  let (results, m) := Props.complete_all ["x"; "y"] (Props.loaded mission) in
  results = repeat (Exn.Ok true) 2
  /\ fst (MissionManager.is_mission_complete m) = Exn.Ok (2 <=? 2)%nat
  /\ (forall objective_id,
         In objective_id ["x"; "y"] ->
         MissionManager.complete_objective objective_id m = (Exn.Ok false, m))
  /\ (forall objective_id,
         fst (MissionManager.complete_objective objective_id MissionManager.init)
         = Exn.Raise Exn.KeyError).
Proof.
  apply (X21_objectives_are_counted
           (Json.JDict [("id", Json.JStr "mission1");
                        ("objectives", Json.JList [Json.JStr "scan"; Json.JStr "report"])])
           [Json.JStr "scan"; Json.JStr "report"] ["x"; "y"]).
  - reflexivity.
  - reflexivity.
  - apply (bool_decide_unpack _). vm_compute. reflexivity.
Defined.

(** X22.  [load_mission] reads and never writes.  It raises only what
    [os.listdir] raises; a file that cannot be read, is not JSON, is not a
    dict or has another id is skipped.  [None] leaves the manager as it
    was; a mission returned is the content of a [*_config.json] file with
    the id asked for, and it replaces the current mission with a fresh
    state (no objective completed, no hint used). *)
Theorem X22_load_mission (mission_id : string) (m : MissionManager.manager)
    (st : FS.fs) :
  let r := fst (MissionManager.load_mission mission_id (m, st)) in
  let m' := fst (snd (MissionManager.load_mission mission_id (m, st))) in
  let st' := snd (snd (MissionManager.load_mission mission_id (m, st))) in
  st' = st
  /\ match r with
     | Exn.Raise e =>
         m' = m /\ FS.listdir st MissionManager.missions_dir = Exn.Raise e
     | Exn.Ok mission =>
         (mission = Json.JNull /\ m' = m)
         \/ (m' = Props.loaded mission
             /\ SaveLoadManager.json_get mission "id" Json.JNull
                = Exn.Ok (Json.JStr mission_id)
             /\ exists filename,
                  Json.endswith "_config.json" filename = true
                  /\ FS.files st !! FS.path_join MissionManager.missions_dir filename
                     = Some (FS.Text mission))
     end.
Proof.
  cbv zeta. unfold MissionManager.load_mission, Exn.bind, MissionManager.on_disk,
    FS.path_exists, Exn.gets, Exn.ret. cbn [fst snd].
  destruct (FS.files st !! MissionManager.missions_dir); cbn [negb fst snd];
    [|split; [reflexivity | left; split; reflexivity]].
  destruct (FS.listdir st MissionManager.missions_dir) as [filenames|e] eqn:Hl;
    cbn [fst snd]; [|split; [reflexivity | split; reflexivity]].
  destruct (ManagerFacts.load_first_spec mission_id filenames m st) as [Hst Hfound].
  split; [exact Hst|].
  unfold Props.mission_found in Hfound.
  destruct (fst (MissionManager.load_first mission_id filenames (m, st)));
    [|contradiction].
  destruct Hfound as [H|(H1 & H2 & filename & _ & H3 & H4)]; [left; exact H|].
  right. split; [exact H1|]. split; [exact H2|]. exists filename. split; assumption.
Qed.


(** ** The packets of [generate_packets] *)

Module PacketFacts.
Import Random NetworkGenerator PacketGenerator.

Lemma randbelow_range (n : Z) (r : rng) : 0 < n -> 0 <= fst (randbelow n r) < n.
Proof.
  intros Hn. unfold randbelow, next. cbn [fst]. apply Z.mod_pos_bound, Hn.
Qed.

Lemma randint_range (a b : Z) (r : rng) : a <= b -> a <= fst (randint a b r) <= b.
Proof.
  intros Hab. unfold randint.
  pose proof (randbelow_range (b - a + 1) r ltac:(lia)) as H.
  destruct (randbelow (b - a + 1) r) as [x r']. cbn [fst] in *. lia.
Qed.

Lemma choice_In {A} (d : A) (l : list A) (r : rng) : l <> [] -> In (fst (choice d l r)) l.
Proof.
  intros Hl. unfold choice.
  pose proof (randbelow_range (Z.of_nat (List.length l)) r) as H.
  destruct (randbelow (Z.of_nat (List.length l)) r) as [i r']. cbn [fst] in *.
  apply nth_In. destruct l; [contradiction|]. cbn [List.length] in *. lia.
Qed.

Lemma other_device (ds : list Device) (src : Device) :
  (2 <= List.length ds)%nat -> NoDup ds ->
  List.filter (fun d => negb (bool_decide (d = src))) ds <> [].
Proof.
  destruct ds as [|a [|b ds]]; cbn [List.length]; try lia. intros _ Hnodup.
  apply NoDup_cons in Hnodup as [Hab _].
  assert (a <> b) as Hne by (intros ->; apply Hab; left).
  cbn [List.filter].
  destruct (decide (a = src)) as [->|Ha].
  - rewrite (bool_decide_eq_true_2 _ eq_refl). cbn [negb].
    rewrite (bool_decide_eq_false_2 (b = src)) by congruence. discriminate.
  - rewrite (bool_decide_eq_false_2 _ Ha). discriminate.
Qed.

Lemma nodup_map {A B} (f : A -> B) (l : list A) : NoDup (map f l) -> NoDup l.
Proof.
  induction l as [|x l IH]; cbn [map]; [constructor|].
  intros [Hx Hl]%NoDup_cons. constructor; [|apply IH, Hl].
  intros Hin. apply Hx. apply list_elem_of_In, in_map, list_elem_of_In, Hin.
Qed.

Lemma map_injective {A B} (f : A -> B) (l : list A) (a b : A) :
  NoDup (map f l) -> In a l -> In b l -> f a = f b -> a = b.
Proof.
  induction l as [|x l IH]; cbn [map]; [intros _ []|].
  intros [Hx Hl]%NoDup_cons [<-|Ha] [<-|Hb] E; try reflexivity.
  - exfalso. apply Hx. rewrite E. apply list_elem_of_In, in_map, Hb.
  - exfalso. apply Hx. rewrite <- E. apply list_elem_of_In, in_map, Ha.
  - apply IH; assumption.
Qed.

Lemma pick_port_any (ports : list Z) (lo hi : Z) (r : rng) :
  exists p r', pick_port ports lo hi r = (p, r').
Proof. destruct (pick_port ports lo hi r) as [p r']. eauto. Qed.

(** One turn of the loop. *)
Lemma generate_packet_between (ds : list Device) (i : nat) (r : rng) :
  (2 <= List.length ds)%nat -> NoDup ds ->
  exists p r', generate_packet ds i r = Some (p, r')
               /\ Props.packet_between ds p
               /\ id p = "PKT_" +:+ PyExt.zero_pad 4 i.
Proof.
  intros Hlen Hnodup. unfold generate_packet, choice_of.
  destruct ds as [|d0 ds0] eqn:Eds; [cbn in Hlen; lia|]. rewrite <- Eds in *.
  pose proof (choice_In d0 ds r ltac:(rewrite Eds; discriminate)) as Hsrc.
  destruct (choice d0 ds r) as [src r1]. cbn [fst] in Hsrc.
  pose proof (other_device ds src Hlen Hnodup) as Hother.
  destruct (List.filter (fun d => negb (bool_decide (d = src))) ds) as [|e0 es] eqn:Ef;
    [contradiction|]. rewrite <- Ef in *.
  pose proof (choice_In e0 _ r1 Hother) as Hdst.
  destruct (choice e0 _ r1) as [dst r2]. cbn [fst] in Hdst.
  apply List.filter_In in Hdst as [Hdst Hne].
  apply negb_true_iff, bool_decide_eq_false in Hne.
  pose proof (choice_In "TCP" ["TCP"; "UDP"; "ICMP"] r2 ltac:(discriminate)) as Hproto.
  destruct (choice "TCP" ["TCP"; "UDP"; "ICMP"] r2) as [proto r3]. cbn [fst] in Hproto.
  assert (exists sp dp r5,
             (if Py.str_in proto ["TCP"; "UDP"]
              then let (src_port, r4) := pick_port (open_ports src) 1024 65535 r3 in
                   let (dst_port, r5) := pick_port (open_ports dst) 1 1024 r4 in
                   (src_port, dst_port, r5)
              else (0, 0, r3)) = (sp, dp, r5)
             /\ (proto = "ICMP" -> sp = 0 /\ dp = 0)) as (sp & dp & r5 & -> & Hicmp).
  { destruct (Py.str_in proto ["TCP"; "UDP"]) eqn:Ep.
    - destruct (pick_port (open_ports src) 1024 65535 r3) as [sp r4].
      destruct (pick_port (open_ports dst) 1 1024 r4) as [dp r5].
      exists sp, dp, r5. split; [reflexivity|]. intros ->. discriminate Ep.
    - exists 0, 0, r3. split; [reflexivity|]. intros _. split; reflexivity. }
  pose proof (randint_range 60 1500 r5 ltac:(lia)) as Hlength.
  destruct (randint 60 1500 r5) as [len r6]. cbn [fst] in Hlength.
  eexists. eexists. split; [reflexivity|]. split; [|reflexivity].
  exists src, dst. cbn [src_ip dst_ip is_suspicious protocol src_port dst_port
                        PacketGenerator.length payload].
  repeat split; try assumption; try lia; try (apply Hicmp; assumption).
  - intros E. apply Hne. symmetry. exact E.
  - destruct (negb (is_trusted src) || negb (is_trusted dst)); [|reflexivity].
    cbn [andb]. destruct (dp =? 23); discriminate.
  - intros ->. reflexivity.
Qed.

Lemma generate_from_between (ds : list Device) (n i : nat) (r : rng) :
  (2 <= List.length ds)%nat -> NoDup ds ->
  exists packets r',
    generate_from ds i n r = Some (packets, r')
    /\ Forall (Props.packet_between ds) packets
    /\ map id packets = map (fun k => "PKT_" +:+ PyExt.zero_pad 4 k) (seq i n).
Proof.
  intros Hlen Hnodup. revert i r.
  induction n as [|n IH]; intros i r; cbn [generate_from].
  - exists [], r. repeat split. constructor.
  - destruct (generate_packet_between ds i r Hlen Hnodup) as (p & r1 & -> & Hp & Hid).
    destruct (IH (S i) r1) as (rest & r2 & -> & Hrest & Hids).
    exists (p :: rest), r2. split; [reflexivity|]. split; [constructor; assumption|].
    cbn [map seq]. rewrite Hid, Hids. reflexivity.
Qed.

(** The devices of a Mission 1 network: their addresses, and which one is
    not trusted. *)
Lemma mission1_devices (r : rng) :
  let ds := devices (fst (generate_mission1_network r)) in
  map ip ds = Props.mission1_ips
  /\ Forall (fun d => is_trusted d = negb (String.eqb (ip d) "192.168.1.50")) ds.
Proof.
  cbv zeta. unfold generate_mission1_network.
  pose proof (GeneratorFacts.create_device_shape router 1 r) as H1.
  destruct (create_device router 1 r) as [d1 r1].
  pose proof (GeneratorFacts.create_device_shape player_pc 10 r1) as H2.
  destruct (create_device player_pc 10 r1) as [d2 r2].
  pose proof (GeneratorFacts.create_device_shape phone 20 r2) as H3.
  destruct (create_device phone 20 r2) as [d3 r3].
  pose proof (GeneratorFacts.create_device_shape iot_camera 30 r3) as H4.
  destruct (create_device iot_camera 30 r3) as [d4 r4].
  pose proof (GeneratorFacts.create_device_shape unknown_device 50 r4) as H5.
  destruct (create_device unknown_device 50 r4) as [d5 r5].
  destruct (randint 1000 9999 r5) as [n r6].
  cbv zeta in *. cbn [fst] in *.
  destruct H1 as (_ & I1 & _ & T1 & _), H2 as (_ & I2 & _ & T2 & _),
           H3 as (_ & I3 & _ & T3 & _), H4 as (_ & I4 & _ & T4 & _),
           H5 as (_ & I5 & _ & T5 & _).
  cbn [devices map]. rewrite I1, I2, I3, I4, I5.
  split; [reflexivity|].
  repeat constructor; rewrite ?I1, ?I2, ?I3, ?I4, ?I5, ?T1, ?T2, ?T3, ?T4, ?T5;
    reflexivity.
Qed.

End PacketFacts.

(** X23.  On a network of [generate_mission1_network], [generate_packets]
    returns exactly [count] packets, numbered [PKT_0000], [PKT_0001], ...
    Each goes between two different devices of the network, is ICMP with
    both ports 0 or TCP or UDP, has a length from 60 to 1500, is suspicious
    exactly when Device-Inconnu (192.168.1.50) sends or receives it, and
    says [NORMAL TRAFFIC] exactly when it is not.  With fewer than two
    devices the first turn of the loop raises [IndexError]. *)
Theorem X23_generated_packets :
  (forall (r0 r : Random.rng) (count : Z),
      let config := fst (NetworkGenerator.generate_mission1_network r0) in
      exists packets r',
        PacketGenerator.generate_packets config count r = Some (packets, r')
        /\ length packets = Z.to_nat count
        /\ Forall Props.packet_ok packets
        /\ map PacketGenerator.id packets
           = map (fun k => "PKT_" +:+ PyExt.zero_pad 4 k) (seq 0 (Z.to_nat count)))
  /\ (forall (config : NetworkGenerator.network_config) (r : Random.rng) (count : Z),
         (length (NetworkGenerator.devices config) <= 1)%nat ->
         0 < count ->
         PacketGenerator.generate_packets config count r = None).
Proof.
  split.
  - intros r0 r count. cbv zeta.
    destruct (PacketFacts.mission1_devices r0) as [Hips Htrust].
    set (ds := NetworkGenerator.devices (fst (NetworkGenerator.generate_mission1_network r0)))
      in *.
    assert (NoDup (map NetworkGenerator.ip ds)) as Hnodup.
    { rewrite Hips. apply (bool_decide_unpack _). vm_compute. reflexivity. }
    assert (2 <= length ds)%nat as Hlen.
    { rewrite <- (length_map NetworkGenerator.ip), Hips. cbn. lia. }
    destruct (PacketFacts.generate_from_between ds (Z.to_nat count) 0 r Hlen
                (PacketFacts.nodup_map _ _ Hnodup))
      as (packets & r' & Hgen & Hall & Hids).
    exists packets, r'. unfold PacketGenerator.generate_packets. fold ds.
    split; [exact Hgen|]. split; [|split; [|exact Hids]].
    + rewrite <- (length_map PacketGenerator.id), Hids, length_map, length_seq.
      reflexivity.
    + eapply Forall_impl; [exact Hall|].
      intros p (src & dst & Hsrc & Hdst & Hne & Es & Ed & Esus & Hproto & Hicmp
                & Hlength & Hpayload).
      rewrite List.Forall_forall in Htrust.
      unfold Props.packet_ok. rewrite Es, Ed.
      split; [rewrite <- Hips; apply in_map, Hsrc|].
      split; [rewrite <- Hips; apply in_map, Hdst|].
      split.
      { intros E. apply Hne.
        apply (PacketFacts.map_injective NetworkGenerator.ip ds); assumption. }
      split; [exact Hproto|]. split; [exact Hicmp|]. split; [exact Hlength|].
      split; [|exact Hpayload].
      rewrite Esus, (Htrust src Hsrc), (Htrust dst Hdst), !negb_involutive.
      reflexivity.
  - intros config r count Hlen Hcount.
    unfold PacketGenerator.generate_packets.
    destruct (Z.to_nat count) as [|n] eqn:En; [lia|].
    cbn [PacketGenerator.generate_from]. unfold PacketGenerator.generate_packet.
    destruct (NetworkGenerator.devices config) as [|d [|d' ds]];
      cbn [length] in Hlen; try lia; [reflexivity|].
    unfold PacketGenerator.choice_of at 1.
    destruct (Random.choice d [d] r) as [src r1] eqn:Ec.
    assert (src = d) as ->.
    { pose proof (PacketFacts.choice_In d [d] r ltac:(discriminate)) as H.
      rewrite Ec in H. destruct H as [H|[]]. symmetry. exact H. }
    cbn [List.filter]. rewrite (bool_decide_eq_true_2 _ eq_refl). reflexivity.
Qed.


(** ** More on the profile files *)

Module ProfileFileFacts.
Import Exn Json FS SaveLoadManager.

Lemma delete_profile_str (mgr : manager) (n : string) (st : fs) :
  delete_profile mgr (JStr n) st
  = match files st !! Spec.file_of mgr n with
    | None => (Ok (false, NoSuchProfile (JStr n)), st)
    | Some _ =>
        if denied st (Spec.file_of mgr n)
        then (Ok (false, DeleteError OSError), st)
        else (Ok (true, Deleted (JStr n)),
              with_files (delete (Spec.file_of mgr n) (files st)) st)
    end.
Proof.
  unfold delete_profile, delete_profile_try, try_except, bind, filename_of,
    path_exists, gets, remove, ret.
  rewrite SaveLoadFacts.filename_str.
  destruct (files st !! Spec.file_of mgr n) as [f|] eqn:E; cbn; rewrite ?E;
    [|reflexivity].
  destruct (denied st (Spec.file_of mgr n)); reflexivity.
Qed.

Lemma profile_exists_str (mgr : manager) (n : string) (st : fs) :
  profile_exists mgr (JStr n) st
  = (Ok match files st !! Spec.file_of mgr n with Some _ => true | None => false end, st).
Proof.
  unfold profile_exists, bind, filename_of, path_exists, gets.
  rewrite SaveLoadFacts.filename_str. reflexivity.
Qed.

(** Saving what is already stamped only moves [saved_at]. *)
Lemma stamp_again (t1 t2 u1 u2 : string) (d : list (string * json)) :
  stamp u1 u2 (stamp t1 t2 d) = Py.set "saved_at" (JStr u1) (stamp t1 t2 d).
Proof.
  assert (forall k v (e : list (string * json)),
             Py.has_key k (Py.set k v e) = true) as Hset.
  { intros k v e. unfold Py.has_key. rewrite StrFacts.get_set, String.eqb_refl.
    reflexivity. }
  assert (forall k k' v (e : list (string * json)),
             Py.has_key k e = true -> Py.has_key k (Py.set k' v e) = true) as Hkeep.
  { intros k k' v e. unfold Py.has_key. rewrite StrFacts.get_set.
    destruct (String.eqb k k'); [reflexivity | exact (fun H => H)]. }
  assert (Py.has_key "created_at" (stamp t1 t2 d) = true
          /\ Py.has_key "progress" (stamp t1 t2 d) = true) as [Hc Hp].
  { unfold stamp.
    destruct (Py.has_key "created_at" (Py.set "saved_at" (JStr t1) d)) eqn:E1.
    - destruct (Py.has_key "progress" (Py.set "saved_at" (JStr t1) d)) eqn:E2.
      + split; assumption.
      + split; [apply Hkeep, E1 | apply Hset].
    - destruct (Py.has_key "progress"
                  (Py.set "created_at" (JStr t2) (Py.set "saved_at" (JStr t1) d))) eqn:E2.
      + split; [apply Hset | exact E2].
      + split; [apply Hkeep, Hset | apply Hset]. }
  unfold stamp at 1.
  rewrite (Hkeep _ "saved_at" (JStr u1) _ Hc), (Hkeep _ "saved_at" (JStr u1) _ Hp).
  reflexivity.
Qed.

Lemma sfilter_chars (p : ascii -> bool) (s : string) (c : ascii) :
  Py.char_in c (Py.sfilter p s) = true -> p c = true.
Proof.
  induction s as [|x s IH]; cbn [Py.sfilter Py.char_in]; [discriminate|].
  destruct (p x) eqn:E; [|exact IH]. cbn [Py.char_in].
  intros [H|H]%orb_prop; [|apply IH, H]. apply Ascii.eqb_eq in H. subst. exact E.
Qed.

Lemma smap_chars (f : ascii -> ascii) (s : string) (c : ascii) :
  Py.char_in c (Py.smap f s) = true ->
  exists x, Py.char_in x s = true /\ c = f x.
Proof.
  induction s as [|x s IH]; cbn [Py.smap Py.char_in]; [discriminate|].
  intros [H|H]%orb_prop.
  - apply Ascii.eqb_eq in H. exists x. rewrite Ascii.eqb_refl. split; [reflexivity | exact H].
  - destruct (IH H) as (y & Hy & ->). exists y. rewrite Hy, orb_true_r.
    split; reflexivity.
Qed.

Lemma keep_char_lower (x : ascii) :
  keep_char x = true -> Props.safe_char (Py.lower_char x) = true.
Proof.
  revert x.
  enough (forall x, implb (keep_char x) (Props.safe_char (Py.lower_char x)) = true) as E.
  { intros x H. specialize (E x). rewrite H in E. exact E. }
  apply CharFacts.forall_char. vm_compute. reflexivity.
Qed.

Lemma isalnum_keep (x : ascii) : Py.isalnum x = true -> keep_char x = true.
Proof. unfold keep_char. intros ->. reflexivity. Qed.

Lemma prefix_chars (a b : string) (c : ascii) :
  String.prefix a b = true -> Py.char_in c a = true -> Py.char_in c b = true.
Proof.
  revert b. induction a as [|x a IH]; intros b; [discriminate 2|].
  destruct b as [|y b]; cbn [String.prefix Py.char_in]; [discriminate|].
  destruct (ascii_dec x y) as [<-|]; [|discriminate].
  intros Hp [H|H]%orb_prop; [rewrite H; reflexivity|].
  rewrite (IH b Hp H). apply orb_true_r.
Qed.

Lemma contains_chars (a b : string) (c : ascii) :
  contains a b = true -> Py.char_in c a = true -> Py.char_in c b = true.
Proof.
  induction b as [|y b IH]; cbn [contains]; rewrite orb_false_r || idtac.
  - intros H. apply (prefix_chars a "" c H).
  - intros [H|H]%orb_prop Hc; [apply (prefix_chars a _ c H Hc)|].
    cbn [Py.char_in]. rewrite (IH H Hc). apply orb_true_r.
Qed.

Lemma keep_str_chars (part : string) (c : ascii) :
  keep_str part = true -> Py.char_in c part = true -> keep_char c = true.
Proof.
  unfold keep_str, str_isalnum. intros [H|H]%orb_prop Hc.
  - apply andb_prop in H as [_ H]. apply String.eqb_eq in H.
    rewrite <- H in Hc. apply isalnum_keep, (sfilter_chars _ _ _ Hc).
  - unfold keep_char. rewrite (contains_chars _ _ c H Hc). apply orb_true_r.
Qed.

Lemma concat_kept_chars (parts : list string) (c : ascii) :
  Py.char_in c (concat_kept parts) = true -> keep_char c = true.
Proof.
  induction parts as [|part parts IH]; cbn [concat_kept]; [discriminate|].
  destruct (keep_str part) eqn:E; [|exact IH].
  rewrite NumberFacts.char_in_app. intros [H|H]%orb_prop; [|apply IH, H].
  apply (keep_str_chars part c E H).
Qed.

Lemma lower_safe (s : string) :
  (forall c, Py.char_in c s = true -> keep_char c = true) ->
  forall c, Py.char_in c (Py.lower s) = true -> Props.safe_char c = true.
Proof.
  intros H c Hc. apply smap_chars in Hc as (x & Hx & ->).
  apply keep_char_lower, H, Hx.
Qed.

Lemma clean_nickname_safe (nickname : json) (clean : string) :
  clean_nickname nickname = Ok clean ->
  forall c, Py.char_in c clean = true -> Props.safe_char c = true.
Proof.
  destruct nickname as [| | |s|l|d]; cbn [clean_nickname]; try discriminate.
  - intros [= <-]. apply lower_safe. intros c. apply sfilter_chars.
  - destruct (strs_of l) as [parts|e]; [|discriminate].
    intros [= <-]. apply lower_safe. intros c. apply concat_kept_chars.
  - intros [= <-]. apply lower_safe. intros c. apply concat_kept_chars.
Qed.

(** A character of a cleaned name is no path separator and no dot. *)
Lemma safe_not_separator (c : ascii) :
  Props.safe_char c = true -> Py.char_in c "/\." = false.
Proof.
  intros H. apply negb_true_iff. revert c H.
  enough (forall c, implb (Props.safe_char c) (negb (Py.char_in c "/\.")) = true) as E.
  { intros c H. specialize (E c). rewrite H in E. exact E. }
  apply CharFacts.forall_char. vm_compute. reflexivity.
Qed.

End ProfileFileFacts.

(** X24.  [delete_profile] succeeds exactly when the file of the nickname
    exists and may be removed.  After a success the profile neither exists
    nor loads, every other file is as before, and deleting again reports
    that there is no such profile; a failure leaves the disk untouched. *)
Theorem X24_delete_profile (mgr : SaveLoadManager.manager) (n : string) (st : FS.fs) :
  let file := Spec.file_of mgr n in
  let r := SaveLoadManager.delete_profile mgr (Json.JStr n) st in
  (SaveLoadManager.success (fst r) = true
   <-> FS.files st !! file <> None /\ FS.denied st file = false)
  /\ (SaveLoadManager.success (fst r) = true ->
      fst (SaveLoadManager.profile_exists mgr (Json.JStr n) (snd r)) = Exn.Ok false
      /\ fst (SaveLoadManager.load_profile mgr (Json.JStr n) (snd r)) = Exn.Ok Json.JNull
      /\ (forall path, path <> file -> FS.files (snd r) !! path = FS.files st !! path)
      /\ fst (SaveLoadManager.delete_profile mgr (Json.JStr n) (snd r))
         = Exn.Ok (false, SaveLoadManager.NoSuchProfile (Json.JStr n)))
  /\ (SaveLoadManager.success (fst r) = false -> snd r = st).
Proof.
  cbv zeta. rewrite ProfileFileFacts.delete_profile_str.
  destruct (FS.files st !! Spec.file_of mgr n) as [f|] eqn:E.
  - destruct (FS.denied st (Spec.file_of mgr n)) eqn:D; cbn [fst snd SaveLoadManager.success].
    + split; [split; [discriminate | intros [_ H]; discriminate H]|].
      split; [discriminate | reflexivity].
    + split; [split; [intros _; split; [discriminate | reflexivity] | reflexivity]|].
      split; [|discriminate]. intros _.
      rewrite ProfileFileFacts.profile_exists_str, SaveLoadFacts.load_profile_str,
        ProfileFileFacts.delete_profile_str.
      cbn [fst FS.files FS.with_files]. rewrite lookup_delete_eq.
      repeat split. intros path Hpath. apply lookup_delete_ne. congruence.
  - cbn [fst snd SaveLoadManager.success].
    split; [split; [discriminate | intros [H _]; contradiction]|].
    split; [discriminate | reflexivity].
Qed.

(** X25.  A [save_profile] that is refused before the file opens leaves
    the disk as it was; one that fails while writing (disk full) has
    already truncated the file: the profile saved before is lost, it loads
    as [None] although [profile_exists] still answers [True]. *)
Theorem X25_failed_save (mgr : SaveLoadManager.manager) (t1 t2 n : string)
    (d : list (string * Json.json)) (st : FS.fs) :
  Py.get "nickname" d = Some (Json.JStr n) ->
  let file := Spec.file_of mgr n in
  let r := SaveLoadManager.save_profile mgr t1 t2 (Json.JDict d) st in
  (FS.denied st file = true ->
   SaveLoadManager.success (fst r) = false /\ snd r = st)
  /\ (FS.denied st file = false -> FS.disk_full st = true ->
      SaveLoadManager.success (fst r) = false
      /\ fst (SaveLoadManager.load_profile mgr (Json.JStr n) (snd r)) = Exn.Ok Json.JNull
      /\ fst (SaveLoadManager.profile_exists mgr (Json.JStr n) (snd r)) = Exn.Ok true).
Proof.
  intros Hn. cbv zeta. rewrite (SaveLoadFacts.save_profile_str _ _ _ _ _ _ Hn).
  split.
  - intros ->. split; reflexivity.
  - intros -> ->. cbn [fst snd SaveLoadManager.success].
    rewrite SaveLoadFacts.load_profile_str, ProfileFileFacts.profile_exists_str.
    cbn [fst FS.files FS.with_files]. rewrite lookup_insert_eq. repeat split.
Qed.

Lemma X25_failed_save_witness :
  let mgr := SaveLoadManager.mkManager "./data/profiles" in
  let bob := [("nickname", Json.JStr "bob"); ("xp", Json.JInt 5)] in
  let st := FS.mkFs ∅ (fun _ => Exn.Ok []) (fun _ => false) false in
  let st1 := snd (SaveLoadManager.save_profile mgr "t1" "t1" (Json.JDict bob) st) in
  let full := FS.mkFs (FS.files st1) (FS.listdir st1) (FS.denied st1) true in
  fst (SaveLoadManager.load_profile mgr (Json.JStr "bob") full)
  = Exn.Ok (Json.JDict (SaveLoadManager.stamp "t1" "t1" bob))
  /\ fst (SaveLoadManager.load_profile mgr (Json.JStr "bob")
            (snd (SaveLoadManager.save_profile mgr "t2" "t2" (Json.JDict bob) full)))
     = Exn.Ok Json.JNull.
Proof.
  cbv zeta. split; [vm_compute; reflexivity|].
  apply (X25_failed_save (SaveLoadManager.mkManager "./data/profiles") "t2" "t2" "bob"
           [("nickname", Json.JStr "bob"); ("xp", Json.JInt 5)]); reflexivity.
Defined.

(** X26.  Saving again what [load_profile] returned changes [saved_at] and
    nothing else: [created_at], [progress] and every other entry, and the
    order of the entries, are those of the first save. *)
Theorem X26_save_load_save (mgr : SaveLoadManager.manager) (t1 t2 u1 u2 n : string)
    (d : list (string * Json.json)) (st : FS.fs) :
  Py.get "nickname" d = Some (Json.JStr n) ->
  SaveLoadManager.success
    (fst (SaveLoadManager.save_profile mgr t1 t2 (Json.JDict d) st)) = true ->
  let st1 := snd (SaveLoadManager.save_profile mgr t1 t2 (Json.JDict d) st) in
  exists d1,
    fst (SaveLoadManager.load_profile mgr (Json.JStr n) st1) = Exn.Ok (Json.JDict d1)
    /\ Py.get "saved_at" d1 = Some (Json.JStr t1)
    /\ SaveLoadManager.success
         (fst (SaveLoadManager.save_profile mgr u1 u2 (Json.JDict d1) st1)) = true
    /\ fst (SaveLoadManager.load_profile mgr (Json.JStr n)
              (snd (SaveLoadManager.save_profile mgr u1 u2 (Json.JDict d1) st1)))
       = Exn.Ok (Json.JDict (Py.set "saved_at" (Json.JStr u1) d1)).
Proof.
  intros Hn. cbv zeta. rewrite (SaveLoadFacts.save_profile_str _ _ _ _ _ _ Hn).
  destruct (FS.denied st (Spec.file_of mgr n)) eqn:D; [discriminate|].
  destruct (FS.disk_full st) eqn:F; [discriminate|]. intros _. cbn [snd].
  exists (SaveLoadManager.stamp t1 t2 d).
  assert (Py.get "nickname" (SaveLoadManager.stamp t1 t2 d) = Some (Json.JStr n)) as Hn1
    by (rewrite SaveLoadFacts.get_stamp_nickname; exact Hn).
  rewrite (SaveLoadFacts.save_profile_str _ _ _ _ _ _ Hn1).
  cbn [FS.denied FS.disk_full FS.with_files]. rewrite D, F.
  rewrite !SaveLoadFacts.load_profile_str.
  cbn [fst snd FS.files FS.with_files SaveLoadManager.success].
  rewrite !lookup_insert_eq, ProfileFileFacts.stamp_again.
  repeat split.
  unfold SaveLoadManager.stamp.
  repeat match goal with
         | |- context [if ?b then _ else _] => destruct b
         end;
    rewrite ?StrFacts.get_set; reflexivity.
Qed.

Lemma X26_save_load_save_witness :
  let mgr := SaveLoadManager.mkManager "./data/profiles" in
  let bob := [("nickname", Json.JStr "bob"); ("xp", Json.JInt 5)] in
  let st := FS.mkFs ∅ (fun _ => Exn.Ok []) (fun _ => false) false in
  let st1 := snd (SaveLoadManager.save_profile mgr "t1" "t1" (Json.JDict bob) st) in
  exists d1,
    fst (SaveLoadManager.load_profile mgr (Json.JStr "bob") st1)
    = Exn.Ok (Json.JDict d1)
    /\ Py.get "saved_at" d1 = Some (Json.JStr "t1")
    /\ SaveLoadManager.success
         (fst (SaveLoadManager.save_profile mgr "t2" "t2" (Json.JDict d1) st1)) = true
    /\ fst (SaveLoadManager.load_profile mgr (Json.JStr "bob")
              (snd (SaveLoadManager.save_profile mgr "t2" "t2" (Json.JDict d1) st1)))
       = Exn.Ok (Json.JDict (Py.set "saved_at" (Json.JStr "t2") d1)).
Proof.
  apply (X26_save_load_save (SaveLoadManager.mkManager "./data/profiles")
           "t1" "t1" "t2" "t2" "bob"
           [("nickname", Json.JStr "bob"); ("xp", Json.JInt 5)]
           (FS.mkFs ∅ (fun _ => Exn.Ok []) (fun _ => false) false));
    reflexivity.
Defined.

(** X27.  The path [_get_profile_filename] returns is the profiles
    directory, a separator, a cleaned name and [_profile.json].  The cleaned
    name has no [/], [\] or [.], so no nickname reaches a file outside the
    directory; for an ASCII nickname it is made only of [a-z], [0-9], [_]
    and [-].  The function raises only for a nickname that cannot be
    iterated or whose elements are not strings. *)
Theorem X27_profile_path_is_safe (mgr : SaveLoadManager.manager) (nickname : Json.json) :
  match SaveLoadManager._get_profile_filename mgr nickname with
  | Exn.Ok path =>
      exists clean,
        path = SaveLoadManager.profiles_dir mgr +:+ "/" +:+ clean +:+ "_profile.json"
        /\ (forall c, Py.char_in c clean = true -> Py.char_in c "/\." = false)
        /\ (Props.ascii_nickname nickname = true ->
            forall c, Py.char_in c clean = true -> Props.safe_char c = true)
  | Exn.Raise e => e = Exn.TypeError \/ e = Exn.AttributeError
  end.
Proof.
  unfold SaveLoadManager._get_profile_filename.
  pose proof (ProfileFileFacts.clean_nickname_safe nickname) as Hsafe.
  destruct (SaveLoadManager.clean_nickname nickname) as [clean|e] eqn:E.
  - exists clean. split; [reflexivity|]. split.
    + intros c Hc. apply (ProfileFileFacts.safe_not_separator c).
      apply (Hsafe clean eq_refl c Hc).
    + intros _. apply Hsafe. reflexivity.
  - clear Hsafe. destruct nickname as [| | |s|l|d]; cbn in E; try discriminate;
      try (injection E as <-; left; reflexivity).
    right. induction l as [|[| | |s| |] l IH]; cbn in E; try discriminate;
      try (injection E as <-; reflexivity).
    destruct (SaveLoadManager.strs_of l) as [parts|e']; [discriminate|].
    injection E as <-. apply IH. reflexivity.
Qed.


(** ** The devices of [create_device] *)

Module DeviceFacts.
Import Random NetworkGenerator.

Lemma sample_loop_length {A} (d : A) (k : nat) (pool : list A) (m : nat) (r : rng) :
  length (fst (sample_loop d pool m k r)) = k.
Proof.
  revert pool m r. induction k as [|k IH]; intros pool m r; [reflexivity|].
  cbn [sample_loop]. destruct (randbelow (Z.of_nat m) r) as [j r1].
  specialize (IH (<[Z.to_nat j := nth (m - 1) pool d]> pool) (m - 1)%nat r1).
  destruct (sample_loop d _ (m - 1) k r1) as [rest r2]. cbn [fst length] in *.
  rewrite IH. reflexivity.
Qed.

Lemma sample_In (d : Z) (population : list Z) (k : nat) (r : rng) (x : Z) :
  (k <= length population)%nat -> NoDup population ->
  In x (fst (sample d population k r)) -> In x population.
Proof.
  intros Hk Hnd Hx. unfold sample in Hx.
  destruct (SampleFacts.sample_loop_distinct d k population (length population) r
              Hk ltac:(lia)) as [_ Hin].
  { rewrite firstn_all. exact Hnd. }
  apply list_elem_of_In in Hx. apply Hin in Hx. rewrite firstn_all in Hx.
  apply list_elem_of_In, Hx.
Qed.

Lemma risky_possible (key : template_key) (p : Z) :
  In p (risky_ports (DEVICE_TEMPLATES key)) -> In p (possible_ports (DEVICE_TEMPLATES key)).
Proof. destruct key; cbn; tauto. Qed.

Lemma possible_length (key : template_key) :
  (2 <= length (possible_ports (DEVICE_TEMPLATES key)))%nat.
Proof. destruct key; cbn; lia. Qed.

(** The ports [create_device] selects, before they are sorted. *)
Lemma create_device_ports (key : template_key) (host_id : nat) (r : rng) :
  let t := DEVICE_TEMPLATES key in
  exists selected r3,
    create_device key host_id r
    = (let (m, r4) := generate_mac r3 in
       (mkDevice (t_name t) (generate_ip host_id) m (t_type t)
          (Sort.sorted selected) (trusted t) false, r4))
    /\ NoDup selected
    /\ (forall p, In p selected -> In p (possible_ports t))
    /\ (2 <= length selected <= 4)%nat
    /\ (risky_ports t = [] ->
        length selected = Nat.min (length selected) (length (possible_ports t))
        /\ (length selected <= 3)%nat).
Proof.
  cbv zeta. unfold create_device.
  pose proof (PacketFacts.randint_range 2 3 r ltac:(lia)) as Hnum.
  destruct (randint 2 3 r) as [num_ports r1]. cbn [fst] in Hnum.
  pose proof (possible_length key) as Hpos.
  set (k := Nat.min (Z.to_nat num_ports) (length (possible_ports (DEVICE_TEMPLATES key)))).
  assert (2 <= k <= 3)%nat as Hk by (subst k; lia).
  assert (k <= length (possible_ports (DEVICE_TEMPLATES key)))%nat as Hle by (subst k; lia).
  pose proof (SampleFacts.sample_distinct 0 _ k r1 Hle
                (GeneratorFacts.possible_ports_distinct key)) as Hnd.
  pose proof (fun x => sample_In 0 _ k r1 x Hle
                (GeneratorFacts.possible_ports_distinct key)) as Hin.
  pose proof (sample_loop_length 0 k (possible_ports (DEVICE_TEMPLATES key))
                (length (possible_ports (DEVICE_TEMPLATES key))) r1) as Hlen.
  fold (sample 0 (possible_ports (DEVICE_TEMPLATES key)) k r1) in Hlen.
  destruct (sample 0 _ k r1) as [selected r2]. cbn [fst] in Hnd, Hin, Hlen.
  destruct (risky_ports (DEVICE_TEMPLATES key)) as [|p ps] eqn:Hr.
  - exists selected, r2. split; [reflexivity|]. split; [exact Hnd|].
    split; [exact Hin|]. split; [lia|]. intros _. lia.
  - destruct (random r2) as [u r2a]. destruct (gt_0_3 u).
    + pose proof (PacketFacts.choice_In 0 (p :: ps) r2a ltac:(discriminate)) as Hrisky.
      destruct (choice 0 (p :: ps) r2a) as [risky_port r2b]. cbn [fst] in Hrisky.
      rewrite <- Hr in Hrisky. apply risky_possible in Hrisky.
      destruct (Py.int_in risky_port selected) eqn:Hsel.
      * exists selected, r2b. split; [reflexivity|]. split; [exact Hnd|].
        split; [exact Hin|]. split; [lia|]. discriminate.
      * exists (selected ++ [risky_port]), r2b. split; [reflexivity|]. split.
        { apply NoDup_app. split; [exact Hnd|]. split; [|apply NoDup_singleton].
          intros x Hx Hx'. apply list_elem_of_singleton in Hx'. subst x.
          apply list_elem_of_In, StrFacts.int_in_In in Hx. congruence. }
        split.
        { intros q [Hq|[<-|[]]]%in_app_or; [apply Hin, Hq | exact Hrisky]. }
        split; [rewrite length_app; cbn; lia | discriminate].
    + exists selected, r2a. split; [reflexivity|]. split; [exact Hnd|].
      split; [exact Hin|]. split; [lia|]. discriminate.
Qed.

Lemma sorted_In (l : list Z) (x : Z) : In x (Sort.sorted l) <-> In x l.
Proof.
  rewrite <- !list_elem_of_In. rewrite (SortFacts.sorted_perm l). reflexivity.
Qed.

Lemma sorted_length (l : list Z) : length (Sort.sorted l) = length l.
Proof. rewrite (SortFacts.sorted_perm l). reflexivity. Qed.

(** *** The MAC addresses *)

Lemma randints_range (k : nat) (a b : Z) (r : rng) :
  a <= b ->
  length (fst (randints k a b r)) = k
  /\ Forall (fun x => a <= x <= b) (fst (randints k a b r)).
Proof.
  intros Hab. revert r. induction k as [|k IH]; intros r; cbn [randints].
  - split; [reflexivity | constructor].
  - pose proof (PacketFacts.randint_range a b r Hab) as Hx.
    destruct (randint a b r) as [x r1]. cbn [fst] in Hx.
    specialize (IH r1). destruct (randints k a b r1) as [rest r2].
    cbn [fst length] in *. destruct IH as [IHlen IHall].
    split; [rewrite IHlen; reflexivity | constructor; assumption].
Qed.

Lemma hex02_pair (n : Z) : 0 <= n <= 255 -> Props.hex_pair (Py.hex02 n) = true.
Proof.
  intros Hn.
  assert (forallb (fun i => Props.hex_pair (Py.hex02 (Z.of_nat i))) (seq 0 256) = true)
    as Hall by (vm_compute; reflexivity).
  rewrite forallb_forall in Hall.
  specialize (Hall (Z.to_nat n)). rewrite Z2Nat.id in Hall by lia.
  apply Hall, in_seq. lia.
Qed.

Lemma hex_digit_not_colon (c : ascii) :
  Py.char_in c "0123456789ABCDEF" = true -> Ascii.eqb ":" c = false.
Proof.
  intros H. apply negb_true_iff. revert c H.
  enough (forall c, implb (Py.char_in c "0123456789ABCDEF")
                      (negb (Ascii.eqb ":" c)) = true) as E.
  { intros c H. specialize (E c). rewrite H in E. exact E. }
  apply CharFacts.forall_char. vm_compute. reflexivity.
Qed.

Lemma hex_pair_no_colon (s : string) :
  Props.hex_pair s = true -> Py.char_in ":" s = false.
Proof.
  destruct s as [|a [|b [|? ?]]]; cbn [Props.hex_pair]; try discriminate.
  intros [Ha Hb]%andb_prop. cbn [Py.char_in].
  rewrite (hex_digit_not_colon a Ha), (hex_digit_not_colon b Hb). reflexivity.
Qed.

Lemma generate_mac_ok (r : rng) : Props.mac_ok (fst (generate_mac r)).
Proof.
  unfold generate_mac.
  destruct (randints_range 6 0 255 r ltac:(lia)) as [Hlen Hall].
  destruct (randints 6 0 255 r) as [octets r']. cbn [fst] in *.
  destruct octets as [|o1 [|o2 [|o3 [|o4 [|o5 [|o6 [|? ?]]]]]]]; try discriminate Hlen.
  repeat match goal with
         | H : Forall _ (_ :: _) |- _ => apply Forall_cons in H as [?%hex02_pair H]
         end.
  cbn [map Py.join].
  assert (PyExt.split_on ":"
            (Py.hex02 o1 +:+ ":" +:+ Py.hex02 o2 +:+ ":" +:+ Py.hex02 o3 +:+ ":"
             +:+ Py.hex02 o4 +:+ ":" +:+ Py.hex02 o5 +:+ ":" +:+ Py.hex02 o6)
          = [Py.hex02 o1; Py.hex02 o2; Py.hex02 o3; Py.hex02 o4; Py.hex02 o5; Py.hex02 o6])
    as Hsplit.
  { rewrite !(NumberFacts.append_cons ":" ""), !NumberFacts.append_nil_l.
    rewrite !NumberFacts.split_on_app,
      !NumberFacts.split_on_one by (apply hex_pair_no_colon; assumption).
    reflexivity. }
  unfold Props.mac_ok. rewrite Hsplit. split; [reflexivity|].
  repeat constructor; assumption.
Qed.

End DeviceFacts.

(** X28.  Whatever the random state, [create_device] opens between two
    and four ports, all of them among the template's [possible_ports]; at
    most three when the template has no risky port; and the smartphone,
    whose template has two ports, always has exactly 443 and 8080. *)
Theorem X28_open_ports_of_a_device (key : NetworkGenerator.template_key)
    (host_id : nat) (r : Random.rng) :
  let d := fst (NetworkGenerator.create_device key host_id r) in
  let t := NetworkGenerator.DEVICE_TEMPLATES key in
  (forall p, In p (NetworkGenerator.open_ports d) ->
             In p (NetworkGenerator.possible_ports t))
  /\ (2 <= length (NetworkGenerator.open_ports d) <= 4)%nat
  /\ (NetworkGenerator.risky_ports t = [] ->
      (length (NetworkGenerator.open_ports d) <= 3)%nat)
  /\ (key = NetworkGenerator.phone -> NetworkGenerator.open_ports d = [443; 8080]).
Proof.
  cbv zeta.
  destruct (DeviceFacts.create_device_ports key host_id r)
    as (selected & r3 & -> & Hnd & Hin & Hlen & Hsafe).
  destruct (NetworkGenerator.generate_mac r3) as [m r4].
  cbn [fst NetworkGenerator.open_ports].
  split; [intros p Hp; apply Hin, DeviceFacts.sorted_In, Hp|].
  rewrite DeviceFacts.sorted_length. split; [exact Hlen|].
  split; [intros H; apply Hsafe, H|].
  intros ->. destruct (Hsafe eq_refl) as [Hmin _]. cbn in Hmin, Hin.
  destruct selected as [|a [|b [|c rest]]]; cbn [length] in *; try lia.
  apply NoDup_cons in Hnd as [Hab _].
  assert (a <> b) as Hne by (intros ->; apply Hab; left).
  destruct (Hin a ltac:(left; reflexivity)) as [<-|[<-|[]]];
    destruct (Hin b ltac:(right; left; reflexivity)) as [<-|[<-|[]]];
    try contradiction; reflexivity.
Qed.

(** X29.  Every MAC address of [generate_mac], hence of every device of a
    generated network, is six pairs of upper-case hexadecimal digits joined
    by colons; the network id is [net_] followed by a number from 1000 to
    9999. *)
Theorem X29_mac_and_network_id (r : Random.rng) :
  Props.mac_ok (fst (NetworkGenerator.generate_mac r))
  /\ (let config := fst (NetworkGenerator.generate_mission1_network r) in
      Forall (fun d => Props.mac_ok (NetworkGenerator.mac d))
        (NetworkGenerator.devices config)
      /\ exists n : Z,
           1000 <= n <= 9999
           /\ NetworkGenerator.network_id config
              = "net_" +:+ Py.str_of_nat (Z.to_nat n)).
Proof.
  split; [apply DeviceFacts.generate_mac_ok|]. cbv zeta.
  assert (forall key host_id r0,
             Props.mac_ok (NetworkGenerator.mac
                             (fst (NetworkGenerator.create_device key host_id r0))))
    as Hmac.
  { intros key host_id r0.
    destruct (DeviceFacts.create_device_ports key host_id r0) as (sel & r3 & -> & _).
    pose proof (DeviceFacts.generate_mac_ok r3) as H.
    destruct (NetworkGenerator.generate_mac r3) as [m r4]. exact H. }
  unfold NetworkGenerator.generate_mission1_network.
  pose proof (Hmac NetworkGenerator.router 1%nat r) as H1.
  destruct (NetworkGenerator.create_device NetworkGenerator.router 1 r) as [d1 r1].
  pose proof (Hmac NetworkGenerator.player_pc 10%nat r1) as H2.
  destruct (NetworkGenerator.create_device NetworkGenerator.player_pc 10 r1) as [d2 r2].
  pose proof (Hmac NetworkGenerator.phone 20%nat r2) as H3.
  destruct (NetworkGenerator.create_device NetworkGenerator.phone 20 r2) as [d3 r3].
  pose proof (Hmac NetworkGenerator.iot_camera 30%nat r3) as H4.
  destruct (NetworkGenerator.create_device NetworkGenerator.iot_camera 30 r3) as [d4 r4].
  pose proof (Hmac NetworkGenerator.unknown_device 50%nat r4) as H5.
  destruct (NetworkGenerator.create_device NetworkGenerator.unknown_device 50 r4)
    as [d5 r5].
  pose proof (PacketFacts.randint_range 1000 9999 r5 ltac:(lia)) as Hn.
  destruct (Random.randint 1000 9999 r5) as [n r6].
  cbn [fst NetworkGenerator.devices NetworkGenerator.network_id] in *.
  split; [do 5 (constructor; [assumption|]); constructor|].
  exists n. split; [exact Hn | reflexivity].
Qed.


(** ** How far Mission 1 gets *)

Module Mission1ProgressFacts.
Import Objectives Mission1.

Lemma all_required_init (profile : Profile.t) (r : Random.rng) :
  Props.mission1_all_required (init profile r).
Proof. unfold Props.mission1_all_required. cbn. repeat constructor. Qed.

Lemma all_required_exec (c : call) (s : state) :
  Props.mission1_all_required s -> Props.mission1_all_required (exec c s).
Proof.
  unfold Props.mission1_all_required, items. intros H.
  repeat match goal with
         | H : Forall _ (_ :: _) |- _ => apply Forall_cons in H as [? H]
         end.
  cbn [snd flags_of f_required] in *.
  destruct c; cbn [exec];
    unfold update_progress, check_scan_network_complete,
      check_identify_devices_complete, check_find_risky_ports_complete,
      check_isolate_threats_complete, check_block_risky_ports_complete,
      check_final_audit_complete, award_completion_rewards;
    repeat match goal with
           | |- context [if ?b then _ else _] => destruct b
           end;
    cbn; repeat constructor; assumption.
Qed.

Lemma all_required_run (calls : list call) (s : state) :
  Props.mission1_all_required s -> Props.mission1_all_required (run calls s).
Proof.
  revert s. induction calls as [|c calls IH]; intros s H; cbn; [exact H|].
  apply IH, all_required_exec, H.
Qed.

Lemma all_isolated (untrusted : list NetworkGenerator.untrusted_entry) :
  count_isolated untrusted (map NetworkGenerator.ud_mac untrusted) = length untrusted.
Proof.
  apply Mission1MoreFacts.count_isolated_all. intros device Hd.
  apply in_map, Hd.
Qed.

End Mission1ProgressFacts.

(** X30.  Mission 1 gets to five of its seven required objectives and no
    further: one [update_progress] with a terminal state in which the scan
    is typed, five devices are discovered, port 23 is blocked and the
    untrusted devices are isolated completes five, and no sequence of calls
    completes more. *)
Theorem X30_mission1_five_of_seven (profile : Profile.t) (r : Random.rng)
    (calls : list Mission1.call) :
  let s0 := Mission1.init profile r in
  let s := Mission1.run calls s0 in
  Objectives.total_required (Mission1.items (Mission1.objs s)) = 7%nat
  /\ (Objectives.completed_required (Mission1.items (Mission1.objs s)) <= 5)%nat
  /\ Objectives.completed_required
       (Mission1.items
          (Mission1.objs
             (Mission1.update_progress (Props.all_done (Mission1.network_config s0)) s0)))
     = 5%nat.
Proof.
  cbv zeta. split; [|split].
  - pose proof (Mission1ProgressFacts.all_required_run calls _
                  (Mission1ProgressFacts.all_required_init profile r)) as H.
    unfold Props.mission1_all_required, Mission1.items in H.
    repeat match goal with
           | H : Forall _ (_ :: _) |- _ => apply Forall_cons in H as [? H]
           end.
    cbn [snd Objectives.flags_of Objectives.f_required] in *.
    unfold Objectives.total_required, Objectives.count, Mission1.items.
    cbn [List.filter snd Objectives.flags_of Objectives.f_required].
    repeat match goal with
           | H : Objectives.required _ = true |- _ => rewrite H; clear H
           end.
    reflexivity.
  - destruct (Mission1MoreFacts.mission1_reachable_run calls _
                (Mission1MoreFacts.mission1_reachable_init profile r))
      as (_ & Hrisky & Hpackets & _).
    set (o := Mission1.objs (Mission1.run calls (Mission1.init profile r))) in *.
    unfold Objectives.completed_required, Objectives.count, Mission1.items.
    cbn [List.filter snd Objectives.flags_of Objectives.f_required
         Objectives.f_completed].
    rewrite Hrisky, Hpackets, !andb_false_r.
    repeat match goal with
           | |- context [if ?b then _ else _] => destruct b
           end;
      cbn [length]; lia.
  - unfold Mission1.update_progress, Props.all_done, Mission1.init.
    cbn [default from_option id Mission1.commands_history Mission1.ts_blocked_ports
         Mission1.ts_isolated_devices Mission1.ts_devices_discovered
         Mission1.profile_data Mission1.network_config Mission1.objs].
    set (config := fst (NetworkGenerator.generate_mission1_network r)).
    set (untrusted := NetworkGenerator.untrusted_devices (NetworkGenerator.vulns config)).
    unfold Mission1.check_scan_network_complete. cbn [Mission1.commands_used].
    change (Py.str_in "scan network" ["scan network"]) with true. cbv iota.
    cbn [snd]. unfold Mission1.check_identify_devices_complete.
    cbn [Mission1.devices_discovered Mission1.with_objs Mission1.objs length
         Mission1.set_identify_devices Mission1.set_scan_network
         Mission1.identify_devices Objectives.extra Objectives.with_extra
         Objectives.fresh Mission1.target Nat.leb snd
         Mission1.profile_data Mission1.network_config Mission1.commands_used].
    unfold Mission1.check_isolate_threats_complete.
    cbn [Mission1.devices_discovered Mission1.with_objs Mission1.objs
         Mission1.set_isolate_threats Mission1.isolate_threats Objectives.extra
         Objectives.with_extra Objectives.fresh Objectives.complete
         Mission1.target_count snd Mission1.profile_data Mission1.network_config
         Mission1.commands_used].
    fold untrusted. rewrite Mission1ProgressFacts.all_isolated, Nat.leb_refl.
    cbn [snd]. unfold Mission1.check_block_risky_ports_complete.
    change (Py.int_in 23 [23]) with true. cbv iota. cbn [snd].
    pose proof (proj2 (Mission1Facts.final_audit_condition
                         (Mission1.init profile r)
                         (map NetworkGenerator.ud_mac untrusted) [23])) as Haudit.
    unfold Mission1.check_final_audit_complete in *.
    cbn [Mission1.with_objs Mission1.network_config Mission1.init] in *.
    fold config in Haudit |- *. fold untrusted in Haudit |- *.
    match goal with
    | |- context [if ?c then _ else _] => destruct c eqn:Hc
    end.
    + reflexivity.
    + exfalso. cbn [fst] in Haudit.
      assert (false = true) as Habs; [|discriminate Habs].
      apply Haudit. split.
      * intros device Hd. apply in_map, Hd.
      * intros vuln Hv. left. symmetry.
        pose proof (Mission1MoreFacts.scan_devices_ports
                      (NetworkGenerator.devices config)) as Hports.
        rewrite List.Forall_forall in Hports. apply Hports.
        pose proof (Mission1MoreFacts.generated_vulns r) as Hvulns.
        cbv zeta in Hvulns. fold config in Hvulns. rewrite <- Hvulns. exact Hv.
Qed.
